(** * SkillDB: the CV generation route ([app/api/generate-cv/route.ts])

    A shallow embedding of the tenure calculator ([calculateDuration],
    [calculateDurationForCompany]), of the aggregation step of the [GET]
    handler ([total_experience], [professional_activities_rows]) and of the
    handler's sequence of reads, together with the part of the JavaScript
    runtime these functions call: numbers with [NaN], truthiness, the
    time-value algorithms of [Date] (ECMA-262, clause 21.4.1), the ISO date
    format read by [new Date(string)] and written by [toISOString], the
    stable [Array.prototype.sort] and the white-space class of regular
    expressions. What the runtime decides on its own is a parameter of
    the handler: the time zone, the clock, the reading of dates outside
    the ISO forms, the Unicode case tables, the store, the file system,
    the template library and [Headers]. A string holds the UTF-8 bytes of
    its text. *)

From Stdlib Require Import ZArith List String Ascii Bool Lia.
From Stdlib Require Import Permutation Sorted DecimalString.
Import ListNotations.

Local Open Scope string_scope.
Local Open Scope Z_scope.

(* ===================================================================== *)
(** ** JavaScript numbers *)
(* ===================================================================== *)

(** The numbers of this route are time values, calendar fields and their
    differences: integers far below 2^53, and the three special values a
    computation on dates produces. *)
Inductive number : Type :=
| NaN
| PosInf
| NegInf
| Num (z : Z).

Module Number.

Definition neg (a : number) : number :=
  match a with
  | NaN => NaN
  | PosInf => NegInf
  | NegInf => PosInf
  | Num z => Num (- z)
  end.

Definition add (a b : number) : number :=
  match a, b with
  | NaN, _ | _, NaN => NaN
  | PosInf, NegInf | NegInf, PosInf => NaN
  | PosInf, _ | _, PosInf => PosInf
  | NegInf, _ | _, NegInf => NegInf
  | Num x, Num y => Num (x + y)
  end.

Definition sub (a b : number) : number := add a (neg b).

(** [a < b]; every comparison with [NaN] is false. *)
Definition lt (a b : number) : bool :=
  match a, b with
  | NaN, _ | _, NaN => false
  | _, NegInf => false
  | NegInf, _ => true
  | PosInf, _ => false
  | Num _, PosInf => true
  | Num x, Num y => x <? y
  end.

Definition gt (a b : number) : bool := lt b a.

Definition isNaN (a : number) : bool :=
  match a with NaN => true | _ => false end.

(** [Number::toString] on the integers below 10^21 and the special
    values. *)
Definition toString (a : number) : string :=
  match a with
  | NaN => "NaN"
  | PosInf => "Infinity"
  | NegInf => "-Infinity"
  | Num z => NilZero.string_of_int (Z.to_int z)
  end.

(** [Math.min] and [Math.max] applied to an array of numbers. *)
Definition min2 (a b : number) : number :=
  match a, b with
  | NaN, _ | _, NaN => NaN
  | _, _ => if lt b a then b else a
  end.

Definition max2 (a b : number) : number :=
  match a, b with
  | NaN, _ | _, NaN => NaN
  | _, _ => if lt a b then b else a
  end.

Definition Math_min (l : list number) : number := fold_left min2 l PosInf.
Definition Math_max (l : list number) : number := fold_left max2 l NegInf.

End Number.

(* ===================================================================== *)
(** ** Strings and truthiness *)
(* ===================================================================== *)

(** A value that is a string, [null] or [undefined]: [None] stands for the
    two absent values. *)
Definition truthy (v : option string) : bool :=
  match v with
  | None => false
  | Some s => negb (String.eqb s "")
  end.

Definition truthy_str (s : string) : bool := negb (String.eqb s "").

(** [a || b] on strings-or-null. *)
Definition or_else (a b : option string) : option string :=
  if truthy a then a else b.

Definition is_upper (c : ascii) : bool :=
  let n := nat_of_ascii c in (65 <=? n)%nat && (n <=? 90)%nat.

Definition lower_char (c : ascii) : ascii :=
  if is_upper c then ascii_of_nat (nat_of_ascii c + 32) else c.

(** What [String.prototype.toLowerCase] does to a text of ASCII characters:
    the runtime's own function, which follows the Unicode case tables, is a
    parameter of the handler below, and this one stands for it where the
    handler is run on ASCII names. *)
Fixpoint ascii_toLowerCase (s : string) : string :=
  match s with
  | EmptyString => EmptyString
  | String c r => String (lower_char c) (ascii_toLowerCase r)
  end.

(** The white space of ASCII, which is all the white space there can be
    in the texts [trim] is applied to: the calculator builds them from
    digits, ASCII letters and blanks. *)
Definition is_space (c : ascii) : bool :=
  let n := nat_of_ascii c in
  (n =? 32)%nat || ((9 <=? n)%nat && (n <=? 13)%nat).

Fixpoint trimStart (s : string) : string :=
  match s with
  | EmptyString => EmptyString
  | String c r => if is_space c then trimStart r else s
  end.

Fixpoint trimEnd (s : string) : string :=
  match s with
  | EmptyString => EmptyString
  | String c r =>
      match trimEnd r with
      | EmptyString => if is_space c then EmptyString else String c EmptyString
      | r' => String c r'
      end
  end.

(** [String.prototype.trim]. *)
Definition trim (s : string) : string := trimEnd (trimStart s).

(* ===================================================================== *)
(** ** Time values (ECMA-262, 21.4.1) *)
(* ===================================================================== *)

Module Time.

Definition msPerDay : Z := 86400000.
Definition msPerHour : Z := 3600000.
Definition msPerMinute : Z := 60000.
Definition msPerSecond : Z := 1000.
Definition maxTime : Z := 8640000000000000.

Definition Day (t : Z) : Z := t / msPerDay.
Definition TimeWithinDay (t : Z) : Z := t mod msPerDay.

Definition isLeap (y : Z) : bool :=
  if negb (y mod 4 =? 0) then false
  else if negb (y mod 100 =? 0) then true
  else (y mod 400 =? 0).

Definition DaysInYear (y : Z) : Z := if isLeap y then 366 else 365.

Definition DayFromYear (y : Z) : Z :=
  365 * (y - 1970) + (y - 1969) / 4 - (y - 1901) / 100 + (y - 1601) / 400.

Definition TimeFromYear (y : Z) : Z := msPerDay * DayFromYear y.

(** The year of a day number: the largest [y] with [DayFromYear y <= d],
    found from the mean length of a year and one step of correction. *)
Definition YearFromDay (d : Z) : Z :=
  let y := 1970 + (400 * d) / 146097 in
  if d <? DayFromYear y then y - 1
  else if DayFromYear (y + 1) <=? d then y + 1
  else y.

Definition YearFromTime (t : Z) : Z := YearFromDay (Day t).

Definition InLeapYear (t : Z) : Z :=
  if isLeap (YearFromTime t) then 1 else 0.

Definition DayWithinYear (t : Z) : Z :=
  Day t - DayFromYear (YearFromTime t).

(** Day number within the year of the first day of month [m] (0-based). *)
Definition monthStart (leap m : Z) : Z :=
  match m with
  | 0 => 0
  | 1 => 31
  | 2 => 59 + leap
  | 3 => 90 + leap
  | 4 => 120 + leap
  | 5 => 151 + leap
  | 6 => 181 + leap
  | 7 => 212 + leap
  | 8 => 243 + leap
  | 9 => 273 + leap
  | 10 => 304 + leap
  | 11 => 334 + leap
  | _ => 365 + leap
  end.

Definition monthOfDay (leap d : Z) : Z :=
  if d <? 31 then 0
  else if d <? 59 + leap then 1
  else if d <? 90 + leap then 2
  else if d <? 120 + leap then 3
  else if d <? 151 + leap then 4
  else if d <? 181 + leap then 5
  else if d <? 212 + leap then 6
  else if d <? 243 + leap then 7
  else if d <? 273 + leap then 8
  else if d <? 304 + leap then 9
  else if d <? 334 + leap then 10
  else 11.

Definition MonthFromTime (t : Z) : Z :=
  monthOfDay (InLeapYear t) (DayWithinYear t).

Definition DateFromTime (t : Z) : Z :=
  DayWithinYear t - monthStart (InLeapYear t) (MonthFromTime t) + 1.

Definition HourFromTime (t : Z) : Z := (t / msPerHour) mod 24.
Definition MinFromTime (t : Z) : Z := (t / msPerMinute) mod 60.
Definition SecFromTime (t : Z) : Z := (t / msPerSecond) mod 60.
Definition msFromTime (t : Z) : Z := t mod msPerSecond.

Definition MakeTime (h m s ms : Z) : Z :=
  h * msPerHour + m * msPerMinute + s * msPerSecond + ms.

(** [MakeDay] on a month in 0..11. *)
Definition MakeDay (y m dt : Z) : Z :=
  DayFromYear y + monthStart (if isLeap y then 1 else 0) m + dt - 1.

Definition MakeDate (day time : Z) : Z := day * msPerDay + time.

Definition DaysInMonth (y m : Z) : Z :=
  let leap := if isLeap y then 1 else 0 in
  monthStart leap (m + 1) - monthStart leap m.

(** [TimeClip]: a number becomes a time value or [NaN]. *)
Definition TimeClip (n : number) : number :=
  match n with
  | Num t => if Z.abs t <=? maxTime then Num t else NaN
  | _ => NaN
  end.

End Time.

Import Time.

(* ===================================================================== *)
(** ** The ISO date-time format of [Date] (ECMA-262, 21.4.1.32) *)
(* ===================================================================== *)

Module ISO.

Definition bind {A B} (o : option A) (k : A -> option B) : option B :=
  match o with Some a => k a | None => None end.

Local Notation "x <- a ;; k" := (bind a (fun x => k))
  (at level 61, a at next level, right associativity).
Local Notation "' p <- a ;; k" := (bind a (fun x => let p := x in k))
  (at level 61, p pattern, a at next level, right associativity).

Definition digit_of (c : ascii) : option Z :=
  let n := Z.of_nat (nat_of_ascii c) in
  if (48 <=? n) && (n <=? 57) then Some (n - 48) else None.

Definition char_of_digit (d : Z) : ascii := ascii_of_nat (Z.to_nat (48 + d)).

(** Reads exactly [n] decimal digits. *)
Fixpoint digits (n : nat) (acc : Z) (s : string) : option (Z * string) :=
  match n with
  | O => Some (acc, s)
  | S n' =>
      match s with
      | String c r =>
          match digit_of c with
          | Some d => digits n' (10 * acc + d) r
          | None => None
          end
      | EmptyString => None
      end
  end.

(** Writes the [n] low decimal digits of [z], most significant first. *)
Fixpoint pad (n : nat) (z : Z) : string :=
  match n with
  | O => EmptyString
  | S n' => String (char_of_digit ((z / 10 ^ Z.of_nat n') mod 10)) (pad n' z)
  end.

Definition expect (c : ascii) (s : string) : option string :=
  match s with
  | String c' r => if Ascii.eqb c' c then Some r else None
  | EmptyString => None
  end.

(** A year: four digits, or a sign and six digits; [-000000] is not a
    year. *)
Definition year_part (s : string) : option (Z * string) :=
  match s with
  | String c r =>
      if Ascii.eqb c "+" then digits 6 0 r
      else if Ascii.eqb c "-" then
        '(y, r') <- digits 6 0 r ;;
        if y =? 0 then None else Some (- y, r')
      else digits 4 0 s
  | EmptyString => None
  end.

(** What follows the date: nothing (a date-only form, midnight UTC), or
    [THH:mm:ss.sssZ]. *)
Definition time_part (s : string) : option Z :=
  match s with
  | EmptyString => Some 0
  | String c r =>
      if Ascii.eqb c "T" then
        '(h, r) <- digits 2 0 r ;;
        r <- expect ":" r ;;
        '(m, r) <- digits 2 0 r ;;
        r <- expect ":" r ;;
        '(sec, r) <- digits 2 0 r ;;
        r <- expect "." r ;;
        '(ms, r) <- digits 3 0 r ;;
        r <- expect "Z" r ;;
        match r with
        | EmptyString =>
            if (h <=? 23) && (m <=? 59) && (sec <=? 59)
            then Some (MakeTime h m sec ms) else None
        | _ => None
        end
      else None
  end.

(** The two forms this route meets: [YYYY-MM-DD], as the store returns a
    date column, and [YYYY-MM-DDTHH:mm:ss.sssZ], as [toISOString] writes
    it. [None]: the string is in neither form. *)
Definition parse (s : string) : option number :=
  '(y, r) <- year_part s ;;
  r <- expect "-" r ;;
  '(mo, r) <- digits 2 0 r ;;
  r <- expect "-" r ;;
  '(d, r) <- digits 2 0 r ;;
  if (1 <=? mo) && (mo <=? 12) && (1 <=? d) && (d <=? DaysInMonth y (mo - 1))
  then
    tm <- time_part r ;;
    Some (TimeClip (Num (MakeDate (MakeDay y (mo - 1) d) tm)))
  else None.

Definition year_string (y : Z) : string :=
  if (0 <=? y) && (y <=? 9999) then pad 4 y
  else (if y <? 0 then "-" else "+") ++ pad 6 (Z.abs y).

(** [Date.prototype.toISOString] on a time value. *)
Definition format (t : Z) : string :=
  year_string (YearFromTime t) ++ "-" ++ pad 2 (MonthFromTime t + 1) ++ "-"
    ++ pad 2 (DateFromTime t) ++ "T" ++ pad 2 (HourFromTime t) ++ ":"
    ++ pad 2 (MinFromTime t) ++ ":" ++ pad 2 (SecFromTime t) ++ "."
    ++ pad 3 (msFromTime t) ++ "Z".

End ISO.

(* ===================================================================== *)
(** ** Records of the store *)
(* ===================================================================== *)

(** Rows as the queries of the handler select them. A column that can be
    [null] is an [option]. *)

Module SkillFamily.
Record t := { name : option string }.
End SkillFamily.

Module Skill.
Record t := {
  name : option string;
  type : option string;
  skill_families : option SkillFamily.t
}.
End Skill.

Module ExperienceSkill.
Record t := { skills : option Skill.t }.
End ExperienceSkill.

Module Experience.
Record t := {
  company : option string;
  title : option string;
  description : option string;
  startdate : option string;
  enddate : option string;
  experience_skills : option (list ExperienceSkill.t)
}.
End Experience.

Module Training.
Record t := {
  name : option string;
  date : option string;
  provider : option string
}.
End Training.

Module Certification.
Record t := {
  name : option string;
  date : option string
}.
End Certification.

Module UserSkill.
Record t := {
  id : option string;
  hascertification : option bool;
  certificationname : option string;
  certificationdate : option string;
  hastrainings : option bool;
  skills : option Skill.t;
  trainings : option (list Training.t)
}.
End UserSkill.

Definition truthy_bool (b : option bool) : bool :=
  match b with Some true => true | _ => false end.

(** What a [throw] carries: a [RangeError] of the runtime, the error
    object of a failed read, or an error of the file system, of the
    template library or of [Headers]. *)
Inductive thrown : Type :=
| RangeError (message : string)
| ReadError (message : string)
| HostError (message : string).

Inductive result (A : Type) : Type :=
| Ok (a : A)
| Throw (e : thrown).
Arguments Ok {A} a.
Arguments Throw {A} e.

Definition result_bind {A B} (r : result A) (k : A -> result B) : result B :=
  match r with Ok a => k a | Throw e => Throw e end.

(** Hosts to run the definitions on: local time is UTC, or a fixed offset;
    no string outside the ISO forms is a date. *)
Definition UTC : Z -> Z := fun _ => 0.
Definition fixedOffset (minutes : Z) : Z -> Z := fun _ => minutes * msPerMinute.
Definition noLegacy : string -> number := fun _ => NaN.
Definition clock_2025_11_03 : Z := 1762128000000.

(** Midnight UTC of two days, as time values. *)
Definition utc_2020_01_15 : Z := 1579046400000.
Definition utc_2023_04_10 : Z := 1681084800000.

(** Experiences to run the definitions on. *)
Definition stint (company start : string) (end_ : option string)
  : Experience.t :=
  {| Experience.company := Some company;
     Experience.title := Some "Engineer";
     Experience.description := None;
     Experience.startdate := Some start;
     Experience.enddate := end_;
     Experience.experience_skills := None |}.

Definition acme_a : Experience.t := stint "Acme" "2019-01-01" (Some "2020-06-01").
Definition acme_b : Experience.t := stint "ACME" "2020-01-01" (Some "2021-01-01").
Definition other_c : Experience.t := stint "Initech" "2010-01-01" None.

Definition no_start : Experience.t :=
  {| Experience.company := Some "Acme";
     Experience.title := Some "Engineer";
     Experience.description := None;
     Experience.startdate := None;
     Experience.enddate := Some "2021-01-01";
     Experience.experience_skills :=
       Some [{| ExperienceSkill.skills :=
                  Some {| Skill.name := Some "Rust";
                          Skill.type := Some "hard";
                          Skill.skill_families :=
                            Some {| SkillFamily.name := Some "Languages" |}
                       |} |}] |}.

(** A start date that the store can hold and [Date] cannot read. *)
Definition bad_start : Experience.t := stint "Acme" "infinity" (Some "2020-06-01").

(** User skills, trainings and certifications to run the definitions on. *)
Definition aws_skill : Skill.t :=
  {| Skill.name := Some "AWS"; Skill.type := Some "hard";
     Skill.skill_families := None |}.

Definition aws_training : Training.t :=
  {| Training.name := Some "AWS Essentials";
     Training.date := Some "2022-09-12";
     Training.provider := Some "Amazon" |}.

Definition user_skill (hascertification : option bool)
  (certificationname certificationdate : option string)
  (hastrainings : option bool) (trainings : option (list Training.t))
  : UserSkill.t :=
  {| UserSkill.id := Some "us-1";
     UserSkill.hascertification := hascertification;
     UserSkill.certificationname := certificationname;
     UserSkill.certificationdate := certificationdate;
     UserSkill.hastrainings := hastrainings;
     UserSkill.skills := Some aws_skill;
     UserSkill.trainings := trainings |}.

(** Trainings are nested under the skill, and the flag is off. *)
Definition unflagged_trainings : UserSkill.t :=
  user_skill None None None (Some false) (Some [aws_training]).

Definition flagged_trainings : UserSkill.t :=
  user_skill None None None (Some true) (Some [aws_training]).

(** Flagged as certified, without a certification name of its own. *)
Definition certified_unnamed : UserSkill.t :=
  user_skill (Some true) None (Some "2023-05-01") None None.

(** Flagged as certified, with a certification name of its own. *)
Definition certified_named : UserSkill.t :=
  user_skill (Some true) (Some "Solutions Architect Associate")
    (Some "2023-05-01") None None.

Definition cert (name : string) (date : option string) : Certification.t :=
  {| Certification.name := Some name; Certification.date := date |}.

(* ===================================================================== *)
(** ** The tenure calculator *)
(* ===================================================================== *)

Section Route.

(** The host: the offset of local time from UTC at a time value, in
    milliseconds; what [Date.parse] makes of a string that is in none of
    the ISO forms above (left to the implementation by ECMA-262); and the
    clock. *)
Variable LocalTZA : Z -> Z.
Variable legacyParse : string -> number.
Variable now : Z.

(** [String.prototype.toLowerCase] of the runtime, with its Unicode case
    tables. *)
Variable toLowerCase : string -> string.

(** A [Date] object is its time value: [Num t], or [NaN] for an invalid
    date. *)
Definition Date_parse (s : string) : number :=
  match ISO.parse s with
  | Some n => n
  | None => TimeClip (legacyParse s)
  end.

(** [new Date(v)] on a string, or on [null] (which is the epoch). *)
Definition new_Date (v : option string) : number :=
  match v with
  | Some s => Date_parse s
  | None => Num 0
  end.

(** [new Date(n)] on a number. *)
Definition new_Date_num (n : number) : number := TimeClip n.

(** [new Date()]. *)
Definition Date_now : number := TimeClip (Num now).

Definition getTime (d : number) : number := d.

Definition LocalTime (t : Z) : Z := t + LocalTZA t.

Definition getFullYear (d : number) : number :=
  match d with
  | Num t => Num (YearFromTime (LocalTime t))
  | _ => NaN
  end.

Definition getMonth (d : number) : number :=
  match d with
  | Num t => Num (MonthFromTime (LocalTime t))
  | _ => NaN
  end.

Definition toISOString (d : number) : result string :=
  match d with
  | Num t => Ok (ISO.format t)
  | _ => Throw (RangeError "Invalid time value")
  end.

Definition calculateDuration (startDateStr endDateStr : option string)
  : string :=
  if negb (truthy startDateStr) then ""
  else
    let start := new_Date startDateStr in
    let end_ := if truthy endDateStr then new_Date endDateStr else Date_now in
    let years := Number.sub (getFullYear end_) (getFullYear start) in
    let months := Number.sub (getMonth end_) (getMonth start) in
    let borrow := Number.lt months (Num 0) in
    let years := if borrow then Number.sub years (Num 1) else years in
    let months := if borrow then Number.add months (Num 12) else months in
    let result := "" in
    let result :=
      if Number.gt years (Num 0)
      then result ++ Number.toString years ++ " an"
             ++ (if Number.gt years (Num 1) then "s" else "")
      else result in
    let result :=
      if Number.gt months (Num 0)
      then
        let result := if truthy_str result then result ++ " " else result in
        result ++ Number.toString months ++ " mois"
      else result in
    let trimmed := trim result in
    if truthy_str trimmed then trimmed else "Moins d'un mois".

(** The three steps of [calculateDuration], named: the year and month
    differences after the borrow, their rendering, and the two together on
    a pair of dates. *)
Definition tenure_span (start end_ : number) : number * number :=
  let years := Number.sub (getFullYear end_) (getFullYear start) in
  let months := Number.sub (getMonth end_) (getMonth start) in
  if Number.lt months (Num 0)
  then (Number.sub years (Num 1), Number.add months (Num 12))
  else (years, months).

Definition render_tenure (years months : number) : string :=
  let result := "" in
  let result :=
    if Number.gt years (Num 0)
    then result ++ Number.toString years ++ " an"
           ++ (if Number.gt years (Num 1) then "s" else "")
    else result in
  let result :=
    if Number.gt months (Num 0)
    then
      let result := if truthy_str result then result ++ " " else result in
      result ++ Number.toString months ++ " mois"
    else result in
  let trimmed := trim result in
  if truthy_str trimmed then trimmed else "Moins d'un mois".

Definition duration_between (start end_ : number) : string :=
  render_tenure (fst (tenure_span start end_)) (snd (tenure_span start end_)).

Definition company_matches (companyName : string) (exp : Experience.t)
  : bool :=
  match Experience.company exp with
  | Some c =>
      truthy_str c && String.eqb (toLowerCase c) (toLowerCase companyName)
  | None => false
  end.

Definition effective_end (exp : Experience.t) : number :=
  if truthy (Experience.enddate exp)
  then new_Date (Experience.enddate exp)
  else Date_now.

Definition calculateDurationForCompany
  (experiences : list Experience.t) (companyName : string) : result string :=
  let companyExperiences := filter (company_matches companyName) experiences in
  if (List.length companyExperiences =? 0)%nat then Ok "N/A"
  else
    let allStartDates :=
      map (fun exp => new_Date (Experience.startdate exp)) companyExperiences in
    let allEndDates := map effective_end companyExperiences in
    let minStartDate :=
      new_Date_num (Number.Math_min (map getTime allStartDates)) in
    let maxEndDate :=
      new_Date_num (Number.Math_max (map getTime allEndDates)) in
    result_bind (toISOString minStartDate) (fun s =>
    result_bind (toISOString maxEndDate) (fun e =>
    Ok (calculateDuration (Some s) (Some e)))).

(** The earliest and the latest of a list of dates. *)
Definition is_earliest (t : Z) (dates : list number) : Prop :=
  In (Num t) dates /\ forall t', In (Num t') dates -> t <= t'.

Definition is_latest (t : Z) (dates : list number) : Prop :=
  In (Num t) dates /\ forall t', In (Num t') dates -> t' <= t.

Definition start_time (exp : Experience.t) : number :=
  new_Date (Experience.startdate exp).

Definition valid_date (d : number) : Prop := exists t, d = Num t.

(** The [total_experience] entry of the view model. *)
Definition total_experience (experiences : list Experience.t)
  : result string :=
  if (0 <? List.length experiences)%nat then
    let allStartDates :=
      map (fun exp => getTime (new_Date (Experience.startdate exp)))
        experiences in
    let allEndDates :=
      map (fun exp => getTime (effective_end exp)) experiences in
    if (0 <? List.length allStartDates)%nat
       && forallb (fun d => negb (Number.isNaN d)) allStartDates
    then
      let minStartDate := new_Date_num (Number.Math_min allStartDates) in
      let maxEndDate := new_Date_num (Number.Math_max allEndDates) in
      result_bind (toISOString minStartDate) (fun s =>
      result_bind (toISOString maxEndDate) (fun e =>
      Ok (calculateDuration (Some s) (Some e))))
    else Ok "N/A"
  else Ok "N/A".

(** The total as the specification words it, to compare with
    [total_experience]: the invalid dates are left out of the two
    reductions, and the answer is "N/A" only when no experience, or no
    valid date, is left. *)
Definition total_experience_excluding_invalid
  (experiences : list Experience.t) : result string :=
  let valid := fun d => negb (Number.isNaN d) in
  let allStartDates := filter valid (map start_time experiences) in
  let allEndDates := filter valid (map effective_end experiences) in
  if (0 <? List.length allStartDates)%nat && (0 <? List.length allEndDates)%nat
  then
    let minStartDate := new_Date_num (Number.Math_min allStartDates) in
    let maxEndDate := new_Date_num (Number.Math_max allEndDates) in
    result_bind (toISOString minStartDate) (fun s =>
    result_bind (toISOString maxEndDate) (fun e =>
    Ok (calculateDuration (Some s) (Some e))))
  else Ok "N/A".

(* =================================================================== *)
(** ** [Array.prototype.sort] *)
(* =================================================================== *)

(** The value of the comparator as the sort reads it: [NaN] counts as
    [+0] (ECMA-262, [CompareArrayElements]). *)
Definition SortCompare {A} (comparefn : A -> A -> number) (x y : A)
  : number :=
  match comparefn x y with
  | NaN => Num 0
  | v => v
  end.

(** The sort is stable, which fixes its result for every consistent
    comparator. Elements are taken from left to right and each one is
    placed behind the elements of the sorted prefix that do not compare
    greater than it. For a comparator that is not consistent (one that
    answers [NaN] for some pairs and not for others) ECMA-262 leaves the
    order to the implementation: what is proved below of the order is
    proved for keys that are numbers, and of two elements. *)
Fixpoint sort_insert {A} (comparefn : A -> A -> number) (x : A)
  (sorted : list A) : list A :=
  match sorted with
  | [] => [x]
  | y :: rest =>
      if Number.lt (SortCompare comparefn x y) (Num 0)
      then x :: y :: rest
      else y :: sort_insert comparefn x rest
  end.

Definition Array_sort {A} (comparefn : A -> A -> number) (l : list A)
  : list A :=
  fold_left (fun sorted x => sort_insert comparefn x sorted) l [].

(** [Array.prototype.push] and [forEach] over an accumulated array. *)
Definition push {A} (arr : list A) (x : A) : list A := (arr ++ [x])%list.

Definition forEach {A S} (l : list A) (body : S -> A -> S) (s : S) : S :=
  fold_left body l s.

(* =================================================================== *)
(** ** Aggregation: the view model *)
(* =================================================================== *)

(** A [year] is a number, or the text ["N/A"]. *)
Inductive year_value : Type :=
| YearNumber (n : number)
| YearText (s : string).

Record ActivityRow := {
  course_certification_name : option string;
  institution : string;
  year : year_value;
  years_of_experience : string
}.

(** [date ? new Date(date).getFullYear() : "N/A"] *)
Definition year_of (date : option string) : year_value :=
  if truthy date then YearNumber (getFullYear (new_Date date))
  else YearText "N/A".

Definition or_default (v : option string) (d : string) : string :=
  match v with
  | Some s => if truthy_str s then s else d
  | None => d
  end.

Definition certification_row (cert : Certification.t) : ActivityRow :=
  {| course_certification_name := Certification.name cert;
     institution := "N/A (Certification)";
     year := year_of (Certification.date cert);
     years_of_experience := "" |}.

Definition training_row (training : Training.t) : ActivityRow :=
  {| course_certification_name := Training.name training;
     institution := or_default (Training.provider training) "N/A";
     year := year_of (Training.date training);
     years_of_experience := "" |}.

Definition skill_name (uskill : UserSkill.t) : option string :=
  match UserSkill.skills uskill with
  | Some sk => Skill.name sk
  | None => None
  end.

Definition user_skill_row (uskill : UserSkill.t) : ActivityRow :=
  let certName :=
    or_default
      (or_else (UserSkill.certificationname uskill) (skill_name uskill))
      "Unnamed Certification" in
  {| course_certification_name := Some certName;
     institution := "N/A (via User Skill)";
     year := year_of (UserSkill.certificationdate uskill);
     years_of_experience := "" |}.

Definition sort_year (r : ActivityRow) : number :=
  match year r with
  | YearNumber n => n
  | YearText _ => Num 0
  end.

Definition by_year_desc (a b : ActivityRow) : number :=
  let yearA := sort_year a in
  let yearB := sort_year b in
  Number.sub yearB yearA.

(** The rows as pushed, before the sort. *)
Definition activities_pushed (certifications : list Certification.t)
  (userSkills : list UserSkill.t) : list ActivityRow :=
  let rows := [] in
  let rows :=
    forEach certifications
      (fun rows cert => push rows (certification_row cert)) rows in
  forEach userSkills
    (fun rows uskill =>
       let rows :=
         match UserSkill.trainings uskill with
         | Some trainings =>
             if truthy_bool (UserSkill.hastrainings uskill)
             then forEach trainings
                    (fun rows training => push rows (training_row training))
                    rows
             else rows
         | None => rows
         end in
       if truthy_bool (UserSkill.hascertification uskill)
       then push rows (user_skill_row uskill)
       else rows)
    rows.

Definition professional_activities_rows
  (certifications : list Certification.t) (userSkills : list UserSkill.t)
  : list ActivityRow :=
  Array_sort by_year_desc (activities_pushed certifications userSkills).

(** The rows one user skill contributes, in the order of the pushes. *)
Definition training_rows_of (uskill : UserSkill.t) : list ActivityRow :=
  match UserSkill.trainings uskill with
  | Some trainings =>
      if truthy_bool (UserSkill.hastrainings uskill)
      then map training_row trainings else []
  | None => []
  end.

Definition user_skill_rows (uskill : UserSkill.t) : list ActivityRow :=
  (training_rows_of uskill
     ++ (if truthy_bool (UserSkill.hascertification uskill)
         then [user_skill_row uskill] else []))%list.

(** The rows of one year. *)
Definition has_year (k : Z) (r : ActivityRow) : bool :=
  match sort_year r with
  | Num z => z =? k
  | _ => false
  end.

(** Descending order of the sort keys, for rows whose keys are numbers. *)
Definition numeric_key (r : ActivityRow) : Prop :=
  exists k, sort_year r = Num k.

Definition year_ge (a b : ActivityRow) : Prop :=
  exists ka kb, sort_year a = Num ka /\ sort_year b = Num kb /\ kb <= ka.

Definition role_in_company (experiences : list Experience.t) : string :=
  match experiences with
  | exp :: _ => or_default (Experience.title exp) "N/A"
  | [] => "N/A"
  end.

(** [===] on values that are strings or [null]. *)
Definition strict_eq (a b : option string) : bool :=
  match a, b with
  | Some x, Some y => String.eqb x y
  | None, None => true
  | _, _ => false
  end.

(** A [Map] keeps its keys in insertion order; [set] on a present key
    replaces the value in place. *)
Fixpoint Map_set {V} (m : list (option string * V)) (k : option string)
  (v : V) : list (option string * V) :=
  match m with
  | [] => [(k, v)]
  | (k', v') :: rest =>
      if strict_eq k' k then (k', v) :: rest
      else (k', v') :: Map_set rest k v
  end.

Fixpoint Map_get {V} (m : list (option string * V)) (k : option string)
  : option V :=
  match m with
  | [] => None
  | (k', v') :: rest => if strict_eq k' k then Some v' else Map_get rest k
  end.

Definition Map_has {V} (m : list (option string * V)) (k : option string)
  : bool :=
  match Map_get m k with Some _ => true | None => false end.

Definition expDuration (exp : Experience.t) : string :=
  calculateDuration (Experience.startdate exp) (Experience.enddate exp).

Definition skills_of (exp : Experience.t) : list ExperienceSkill.t :=
  match Experience.experience_skills exp with
  | Some l => l
  | None => []
  end.

Definition domain_expertise_map (experiences : list Experience.t)
  : list (option string * list (option string * string)) :=
  forEach experiences
    (fun m exp =>
       let expDuration := expDuration exp in
       forEach (skills_of exp)
         (fun m es =>
            match ExperienceSkill.skills es with
            | Some sk =>
                match Skill.skill_families sk with
                | Some fam =>
                    let domainName := SkillFamily.name fam in
                    let skillName := Skill.name sk in
                    let m :=
                      if negb (Map_has m domainName)
                      then Map_set m domainName [] else m in
                    match Map_get m domainName with
                    | Some inner =>
                        Map_set m domainName
                          (Map_set inner skillName expDuration)
                    | None => m
                    end
                | None => m
                end
            | None => m
            end)
         m)
    [].

Record DomainRow := {
  domain : option string;
  specific_area : option string;
  domain_experience_yrs_months : string
}.

Definition domain_expertise_rows (experiences : list Experience.t)
  : list DomainRow :=
  forEach (domain_expertise_map experiences)
    (fun rows entry =>
       forEach (snd entry)
         (fun rows inner =>
            push rows
              {| domain := fst entry;
                 specific_area := fst inner;
                 domain_experience_yrs_months := snd inner |})
         rows)
    [].

Record TechnicalRow := {
  skill_name_of : option string;
  experience_yrs_months : string
}.

Definition technical_expertise_primary_skills
  (experiences : list Experience.t) : list TechnicalRow :=
  forEach experiences
    (fun rows exp =>
       let expDuration := expDuration exp in
       forEach (skills_of exp)
         (fun rows es =>
            match ExperienceSkill.skills es with
            | Some sk =>
                if strict_eq (Skill.type sk) (Some "hard") then
                  if existsb
                       (fun s => strict_eq (skill_name_of s) (Skill.name sk))
                       rows
                  then rows
                  else push rows
                         {| skill_name_of := Skill.name sk;
                            experience_yrs_months := expDuration |}
                else rows
            | None => rows
            end)
         rows)
    [].

(* =================================================================== *)
(** ** The [GET] handler *)
(* =================================================================== *)

(** The payload of the template. The entries that are constant texts or
    dates in the format of a locale (contact, location, last update,
    employment history, education) are left out. *)
Record ViewModel := {
  vm_fullname : string;
  vm_role_in_company : string;
  vm_email_id : string;
  vm_total_experience : string;
  vm_dxc_experience : string;
  vm_experience_summary_points : list string;
  vm_domain_expertise_rows : list DomainRow;
  vm_technical_expertise_primary_skills : list TechnicalRow;
  vm_professional_activities_rows : list ActivityRow;
  vm_main_company : string
}.

(** The answer of a read: [{ data, error }]; the error object is kept as
    its [message]. *)
Record QueryResult (A : Type) := {
  data : option A;
  error : option string
}.
Arguments data {A} q.
Arguments error {A} q.

Record UserRow := {
  email : option string;
  fullname : option string
}.

(** The store behind the client: what each of the four reads answers. *)
Record Supabase := {
  from_users : string -> QueryResult UserRow;
  from_experiences : string -> QueryResult (list Experience.t);
  from_user_skills : string -> QueryResult (list UserSkill.t);
  from_certifications : list string -> QueryResult (list Certification.t)
}.

Inductive query : Type :=
| ReadUser (userId : string)
| ReadExperiences (userId : string)
| ReadUserSkills (userId : string)
| ReadCertifications (userSkillIds : list string).

Inductive console_line : Type :=
| console_log (label : string)
| console_error (label : string) (message : option string).

(** What the handler leaves behind: the reads it issued and the lines it
    logged, oldest first. *)
Record World := {
  issued : list query;
  console : list console_line
}.

Record TemplateDiagnostic := {
  diag_id : option string;
  diag_message : option string;
  diag_explanation : option string
}.

Record RenderError := {
  render_message : string;
  render_errors : option (list TemplateDiagnostic)
}.

Inductive details_value : Type :=
| NoDetails
| DetailsMessage (m : string)
| DetailsList (l : list TemplateDiagnostic).

Inductive Response : Type :=
| JsonResponse (status : Z) (error_text : string) (details : details_value)
| DocxResponse (status : Z) (content_disposition : string) (body : string).

(** The template on disk and the renderer: [docx_render] is [doc.render],
    which throws a [RenderError] or leaves the rendered document. *)
Variable template_exists : bool.
Variable docx_render : ViewModel -> RenderError + string.
Variable supabase : Supabase.

(** What else the host does after the template has been found, each of
    which can throw: [open_template] is [fs.readFileSync], [new PizZip] and
    [new Docxtemplater] on the file; [docx_generate] is
    [doc.getZip().generate] on the rendered document, giving the bytes of
    the answer; [Headers_set] is [Headers.prototype.set], which refuses a
    value that is no legal header value. *)
Variable open_template : result unit.
Variable docx_generate : string -> result string.
Variable Headers_set : string -> string -> result unit.

(** Statements of the handler: they read and extend the world and either
    complete with a value or throw. *)
Definition M (A : Type) : Type := World -> result A * World.

Definition ret {A} (a : A) : M A := fun w => (Ok a, w).

Definition bindM {A B} (m : M A) (k : A -> M B) : M B :=
  fun w =>
    match m w with
    | (Ok a, w') => k a w'
    | (Throw e, w') => (Throw e, w')
    end.

Definition throw {A} (e : thrown) : M A := fun w => (Throw e, w).

Definition lift {A} (r : result A) : M A := fun w => (r, w).

Definition try_catch {A} (body : M A) (handler : thrown -> M A) : M A :=
  fun w =>
    match body w with
    | (Ok a, w') => (Ok a, w')
    | (Throw e, w') => handler e w'
    end.

Definition say (l : console_line) : M unit :=
  fun w => (Ok tt, {| issued := issued w; console := console w ++ [l] |}).

Definition await {A} (q : query) (answer : QueryResult A)
  : M (QueryResult A) :=
  fun w =>
    (Ok answer, {| issued := issued w ++ [q]; console := console w |}).

Local Notation "x <- a ;; k" := (bindM a (fun x => k))
  (at level 61, a at next level, right associativity).
Local Notation "a ;;; k" := (bindM a (fun _ => k))
  (at level 61, right associativity).

Definition thrown_message (e : thrown) : string :=
  match e with
  | RangeError m => m
  | ReadError m => m
  | HostError m => m
  end.

Definition is_some {A} (o : option A) : bool :=
  match o with Some _ => true | None => false end.

(** The double quote character. *)
Definition dquote : string := String (ascii_of_nat 34) EmptyString.

(** The class [\s] of a regular expression: the white space and the line
    terminators of ECMA-262 (U+0009 to U+000D, U+0020, U+00A0, U+1680,
    U+2000 to U+200A, U+2028, U+2029, U+202F, U+205F, U+3000, U+FEFF).
    A string holds the UTF-8 bytes of its text; [white_space_length s] is
    the number of bytes of the white-space character at the head of [s],
    and [0] when [s] starts with another character. *)
Definition byte_is (c : ascii) (n : nat) : bool := (nat_of_ascii c =? n)%nat.

Definition byte_in (c : ascii) (lo hi : nat) : bool :=
  ((lo <=? nat_of_ascii c)%nat && (nat_of_ascii c <=? hi)%nat)%bool.

Definition white_space1 (a : ascii) : bool :=
  byte_is a 32 || byte_in a 9 13.

Definition white_space2 (a b : ascii) : bool :=
  byte_is a 194 && byte_is b 160.

Definition white_space3 (a b c : ascii) : bool :=
  (byte_is a 225 && (byte_is b 154 && byte_is c 128))
  || (byte_is a 226
      && ((byte_is b 128
           && (byte_in c 128 138 || byte_is c 168 || byte_is c 169
               || byte_is c 175))
          || (byte_is b 129 && byte_is c 159)))
  || (byte_is a 227 && (byte_is b 128 && byte_is c 128))
  || (byte_is a 239 && (byte_is b 187 && byte_is c 191)).

Definition white_space_length (s : string) : nat :=
  match s with
  | EmptyString => O
  | String a r =>
      if white_space1 a then 1%nat
      else
        match r with
        | EmptyString => O
        | String b r' =>
            if white_space2 a b then 2%nat
            else
              match r' with
              | EmptyString => O
              | String c _ => if white_space3 a b c then 3%nat else O
              end
        end
  end.

(** [s.replace(/\s+/g, '_')], from a position of [s]: [in_run] tells
    whether the character before was white space, and [skip] how many
    bytes of it are still ahead. *)
Fixpoint replace_from (s : string) (in_run : bool) (skip : nat) : string :=
  match s with
  | EmptyString => EmptyString
  | String c r =>
      match skip with
      | S k => replace_from r true k
      | O =>
          match white_space_length s with
          | O => String c (replace_from r false O)
          | S k =>
              if in_run then replace_from r true k
              else String "_" (replace_from r true k)
          end
      end
  end.

Definition replace_spaces (s : string) (in_run : bool) : string :=
  replace_from s in_run O.

Definition user_skill_ids (userSkills : list UserSkill.t) : list string :=
  flat_map
    (fun uskill =>
       match UserSkill.id uskill with Some i => [i] | None => [] end)
    userSkills.

(** The fourth read, issued only for a non-empty list of ids. *)
Definition fetch_certifications (userSkillsData : option (list UserSkill.t))
  : M (list Certification.t * option string) :=
  match userSkillsData with
  | Some (u :: us) =>
      let userSkillIds := user_skill_ids (u :: us) in
      if (0 <? List.length userSkillIds)%nat then
        r <- await (ReadCertifications userSkillIds)
               (from_certifications supabase userSkillIds) ;;
        ret (match data r with Some d => d | None => [] end, error r)
      else ret ([], None)
  | _ => ret ([], None)
  end.

Definition or_nil {A} (o : option (list A)) : list A :=
  match o with Some l => l | None => [] end.

(** The value of the [Content-Type] header of a document. *)
Definition docx_content_type : string :=
  "application/vnd.openxmlformats-officedocument.wordprocessingml.document".

Definition GET_body (userId : string) : M Response :=
  say (console_log "Fetching user data for ID:") ;;;
  user <- await (ReadUser userId) (from_users supabase userId) ;;
  match error user, data user with
  | None, Some userData =>
      say (console_log "User Data:") ;;;
      say (console_log "Fetching experiences...") ;;;
      exps <- await (ReadExperiences userId)
                (from_experiences supabase userId) ;;
      match error exps with
      | Some experiencesError =>
          say (console_error "Error fetching experiences:"
                 (Some experiencesError)) ;;;
          throw (ReadError experiencesError)
      | None =>
          say (console_log "Experiences Data:") ;;;
          say (console_log "Fetching user skills & trainings...") ;;;
          uskills <- await (ReadUserSkills userId)
                       (from_user_skills supabase userId) ;;
          match error uskills with
          | Some userSkillsError =>
              say (console_error "Error fetching user skills:"
                     (Some userSkillsError)) ;;;
              throw (ReadError userSkillsError)
          | None =>
              say (console_log "User Skills Data:") ;;;
              say (console_log "Fetching certifications...") ;;;
              certs <- fetch_certifications (data uskills) ;;
              match snd certs with
              | Some certError =>
                  say (console_error "Error fetching certifications:"
                         (Some certError)) ;;;
                  throw (ReadError certError)
              | None =>
                  say (console_log "Certifications Data:") ;;;
                  let experiences := or_nil (data exps) in
                  let certifications := fst certs in
                  let userSkills := or_nil (data uskills) in
                  total <- lift (total_experience experiences) ;;
                  say (console_log "Attempting to load template from:") ;;;
                  if negb template_exists then
                    say (console_error "Template file not found at path:"
                           None) ;;;
                    ret (JsonResponse 404 "Template file not found."
                           NoDetails)
                  else
                    lift open_template ;;;
                    dxc <- lift (calculateDurationForCompany experiences
                                   "DXC") ;;
                    let dataForTemplate :=
                      {| vm_fullname := or_default (fullname userData) "N/A";
                         vm_role_in_company := role_in_company experiences;
                         vm_email_id := or_default (email userData) "N/A";
                         vm_total_experience := total;
                         vm_dxc_experience := dxc;
                         vm_experience_summary_points :=
                           ["Summary généré par défaut."];
                         vm_domain_expertise_rows :=
                           domain_expertise_rows experiences;
                         vm_technical_expertise_primary_skills :=
                           technical_expertise_primary_skills experiences;
                         vm_professional_activities_rows :=
                           professional_activities_rows certifications
                             userSkills;
                         vm_main_company := "DXC Technology" |} in
                    say (console_log "Data for Template:") ;;;
                    match docx_render dataForTemplate with
                    | inl err =>
                        say (console_error "Docxtemplater render error:"
                               (Some (render_message err))) ;;;
                        match render_errors err with
                        | Some errors =>
                            say (console_error "Template Errors:" None) ;;;
                            ret (JsonResponse 500
                                   "Failed to render CV document."
                                   (DetailsList errors))
                        | None =>
                            ret (JsonResponse 500
                                   "Failed to render CV document."
                                   (DetailsList
                                      [{| diag_id := None;
                                          diag_message :=
                                            Some (render_message err);
                                          diag_explanation := None |}]))
                        end
                    | inr rendered =>
                        buf <- lift (docx_generate rendered) ;;
                        let disposition :=
                          "attachment; filename=" ++ dquote ++ "cv_"
                            ++ replace_spaces
                                 (or_default (fullname userData) "user") false
                            ++ ".docx" ++ dquote in
                        lift (Headers_set "Content-Disposition"
                                disposition) ;;;
                        lift (Headers_set "Content-Type"
                                docx_content_type) ;;;
                        ret (DocxResponse 200 disposition buf)
                    end
              end
          end
      end
  | userError, _ =>
      say (console_error "Error fetching user:" userError) ;;;
      ret (JsonResponse 404 "User not found or error fetching user data."
             NoDetails)
  end.

(** The handler: [userId] is the query parameter, [None] when absent. *)
Definition GET (userId : option string) : M Response :=
  match userId with
  | Some u =>
      if truthy_str u then
        try_catch (GET_body u)
          (fun e =>
             say (console_error "Error generating CV:"
                    (Some (thrown_message e))) ;;;
             ret (JsonResponse 500 "Failed to generate CV."
                    (DetailsMessage (thrown_message e))))
      else ret (JsonResponse 400 "userId is required" NoDetails)
  | None => ret (JsonResponse 400 "userId is required" NoDetails)
  end.

Definition empty_world : World := {| issued := []; console := [] |}.

(** A store whose third read fails, and a host on which the template
    opens, every view model is rendered, the document is generated and
    every header is accepted. *)
Definition ada : UserRow :=
  {| email := Some "ada@example.org"; fullname := Some "Ada Lovelace" |}.

Definition failing_user_skills : Supabase :=
  {| from_users := fun _ => {| data := Some ada; error := None |};
     from_experiences := fun _ => {| data := Some [acme_a]; error := None |};
     from_user_skills :=
       fun _ => {| data := None;
                   error := Some "permission denied for table user_skills" |};
     from_certifications := fun _ => {| data := Some []; error := None |} |}.

Definition render_ok : ViewModel -> RenderError + string :=
  fun _ => inr "docx".

Definition open_ok : result unit := Ok tt.

Definition generate_ok : string -> result string :=
  fun rendered => Ok (rendered ++ ".zip").

Definition headers_ok : string -> string -> result unit :=
  fun _ _ => Ok tt.

(** A host whose [Headers] refuses the values it is given. *)
Definition headers_refused : string -> string -> result unit :=
  fun _ _ => Throw (HostError "Cannot convert argument to a ByteString").

(** The status of an answer. *)
Definition status_of (r : Response) : Z :=
  match r with
  | JsonResponse status _ _ => status
  | DocxResponse status _ _ => status
  end.

Definition is_prefix {A} (l1 l2 : list A) : Prop :=
  exists rest, l2 = (l1 ++ rest)%list.

(** The ids the fourth read asks for, and the four reads of a request in
    the order in which the handler writes them. *)
Definition certification_ids (userId : string) : list string :=
  user_skill_ids (or_nil (data (from_user_skills supabase userId))).

Definition all_reads (userId : string) : list query :=
  [ReadUser userId; ReadExperiences userId; ReadUserSkills userId;
   ReadCertifications (certification_ids userId)].

(** The reads of a request whose reads all succeed: the fourth one only
    for a non-empty list of ids. *)
Definition reads_done (userId : string) : list query :=
  ([ReadUser userId; ReadExperiences userId; ReadUserSkills userId]
   ++ (if (0 <? List.length (certification_ids userId))%nat
       then [ReadCertifications (certification_ids userId)] else []))%list.

Definition certifications_read (userId : string) : list Certification.t :=
  if (0 <? List.length (certification_ids userId))%nat
  then or_nil (data (from_certifications supabase (certification_ids userId)))
  else [].

(** [dataForTemplate], as the handler fills it. *)
Definition template_data (userData : UserRow) (userId : string)
  (total dxc : string) : ViewModel :=
  let experiences := or_nil (data (from_experiences supabase userId)) in
  let userSkills := or_nil (data (from_user_skills supabase userId)) in
  {| vm_fullname := or_default (fullname userData) "N/A";
     vm_role_in_company := role_in_company experiences;
     vm_email_id := or_default (email userData) "N/A";
     vm_total_experience := total;
     vm_dxc_experience := dxc;
     vm_experience_summary_points := ["Summary généré par défaut."];
     vm_domain_expertise_rows := domain_expertise_rows experiences;
     vm_technical_expertise_primary_skills :=
       technical_expertise_primary_skills experiences;
     vm_professional_activities_rows :=
       professional_activities_rows (certifications_read userId) userSkills;
     vm_main_company := "DXC Technology" |}.

Definition render_failure_details (err : RenderError) : details_value :=
  match render_errors err with
  | Some errors => DetailsList errors
  | None =>
      DetailsList
        [{| diag_id := None;
            diag_message := Some (render_message err);
            diag_explanation := None |}]
  end.

Definition attachment_header (userData : UserRow) : string :=
  "attachment; filename=" ++ dquote ++ "cv_"
    ++ replace_spaces (or_default (fullname userData) "user") false
    ++ ".docx" ++ dquote.

(** The two headers of a document, set one after the other. *)
Definition headers_of (userData : UserRow) : result unit :=
  result_bind (Headers_set "Content-Disposition" (attachment_header userData))
    (fun _ => Headers_set "Content-Type" docx_content_type).

(** The reads up to the third have succeeded for [userId], with [userData]
    for the user. *)
Definition three_reads_ok (userId : string) (userData : UserRow) : Prop :=
  truthy_str userId = true
  /\ error (from_users supabase userId) = None
  /\ data (from_users supabase userId) = Some userData
  /\ error (from_experiences supabase userId) = None
  /\ error (from_user_skills supabase userId) = None.

Definition certification_error (userId : string) : option string :=
  if (0 <? List.length (certification_ids userId))%nat
  then error (from_certifications supabase (certification_ids userId))
  else None.

(** The paths through the handler: for each one, the condition on the
    store, the clock, the template and the renderer under which it is
    taken, the reads it issues and its answer. *)
Inductive GET_path (userId : option string) : list query -> Response -> Prop :=
| path_no_userId :
    truthy userId = false ->
    GET_path userId [] (JsonResponse 400 "userId is required" NoDetails)
| path_user_not_found u :
    userId = Some u -> truthy_str u = true ->
    (error (from_users supabase u) <> None
     \/ data (from_users supabase u) = None) ->
    GET_path userId [ReadUser u]
      (JsonResponse 404 "User not found or error fetching user data."
         NoDetails)
| path_experiences_failed u userData e :
    userId = Some u -> truthy_str u = true ->
    error (from_users supabase u) = None ->
    data (from_users supabase u) = Some userData ->
    error (from_experiences supabase u) = Some e ->
    GET_path userId [ReadUser u; ReadExperiences u]
      (JsonResponse 500 "Failed to generate CV." (DetailsMessage e))
| path_user_skills_failed u userData e :
    userId = Some u -> truthy_str u = true ->
    error (from_users supabase u) = None ->
    data (from_users supabase u) = Some userData ->
    error (from_experiences supabase u) = None ->
    error (from_user_skills supabase u) = Some e ->
    GET_path userId [ReadUser u; ReadExperiences u; ReadUserSkills u]
      (JsonResponse 500 "Failed to generate CV." (DetailsMessage e))
| path_certifications_failed u userData e :
    userId = Some u -> three_reads_ok u userData ->
    certification_error u = Some e ->
    GET_path userId (reads_done u)
      (JsonResponse 500 "Failed to generate CV." (DetailsMessage e))
| path_total_throws u userData x :
    userId = Some u -> three_reads_ok u userData ->
    certification_error u = None ->
    total_experience (or_nil (data (from_experiences supabase u))) = Throw x ->
    GET_path userId (reads_done u)
      (JsonResponse 500 "Failed to generate CV."
         (DetailsMessage (thrown_message x)))
| path_no_template u userData total :
    userId = Some u -> three_reads_ok u userData ->
    certification_error u = None ->
    total_experience (or_nil (data (from_experiences supabase u))) = Ok total ->
    template_exists = false ->
    GET_path userId (reads_done u)
      (JsonResponse 404 "Template file not found." NoDetails)
| path_template_unreadable u userData total x :
    userId = Some u -> three_reads_ok u userData ->
    certification_error u = None ->
    total_experience (or_nil (data (from_experiences supabase u))) = Ok total ->
    template_exists = true ->
    open_template = Throw x ->
    GET_path userId (reads_done u)
      (JsonResponse 500 "Failed to generate CV."
         (DetailsMessage (thrown_message x)))
| path_company_throws u userData total x :
    userId = Some u -> three_reads_ok u userData ->
    certification_error u = None ->
    total_experience (or_nil (data (from_experiences supabase u))) = Ok total ->
    template_exists = true ->
    open_template = Ok tt ->
    calculateDurationForCompany
      (or_nil (data (from_experiences supabase u))) "DXC" = Throw x ->
    GET_path userId (reads_done u)
      (JsonResponse 500 "Failed to generate CV."
         (DetailsMessage (thrown_message x)))
| path_render_failed u userData total dxc err :
    userId = Some u -> three_reads_ok u userData ->
    certification_error u = None ->
    total_experience (or_nil (data (from_experiences supabase u))) = Ok total ->
    template_exists = true ->
    open_template = Ok tt ->
    calculateDurationForCompany
      (or_nil (data (from_experiences supabase u))) "DXC" = Ok dxc ->
    docx_render (template_data userData u total dxc) = inl err ->
    GET_path userId (reads_done u)
      (JsonResponse 500 "Failed to render CV document."
         (render_failure_details err))
| path_generate_throws u userData total dxc rendered x :
    userId = Some u -> three_reads_ok u userData ->
    certification_error u = None ->
    total_experience (or_nil (data (from_experiences supabase u))) = Ok total ->
    template_exists = true ->
    open_template = Ok tt ->
    calculateDurationForCompany
      (or_nil (data (from_experiences supabase u))) "DXC" = Ok dxc ->
    docx_render (template_data userData u total dxc) = inr rendered ->
    docx_generate rendered = Throw x ->
    GET_path userId (reads_done u)
      (JsonResponse 500 "Failed to generate CV."
         (DetailsMessage (thrown_message x)))
| path_header_refused u userData total dxc rendered buf x :
    userId = Some u -> three_reads_ok u userData ->
    certification_error u = None ->
    total_experience (or_nil (data (from_experiences supabase u))) = Ok total ->
    template_exists = true ->
    open_template = Ok tt ->
    calculateDurationForCompany
      (or_nil (data (from_experiences supabase u))) "DXC" = Ok dxc ->
    docx_render (template_data userData u total dxc) = inr rendered ->
    docx_generate rendered = Ok buf ->
    headers_of userData = Throw x ->
    GET_path userId (reads_done u)
      (JsonResponse 500 "Failed to generate CV."
         (DetailsMessage (thrown_message x)))
| path_document u userData total dxc rendered buf :
    userId = Some u -> three_reads_ok u userData ->
    certification_error u = None ->
    total_experience (or_nil (data (from_experiences supabase u))) = Ok total ->
    template_exists = true ->
    open_template = Ok tt ->
    calculateDurationForCompany
      (or_nil (data (from_experiences supabase u))) "DXC" = Ok dxc ->
    docx_render (template_data userData u total dxc) = inr rendered ->
    docx_generate rendered = Ok buf ->
    headers_of userData = Ok tt ->
    GET_path userId (reads_done u)
      (DocxResponse 200 (attachment_header userData) buf).

(** A date column that [Date] can read: absent, or a valid date. *)
Definition date_readable (date : option string) : Prop :=
  truthy date = false \/ exists t, new_Date date = Num t.

Definition user_skill_dates_readable (uskill : UserSkill.t) : Prop :=
  date_readable (UserSkill.certificationdate uskill)
  /\ Forall (fun training => date_readable (Training.date training))
       (or_nil (UserSkill.trainings uskill)).

(** The body of the inner loop of the table of technical skills, for an
    experience of duration text [d]. *)
Definition technical_step (d : string) (rows : list TechnicalRow)
  (es : ExperienceSkill.t) : list TechnicalRow :=
  match ExperienceSkill.skills es with
  | Some sk =>
      if strict_eq (Skill.type sk) (Some "hard") then
        if existsb (fun s => strict_eq (skill_name_of s) (Skill.name sk)) rows
        then rows
        else push rows
               {| skill_name_of := Skill.name sk;
                  experience_yrs_months := d |}
      else rows
  | None => rows
  end.

(** The link is to a skill of type "hard" with the name [n]. *)
Definition hard_skill_named (n : option string) (es : ExperienceSkill.t)
  : bool :=
  match ExperienceSkill.skills es with
  | Some sk =>
      strict_eq (Skill.type sk) (Some "hard") && strict_eq (Skill.name sk) n
  | None => false
  end.

Definition has_hard_skill (n : option string) (exp : Experience.t) : bool :=
  existsb (hard_skill_named n) (skills_of exp).

(** The body of the inner loop of the table of domains, for an experience
    of duration text [d]. *)
Definition domain_step (d : string)
  (m : list (option string * list (option string * string)))
  (es : ExperienceSkill.t)
  : list (option string * list (option string * string)) :=
  match ExperienceSkill.skills es with
  | Some sk =>
      match Skill.skill_families sk with
      | Some fam =>
          let domainName := SkillFamily.name fam in
          let skillName := Skill.name sk in
          let m :=
            if negb (Map_has m domainName)
            then Map_set m domainName [] else m in
          match Map_get m domainName with
          | Some inner =>
              Map_set m domainName (Map_set inner skillName d)
          | None => m
          end
      | None => m
      end
  | None => m
  end.

(** The link is to a skill named [n] of the family named [f]. *)
Definition family_skill_named (f n : option string) (es : ExperienceSkill.t)
  : bool :=
  match ExperienceSkill.skills es with
  | Some sk =>
      match Skill.skill_families sk with
      | Some fam =>
          strict_eq (SkillFamily.name fam) f && strict_eq (Skill.name sk) n
      | None => false
      end
  | None => false
  end.

Definition has_family_skill (f n : option string) (exp : Experience.t)
  : bool :=
  existsb (family_skill_named f n) (skills_of exp).

(** The text stored for a skill of a domain. *)
Definition lookup2 (m : list (option string * list (option string * string)))
  (f n : option string) : option string :=
  match Map_get m f with
  | Some inner => Map_get inner n
  | None => None
  end.

(** Keys occur once, in the outer map and in every inner map. *)
Definition map_well_formed
  (m : list (option string * list (option string * string))) : Prop :=
  NoDup (map fst m) /\ Forall (fun entry => NoDup (map fst (snd entry))) m.

Definition rows_of_map
  (m : list (option string * list (option string * string)))
  : list DomainRow :=
  flat_map
    (fun entry =>
       map (fun inner =>
              {| domain := fst entry;
                 specific_area := fst inner;
                 domain_experience_yrs_months := snd inner |})
         (snd entry))
    m.

(* =================================================================== *)
(** ** Employment history *)
(* =================================================================== *)

(** [Date.prototype.toLocaleDateString('fr-FR')], which the host's locale
    data decide. *)
Variable toLocaleDateString : number -> string.

Definition LF : ascii := ascii_of_nat 10.

(** [s.split('\n')]: the pieces between the line feeds, at least one. *)
Fixpoint split_lines (s : string) : list string :=
  match s with
  | EmptyString => [EmptyString]
  | String c r =>
      if Ascii.eqb c LF then EmptyString :: split_lines r
      else
        match split_lines r with
        | line :: lines => String c line :: lines
        | [] => [String c EmptyString]
        end
  end.

(** [r.replace(/^- /, '')]: one bullet marker at the start is removed. *)
Definition strip_bullet (r : string) : string :=
  match r with
  | String "-" (String " " rest) => rest
  | _ => r
  end.

Record Responsibility := { text : string }.

Definition responsibilities_of (description : option string)
  : list Responsibility :=
  match description with
  | Some d =>
      if truthy_str d
      then map (fun r => {| text := strip_bullet r |}) (split_lines d)
      else []
  | None => []
  end.

Record EmploymentItem := {
  project_name : option string;
  client : option string;
  project_location : string;
  start_date : string;
  end_date : string;
  team_size : string;
  project_description : option string;
  responsibilities : list Responsibility;
  other_contributions : list Responsibility
}.

Definition employment_history_items (experiences : list Experience.t)
  : list EmploymentItem :=
  map (fun exp =>
         {| project_name := Experience.title exp;
            client := Experience.company exp;
            project_location := "Brussels, Belgium";
            start_date :=
              if truthy (Experience.startdate exp)
              then toLocaleDateString (new_Date (Experience.startdate exp))
              else "N/A";
            end_date :=
              if truthy (Experience.enddate exp)
              then toLocaleDateString (new_Date (Experience.enddate exp))
              else "Présent";
            team_size := "...";
            project_description := Experience.description exp;
            responsibilities :=
              responsibilities_of (Experience.description exp);
            other_contributions := [] |})
    experiences.

(** [lines.join('\n')] *)
Fixpoint join_lines (lines : list string) : string :=
  match lines with
  | [] => EmptyString
  | [line] => line
  | line :: rest => line ++ String LF (join_lines rest)
  end.

Fixpoint count_LF (s : string) : nat :=
  match s with
  | EmptyString => O
  | String c r => if Ascii.eqb c LF then S (count_LF r) else count_LF r
  end.

Fixpoint has_char (p : ascii -> bool) (s : string) : bool :=
  match s with
  | EmptyString => false
  | String c r => p c || has_char p r
  end.

(** The text contains a white-space character. *)
Fixpoint has_white_space (s : string) : bool :=
  match s with
  | EmptyString => false
  | String c r =>
      negb (white_space_length s =? 0)%nat || has_white_space r
  end.

(** A line begins with the bullet marker. *)
Definition bulleted (l : string) : Prop := exists rest, l = "- " ++ rest.

(** A full name with a no-break space (U+00A0) and an em space (U+2003)
    between its two parts. *)
Definition spaced_name : string :=
  "Ada"
    ++ String (ascii_of_nat 194) (String (ascii_of_nat 160)
         (String (ascii_of_nat 226) (String (ascii_of_nat 128)
            (String (ascii_of_nat 131) "Lovelace")))).

(** Stores to run the handler on: each read answers the same for every
    argument. *)
Definition answer_ok {A} (d : A) : QueryResult A :=
  {| data := Some d; error := None |}.

Definition answer_failed {A} (message : string) : QueryResult A :=
  {| data := None; error := Some message |}.

Definition store_of (users : QueryResult UserRow)
  (experiences : QueryResult (list Experience.t))
  (user_skills : QueryResult (list UserSkill.t))
  (certifications : QueryResult (list Certification.t)) : Supabase :=
  {| from_users := fun _ => users;
     from_experiences := fun _ => experiences;
     from_user_skills := fun _ => user_skills;
     from_certifications := fun _ => certifications |}.

Definition store_complete : Supabase :=
  store_of (answer_ok ada) (answer_ok [acme_b; acme_a])
    (answer_ok [certified_unnamed])
    (answer_ok [cert "Cloud Practitioner" (Some "2021-06-01")]).

Definition store_without_user : Supabase :=
  store_of {| data := None; error := None |} (answer_ok [acme_a])
    (answer_ok []) (answer_ok []).

Definition store_failing_experiences : Supabase :=
  store_of (answer_ok ada) (answer_failed "connection reset")
    (answer_ok []) (answer_ok []).

Definition store_failing_certifications : Supabase :=
  store_of (answer_ok ada) (answer_ok [acme_a])
    (answer_ok [certified_unnamed]) (answer_failed "statement timeout").

Definition store_without_experiences : Supabase :=
  store_of (answer_ok ada) (answer_ok []) (answer_ok []) (answer_ok []).

(** A render that fails with one diagnostic. *)
Definition render_rejects : ViewModel -> RenderError + string :=
  fun _ => inl {| render_message := "Multi error";
                  render_errors :=
                    Some [{| diag_id := Some "unopened_tag";
                             diag_message := Some "Unopened tag";
                             diag_explanation := None |}] |}.

(** A description of two bulleted lines. *)
Definition two_bullets : string :=
  "- Led team" ++ String LF "- Shipped v2".

(* =================================================================== *)
(** ** Facts about the runtime *)
(* =================================================================== *)

(** Linear arithmetic with division and remainder by constants. *)
Ltac zdiv := Z.to_euclidean_division_equations; lia.

(** Equal up to arithmetic under constructors. *)
Ltac eq_arith := first [reflexivity | lia | f_equal; eq_arith].

Lemma DayFromYear_succ y : DayFromYear (y + 1) = DayFromYear y + DaysInYear y.
Proof.
  unfold DayFromYear, DaysInYear, isLeap.
  destruct (Z.eqb_spec (y mod 4) 0); cbn [negb];
    [destruct (Z.eqb_spec (y mod 100) 0); cbn [negb];
     [destruct (Z.eqb_spec (y mod 400) 0)|]|]; zdiv.
Qed.

Lemma DayFromYear_approx y :
  146097 * (y - 1970) - 506 <= 400 * DayFromYear y <= 146097 * (y - 1970) + 589.
Proof.
  unfold DayFromYear.
  pose proof (Z.div_mod (y - 1969) 4 ltac:(lia)).
  pose proof (Z.mod_pos_bound (y - 1969) 4 ltac:(lia)).
  pose proof (Z.div_mod (y - 1901) 100 ltac:(lia)).
  pose proof (Z.mod_pos_bound (y - 1901) 100 ltac:(lia)).
  pose proof (Z.div_mod (y - 1601) 400 ltac:(lia)).
  pose proof (Z.mod_pos_bound (y - 1601) 400 ltac:(lia)).
  lia.
Qed.

Lemma YearFromDay_bounds d :
  DayFromYear (YearFromDay d) <= d < DayFromYear (YearFromDay d + 1).
Proof.
  unfold YearFromDay.
  set (y := 1970 + 400 * d / 146097).
  assert (Hy : 146097 * (y - 1970) <= 400 * d < 146097 * (y - 1970) + 146097).
  { subst y.
    pose proof (Z.div_mod (400 * d) 146097 ltac:(lia)).
    pose proof (Z.mod_pos_bound (400 * d) 146097 ltac:(lia)). lia. }
  clearbody y.
  destruct (Z.ltb_spec d (DayFromYear y)).
  - replace (y - 1 + 1) with y by lia. split; [|assumption].
    pose proof (DayFromYear_approx (y - 1)). lia.
  - destruct (Z.leb_spec (DayFromYear (y + 1)) d).
    + split; [assumption|].
      pose proof (DayFromYear_approx (y + 1 + 1)). lia.
    + lia.
Qed.

Lemma DayFromYear_mono_add k :
  0 <= k -> forall y, DayFromYear y <= DayFromYear (y + k).
Proof.
  intros Hk. pattern k. apply natlike_ind; [| |exact Hk].
  - intros y. rewrite Z.add_0_r. lia.
  - intros x Hx IH y.
    replace (y + Z.succ x) with ((y + x) + 1) by lia.
    rewrite DayFromYear_succ. specialize (IH y).
    unfold DaysInYear. destruct (isLeap _); lia.
Qed.

Lemma DayFromYear_mono y1 y2 : y1 <= y2 -> DayFromYear y1 <= DayFromYear y2.
Proof.
  intros H. replace y2 with (y1 + (y2 - y1)) by lia.
  apply DayFromYear_mono_add. lia.
Qed.

(** [YearFromDay d] is the only year whose days contain [d]. *)
Lemma YearFromDay_unique d y :
  DayFromYear y <= d < DayFromYear (y + 1) -> YearFromDay d = y.
Proof.
  intros H. pose proof (YearFromDay_bounds d) as B.
  destruct (Z.lt_trichotomy (YearFromDay d) y) as [L|[E|G]]; [|exact E|].
  - pose proof (DayFromYear_mono (YearFromDay d + 1) y ltac:(lia)). lia.
  - pose proof (DayFromYear_mono (y + 1) (YearFromDay d) ltac:(lia)). lia.
Qed.

Example parse_date_only : ISO.parse "2020-01-15" = Some (Num 1579046400000).
Proof. reflexivity. Qed.

Example parse_date_time :
  ISO.parse "2021-01-01T00:00:00.000Z" = Some (Num 1609459200000).
Proof. reflexivity. Qed.

Example format_date : ISO.format 1579046400000 = "2020-01-15T00:00:00.000Z".
Proof. reflexivity. Qed.

Example format_negative_year :
  ISO.format (-62167219200001) = "-000001-12-31T23:59:59.999Z".
Proof. vm_compute. reflexivity. Qed.

Example parse_rejects : ISO.parse "2020-02-30" = None /\ ISO.parse "15/01/2020" = None.
Proof. split; reflexivity. Qed.

(** *** Reading back what [toISOString] writes *)

Section ISORoundTrip.
Import ISO.

Lemma digit_cases d : 0 <= d <= 9 ->
  d = 0 \/ d = 1 \/ d = 2 \/ d = 3 \/ d = 4 \/ d = 5 \/ d = 6 \/ d = 7
  \/ d = 8 \/ d = 9.
Proof. lia. Qed.

Lemma mod10_digit z : 0 <= z mod 10 <= 9.
Proof. pose proof (Z.mod_pos_bound z 10 ltac:(lia)). lia. Qed.

Lemma digit_of_char_of_digit d :
  0 <= d <= 9 -> digit_of (char_of_digit d) = Some d.
Proof.
  intros H. destruct (digit_cases d H) as [E|R]; [subst; reflexivity|].
  repeat (destruct R as [E|R]; [subst; reflexivity|]). subst. reflexivity.
Qed.

Lemma char_of_digit_not_sign d :
  0 <= d <= 9 ->
  Ascii.eqb (char_of_digit d) "+" = false
  /\ Ascii.eqb (char_of_digit d) "-" = false.
Proof.
  intros H. destruct (digit_cases d H) as [E|R]; [subst; split; reflexivity|].
  repeat (destruct R as [E|R]; [subst; split; reflexivity|]).
  subst. split; reflexivity.
Qed.

Lemma digits_pad n : forall acc z r,
  digits n acc (pad n z ++ r) = Some (acc * 10 ^ Z.of_nat n + z mod 10 ^ Z.of_nat n, r).
Proof.
  induction n as [|n IH]; intros acc z r.
  - simpl. rewrite Z.mod_1_r. f_equal. f_equal. lia.
  - cbn [pad digits append].
    assert (P : 0 < 10 ^ Z.of_nat n) by (apply Z.pow_pos_nonneg; lia).
    rewrite digit_of_char_of_digit by apply mod10_digit.
    rewrite IH. f_equal. f_equal.
    rewrite Nat2Z.inj_succ, Z.pow_succ_r by lia.
    rewrite (Z.mul_comm 10 (10 ^ Z.of_nat n)).
    rewrite (Z.rem_mul_r z (10 ^ Z.of_nat n) 10) by lia.
    assert (M : z mod 10 ^ Z.of_nat n = (z mod 10 ^ Z.of_nat n) mod 10 ^ Z.of_nat n)
      by (symmetry; apply Z.mod_mod; lia).
    lia.
Qed.

Lemma digits_pad_small n acc z r :
  0 <= z < 10 ^ Z.of_nat n ->
  digits n acc (pad n z ++ r) = Some (acc * 10 ^ Z.of_nat n + z, r).
Proof. intros H. rewrite digits_pad, Z.mod_small by exact H. reflexivity. Qed.

Lemma year_part_year_string y r :
  -999999 <= y <= 999999 -> year_part (year_string y ++ r) = Some (y, r).
Proof.
  intros H. unfold year_string.
  destruct (Z.leb_spec 0 y) as [P|N]; cbn [andb].
  - destruct (Z.leb_spec y 9999) as [S|L].
    + unfold year_part. change (pad 4 y) with
        (String (char_of_digit ((y / 10 ^ Z.of_nat 3) mod 10)) (pad 3 y)).
      cbn [append].
      destruct (char_of_digit_not_sign ((y / 10 ^ Z.of_nat 3) mod 10)) as [E1 E2];
        [apply mod10_digit|].
      rewrite E1, E2.
      change (String (char_of_digit ((y / 10 ^ Z.of_nat 3) mod 10)) (pad 3 y ++ r))
        with (pad 4 y ++ r).
      rewrite digits_pad_small by (simpl; lia). eq_arith.
    + destruct (Z.ltb_spec y 0); [lia|].
      cbn [append year_part]. change (Ascii.eqb "+" "+") with true. cbn iota.
      rewrite digits_pad_small by (simpl; lia). eq_arith.
  - destruct (Z.ltb_spec y 0); [|lia].
    cbn [append year_part]. change (Ascii.eqb "-" "+") with false.
    change (Ascii.eqb "-" "-") with true. cbn iota.
    rewrite digits_pad_small by (simpl; lia). cbn [bind].
    destruct (Z.eqb_spec (0 * 10 ^ Z.of_nat 6 + Z.abs y) 0); [lia|].
    eq_arith.
Qed.

Lemma YearFromTime_range t :
  Z.abs t <= maxTime -> -271821 <= YearFromTime t <= 275760.
Proof.
  intros H. unfold YearFromTime.
  pose proof (YearFromDay_bounds (Day t)) as B.
  pose proof (DayFromYear_approx (YearFromDay (Day t))) as A1.
  pose proof (DayFromYear_approx (YearFromDay (Day t) + 1)) as A2.
  assert (D : -100000000 <= Day t <= 100000000)
    by (unfold Day, msPerDay, maxTime in *; zdiv).
  lia.
Qed.

Lemma DayWithinYear_range t :
  0 <= DayWithinYear t < 365 + InLeapYear t.
Proof.
  unfold DayWithinYear, InLeapYear, YearFromTime.
  pose proof (YearFromDay_bounds (Day t)) as B.
  rewrite DayFromYear_succ in B. unfold DaysInYear in B.
  destruct (isLeap (YearFromDay (Day t))); lia.
Qed.

Lemma InLeapYear_cases t : InLeapYear t = 0 \/ InLeapYear t = 1.
Proof. unfold InLeapYear. destruct (isLeap _); auto. Qed.

Lemma MonthFromTime_range t : 0 <= MonthFromTime t <= 11.
Proof.
  unfold MonthFromTime, monthOfDay.
  repeat match goal with
         | |- context [?a <? ?b] => destruct (Z.ltb_spec a b)
         end; lia.
Qed.

Lemma DateFromTime_range t :
  1 <= DateFromTime t <= DaysInMonth (YearFromTime t) (MonthFromTime t).
Proof.
  pose proof (DayWithinYear_range t) as R.
  unfold DateFromTime, DaysInMonth, MonthFromTime, monthOfDay.
  fold (InLeapYear t).
  destruct (InLeapYear_cases t) as [E|E]; rewrite E in *;
  repeat match goal with
         | |- context [?a <? ?b] => destruct (Z.ltb_spec a b)
         end; cbn [monthStart Z.add Pos.add Pos.succ]; lia.
Qed.

Lemma MakeDay_of_fields t :
  MakeDay (YearFromTime t) (MonthFromTime t) (DateFromTime t) = Day t.
Proof.
  unfold MakeDay, DateFromTime, DayWithinYear. fold (InLeapYear t). lia.
Qed.

Lemma MakeTime_of_fields t :
  MakeTime (HourFromTime t) (MinFromTime t) (SecFromTime t) (msFromTime t)
  = TimeWithinDay t.
Proof.
  unfold MakeTime, HourFromTime, MinFromTime, SecFromTime, msFromTime,
    TimeWithinDay, msPerHour, msPerMinute, msPerSecond, msPerDay.
  zdiv.
Qed.

Lemma digits_pad0 n z r :
  0 <= z < 10 ^ Z.of_nat n -> digits n 0 (pad n z ++ r) = Some (z, r).
Proof. intros H. rewrite digits_pad_small by exact H. eq_arith. Qed.

Lemma expect_cons c r : expect c (String c r) = Some r.
Proof. unfold expect. rewrite Ascii.eqb_refl. reflexivity. Qed.

Lemma time_fields_range t :
  0 <= HourFromTime t <= 23 /\ 0 <= MinFromTime t <= 59
  /\ 0 <= SecFromTime t <= 59 /\ 0 <= msFromTime t <= 999.
Proof.
  unfold HourFromTime, MinFromTime, SecFromTime, msFromTime, msPerSecond.
  repeat split; zdiv.
Qed.

(** [new Date(d.toISOString())] is [d] again, for every valid date. *)
Theorem parse_format t :
  Z.abs t <= maxTime -> parse (format t) = Some (Num t).
Proof.
  intros V. unfold parse, format.
  pose proof (YearFromTime_range t V) as RY.
  pose proof (MonthFromTime_range t) as RM.
  pose proof (DateFromTime_range t) as RD.
  destruct (time_fields_range t) as (RH & RMi & RS & RMs).
  assert (DM : DaysInMonth (YearFromTime t) (MonthFromTime t) <= 31).
  { unfold DaysInMonth. destruct (isLeap _);
      assert (C : MonthFromTime t = 0 \/ MonthFromTime t = 1
                  \/ MonthFromTime t = 2 \/ MonthFromTime t = 3
                  \/ MonthFromTime t = 4 \/ MonthFromTime t = 5
                  \/ MonthFromTime t = 6 \/ MonthFromTime t = 7
                  \/ MonthFromTime t = 8 \/ MonthFromTime t = 9
                  \/ MonthFromTime t = 10 \/ MonthFromTime t = 11) by lia;
      repeat (destruct C as [C|C]; [rewrite C; simpl; lia|]);
      rewrite C; simpl; lia. }
  rewrite year_part_year_string by lia. cbn [bind append].
  rewrite expect_cons. cbn [bind].
  rewrite digits_pad0 by (change (10 ^ Z.of_nat 2) with 100; lia).
  cbn [bind]. rewrite expect_cons. cbn [bind].
  rewrite digits_pad0 by (change (10 ^ Z.of_nat 2) with 100; lia).
  cbn [bind].
  replace (MonthFromTime t + 1 - 1) with (MonthFromTime t) by lia.
  destruct (Z.leb_spec 1 (MonthFromTime t + 1)); [|lia].
  destruct (Z.leb_spec (MonthFromTime t + 1) 12); [|lia].
  destruct (Z.leb_spec 1 (DateFromTime t)); [|lia].
  destruct (Z.leb_spec (DateFromTime t)
              (DaysInMonth (YearFromTime t) (MonthFromTime t))); [|lia].
  cbn [andb time_part]. change (Ascii.eqb "T" "T") with true. cbn iota.
  rewrite digits_pad0 by (change (10 ^ Z.of_nat 2) with 100; lia).
  cbn [bind]. rewrite expect_cons. cbn [bind].
  rewrite digits_pad0 by (change (10 ^ Z.of_nat 2) with 100; lia).
  cbn [bind]. rewrite expect_cons. cbn [bind].
  rewrite digits_pad0 by (change (10 ^ Z.of_nat 2) with 100; lia).
  cbn [bind]. rewrite expect_cons. cbn [bind].
  rewrite digits_pad0 by (change (10 ^ Z.of_nat 3) with 1000; lia).
  cbn [bind]. rewrite expect_cons. cbn [bind].
  destruct (Z.leb_spec (HourFromTime t) 23); [|lia].
  destruct (Z.leb_spec (MinFromTime t) 59); [|lia].
  destruct (Z.leb_spec (SecFromTime t) 59); [|lia].
  cbn [andb bind]. rewrite MakeDay_of_fields, MakeTime_of_fields.
  assert (E : MakeDate (Day t) (TimeWithinDay t) = t).
  { unfold MakeDate, Day, TimeWithinDay, msPerDay. zdiv. }
  rewrite E. unfold TimeClip.
  destruct (Z.leb_spec (Z.abs t) maxTime); [reflexivity|lia].
Qed.

End ISORoundTrip.

(* =================================================================== *)
(** ** Facts about the tenure calculator *)
(* =================================================================== *)

Lemma calculateDuration_unfold s e :
  truthy s = true ->
  calculateDuration s e
  = duration_between (new_Date s)
      (if truthy e then new_Date e else Date_now).
Proof.
  intros T. unfold calculateDuration, duration_between, tenure_span,
    render_tenure.
  rewrite T. cbn [negb].
  destruct (Number.lt _ (Num 0)); reflexivity.
Qed.

Lemma truthy_Some s : s <> "" -> truthy (Some s) = true.
Proof.
  intros H. unfold truthy. destruct (String.eqb_spec s ""); [contradiction|].
  reflexivity.
Qed.

(** The span of two valid dates, on integers. *)
Lemma tenure_span_valid ts te :
  let Y := YearFromTime (LocalTime te) - YearFromTime (LocalTime ts) in
  let M := MonthFromTime (LocalTime te) - MonthFromTime (LocalTime ts) in
  tenure_span (Num ts) (Num te)
  = (Num (if M <? 0 then Y - 1 else Y), Num (if M <? 0 then M + 12 else M)).
Proof.
  intros Y M. unfold tenure_span, getFullYear, getMonth.
  cbn [Number.sub Number.neg Number.add Number.lt].
  fold (Z.sub (MonthFromTime (LocalTime te)) (MonthFromTime (LocalTime ts))).
  fold (Z.sub (YearFromTime (LocalTime te)) (YearFromTime (LocalTime ts))).
  fold Y M. destruct (M <? 0); reflexivity.
Qed.

Lemma render_tenure_nonempty y m : render_tenure y m <> "".
Proof.
  unfold render_tenure.
  match goal with |- context [trim ?r] => generalize (trim r) end.
  intros t. unfold truthy_str.
  destruct (String.eqb_spec t ""); cbn [negb]; [discriminate|assumption].
Qed.

Lemma month_cases m : 0 <= m <= 11 ->
  m = 0 \/ m = 1 \/ m = 2 \/ m = 3 \/ m = 4 \/ m = 5 \/ m = 6 \/ m = 7
  \/ m = 8 \/ m = 9 \/ m = 10 \/ m = 11.
Proof. lia. Qed.

(** Without a positive year count only the month phrase is left. *)
Lemma render_tenure_no_years y m :
  y <= 0 -> 0 <= m <= 11 ->
  render_tenure (Num y) (Num m)
  = if 0 <? m then Number.toString (Num m) ++ " mois" else "Moins d'un mois".
Proof.
  intros Hy Hm. unfold render_tenure.
  cbn [Number.gt Number.lt].
  destruct (Z.ltb_spec 0 y); [lia|].
  destruct (month_cases m Hm) as [E|R]; [subst; reflexivity|].
  repeat (destruct R as [E|R]; [subst; reflexivity|]). subst. reflexivity.
Qed.

(** A day inside month [m] of year [y] has that year and that month. *)
Lemma fields_of_day d y m :
  0 <= m <= 11 ->
  let leap := if isLeap y then 1 else 0 in
  DayFromYear y + monthStart leap m <= d
    < DayFromYear y + monthStart leap (m + 1) ->
  YearFromDay d = y /\ monthOfDay leap (d - DayFromYear y) = m.
Proof.
  intros Hm leap H.
  assert (L : leap = 0 \/ leap = 1) by (subst leap; destruct (isLeap y); auto).
  pose proof (DayFromYear_succ y) as S. unfold DaysInYear in S.
  fold leap in S.
  assert (S' : DayFromYear (y + 1) = DayFromYear y + 365 + leap)
    by (subst leap; destruct (isLeap y); lia).
  clear S. clearbody leap.
  destruct (month_cases m Hm)
    as [E|[E|[E|[E|[E|[E|[E|[E|[E|[E|[E|E]]]]]]]]]]]; subst m;
    match type of H with
    | context [monthStart _ (?a + 1)] =>
        let v := eval vm_compute in (a + 1) in
        change (a + 1) with v in H
    end;
    cbn [monthStart] in H;
    (split;
     [apply YearFromDay_unique; lia
     |unfold monthOfDay;
      repeat match goal with
             | |- context [?a <? ?b] => destruct (Z.ltb_spec a b); try lia
             end]).
Qed.

Lemma local_fields t y m :
  0 <= m <= 11 ->
  let leap := if isLeap y then 1 else 0 in
  DayFromYear y + monthStart leap m <= Day (LocalTime t)
    < DayFromYear y + monthStart leap (m + 1) ->
  getFullYear (Num t) = Num y /\ getMonth (Num t) = Num m.
Proof.
  intros Hm leap H.
  destruct (fields_of_day (Day (LocalTime t)) y m Hm H) as [EY EM].
  unfold getFullYear, getMonth, MonthFromTime, InLeapYear, DayWithinYear,
    YearFromTime.
  rewrite EY. subst leap. rewrite EM. split; reflexivity.
Qed.

(* =================================================================== *)
(** ** The envelope of a set of experiences *)
(* =================================================================== *)

Lemma TimeClip_Num n t : TimeClip n = Num t -> n = Num t /\ Z.abs t <= maxTime.
Proof.
  destruct n as [| | |z]; cbn [TimeClip]; try discriminate.
  destruct (Z.leb_spec (Z.abs z) maxTime); [|discriminate].
  intros E. injection E as E. subst. split; [reflexivity|assumption].
Qed.

Lemma TimeClip_valid t : Z.abs t <= maxTime -> TimeClip (Num t) = Num t.
Proof.
  intros H. cbn [TimeClip].
  destruct (Z.leb_spec (Z.abs t) maxTime); [reflexivity|lia].
Qed.

Lemma ISO_parse_in_range s t :
  ISO.parse s = Some (Num t) -> Z.abs t <= maxTime.
Proof.
  unfold ISO.parse, ISO.bind, TimeClip.
  repeat match goal with
         | |- context [match ?x with _ => _ end] => destruct x eqn:?
         end; intros E; try discriminate E.
  injection E as E. subst. apply Z.leb_le. assumption.
Qed.

Lemma new_Date_in_range v t : new_Date v = Num t -> Z.abs t <= maxTime.
Proof.
  destruct v as [s|]; cbn [new_Date].
  - unfold Date_parse. destruct (ISO.parse s) as [n|] eqn:P.
    + intros ->. apply (ISO_parse_in_range s t P).
    + intros E. apply (TimeClip_Num _ _ E).
  - intros E. injection E as E. subst. unfold maxTime. lia.
Qed.

Lemma effective_end_in_range exp t :
  effective_end exp = Num t -> Z.abs t <= maxTime.
Proof.
  unfold effective_end. destruct (truthy (Experience.enddate exp)).
  - apply new_Date_in_range.
  - unfold Date_now. intros E. apply (TimeClip_Num _ _ E).
Qed.

Lemma fold_min2_Num l : forall a,
  Forall valid_date l ->
  exists m, fold_left Number.min2 l (Num a) = Num m
            /\ (m = a \/ In (Num m) l) /\ m <= a
            /\ forall t, In (Num t) l -> m <= t.
Proof.
  induction l as [|d l IH]; intros a V.
  - exists a. cbn. repeat split; auto; try lia; try (intros ? []).
  - inversion V as [|? ? [t ->] V']; subst. cbn [fold_left].
    cbn [Number.min2 Number.lt].
    destruct (Z.ltb_spec t a) as [L|G].
    + destruct (IH t V') as (m & E & O & B & A).
      exists m. repeat split; [assumption| |lia|].
      * destruct O as [->|I]; right; [left; reflexivity|right; assumption].
      * intros t' [E'|I']; [injection E' as ->; lia|auto].
    + destruct (IH a V') as (m & E & O & B & A).
      exists m. repeat split; [assumption| |lia|].
      * destruct O as [->|I]; [left; reflexivity|right; right; assumption].
      * intros t' [E'|I']; [injection E' as ->; lia|auto].
Qed.

Lemma fold_max2_Num l : forall a,
  Forall valid_date l ->
  exists m, fold_left Number.max2 l (Num a) = Num m
            /\ (m = a \/ In (Num m) l) /\ a <= m
            /\ forall t, In (Num t) l -> t <= m.
Proof.
  induction l as [|d l IH]; intros a V.
  - exists a. cbn. repeat split; auto; try lia; try (intros ? []).
  - inversion V as [|? ? [t ->] V']; subst. cbn [fold_left].
    cbn [Number.max2 Number.lt].
    destruct (Z.ltb_spec a t) as [L|G].
    + destruct (IH t V') as (m & E & O & B & A).
      exists m. repeat split; [assumption| |lia|].
      * destruct O as [->|I]; right; [left; reflexivity|right; assumption].
      * intros t' [E'|I']; [injection E' as ->; lia|auto].
    + destruct (IH a V') as (m & E & O & B & A).
      exists m. repeat split; [assumption| |lia|].
      * destruct O as [->|I]; [left; reflexivity|right; right; assumption].
      * intros t' [E'|I']; [injection E' as ->; lia|auto].
Qed.

(** [Math.min] of a non-empty array of valid time values is the earliest
    one, and [Math.max] the latest. *)
Lemma Math_min_earliest l :
  l <> [] -> Forall valid_date l ->
  exists m, Number.Math_min l = Num m /\ is_earliest m l.
Proof.
  intros NE V. destruct l as [|d l]; [contradiction|].
  inversion V as [|? ? [t ->] V']; subst.
  unfold Number.Math_min. cbn [fold_left Number.min2 Number.lt].
  destruct (fold_min2_Num l t V') as (m & E & O & B & A).
  exists m. split; [exact E|]. split.
  - destruct O as [->|I]; [left; reflexivity|right; assumption].
  - intros t' [E'|I']; [injection E' as ->; lia|auto].
Qed.

Lemma Math_max_latest l :
  l <> [] -> Forall valid_date l ->
  exists m, Number.Math_max l = Num m /\ is_latest m l.
Proof.
  intros NE V. destruct l as [|d l]; [contradiction|].
  inversion V as [|? ? [t ->] V']; subst.
  unfold Number.Math_max. cbn [fold_left Number.max2 Number.lt].
  destruct (fold_max2_Num l t V') as (m & E & O & B & A).
  exists m. split; [exact E|]. split.
  - destruct O as [->|I]; [left; reflexivity|right; assumption].
  - intros t' [E'|I']; [injection E' as ->; lia|auto].
Qed.

Lemma format_truthy t : truthy (Some (ISO.format t)) = true.
Proof.
  unfold truthy, ISO.format.
  destruct (ISO.year_string (YearFromTime t)); reflexivity.
Qed.

(** What both envelope computations do with their two arrays of dates. *)
Lemma envelope_duration (starts ends : list number) :
  starts <> [] -> ends <> [] ->
  Forall valid_date starts -> Forall valid_date ends ->
  (forall t, In (Num t) starts -> Z.abs t <= maxTime) ->
  (forall t, In (Num t) ends -> Z.abs t <= maxTime) ->
  exists tmin tmax,
    is_earliest tmin starts /\ is_latest tmax ends
    /\ result_bind (toISOString (new_Date_num (Number.Math_min starts)))
         (fun s =>
          result_bind (toISOString (new_Date_num (Number.Math_max ends)))
            (fun e => Ok (calculateDuration (Some s) (Some e))))
       = Ok (duration_between (Num tmin) (Num tmax)).
Proof.
  intros NS NE VS VE RS RE.
  destruct (Math_min_earliest starts NS VS) as (tmin & Emin & Imin).
  destruct (Math_max_latest ends NE VE) as (tmax & Emax & Imax).
  exists tmin, tmax. split; [exact Imin|]. split; [exact Imax|].
  rewrite Emin, Emax. unfold new_Date_num.
  rewrite !TimeClip_valid by (first [apply RS; apply Imin | apply RE; apply Imax]).
  cbn [toISOString result_bind].
  rewrite calculateDuration_unfold by apply format_truthy.
  rewrite format_truthy. cbn [new_Date]. unfold Date_parse.
  rewrite !parse_format by (first [apply RS; apply Imin | apply RE; apply Imax]).
  reflexivity.
Qed.

(* =================================================================== *)
(** ** Facts about the sort and the pushed rows *)
(* =================================================================== *)

Lemma sort_insert_perm {A} (cmp : A -> A -> number) x l :
  Permutation (sort_insert cmp x l) (x :: l).
Proof.
  induction l as [|y l IH]; cbn [sort_insert].
  - apply Permutation_refl.
  - destruct (Number.lt (SortCompare cmp x y) (Num 0)).
    + apply Permutation_refl.
    + eapply perm_trans; [apply perm_skip, IH|apply perm_swap].
Qed.

Lemma fold_insert_perm {A} (cmp : A -> A -> number) l : forall acc,
  Permutation (fold_left (fun sorted x => sort_insert cmp x sorted) l acc)
    (acc ++ l)%list.
Proof.
  induction l as [|x l IH]; intros acc; cbn [fold_left].
  - rewrite app_nil_r. apply Permutation_refl.
  - eapply perm_trans; [apply IH|].
    eapply perm_trans;
      [apply Permutation_app_tail, sort_insert_perm|].
    cbn [app]. apply Permutation_middle.
Qed.

(** The sort keeps the elements, each as often as before. *)
Lemma Array_sort_perm {A} (cmp : A -> A -> number) l :
  Permutation (Array_sort cmp l) l.
Proof. unfold Array_sort. apply (fold_insert_perm cmp l []). Qed.

Lemma forEach_push {A B} (f : A -> B) l : forall acc,
  forEach l (fun rows x => push rows (f x)) acc = (acc ++ map f l)%list.
Proof.
  unfold forEach, push.
  induction l as [|x l IH]; intros acc; cbn [fold_left map].
  - rewrite app_nil_r. reflexivity.
  - rewrite IH, <- app_assoc. reflexivity.
Qed.

Lemma forEach_append {A B} (g : A -> list B) l : forall acc,
  forEach l (fun rows x => (rows ++ g x)%list) acc
  = (acc ++ flat_map g l)%list.
Proof.
  unfold forEach.
  induction l as [|x l IH]; intros acc; cbn [fold_left flat_map].
  - rewrite app_nil_r. reflexivity.
  - rewrite IH, <- app_assoc. reflexivity.
Qed.

Lemma forEach_ext {A S} (f g : S -> A -> S) l :
  (forall s x, f s x = g s x) -> forall s, forEach l f s = forEach l g s.
Proof.
  intros E. unfold forEach.
  induction l as [|x l IH]; intros s; cbn [fold_left]; [reflexivity|].
  rewrite E. apply IH.
Qed.

(** The pushes, all at once. *)
Lemma activities_pushed_eq certifications userSkills :
  activities_pushed certifications userSkills
  = (map certification_row certifications
     ++ flat_map user_skill_rows userSkills)%list.
Proof.
  unfold activities_pushed. rewrite forEach_push. cbn [app].
  rewrite <- forEach_append. apply forEach_ext.
  intros rows u. unfold user_skill_rows, training_rows_of.
  destruct (UserSkill.trainings u) as [ts|];
    destruct (truthy_bool (UserSkill.hastrainings u));
    destruct (truthy_bool (UserSkill.hascertification u));
    rewrite ?forEach_push; unfold push; cbn [app];
    rewrite ?app_nil_r, ?app_assoc; reflexivity.
Qed.

Lemma professional_activities_rows_perm certifications userSkills :
  Permutation (professional_activities_rows certifications userSkills)
    (map certification_row certifications
       ++ flat_map user_skill_rows userSkills)%list.
Proof.
  unfold professional_activities_rows.
  rewrite <- activities_pushed_eq. apply Array_sort_perm.
Qed.

Lemma by_year_desc_lt a b ka kb :
  sort_year a = Num ka -> sort_year b = Num kb ->
  Number.lt (SortCompare by_year_desc a b) (Num 0) = (kb <? ka).
Proof.
  intros Ha Hb. unfold SortCompare, by_year_desc. rewrite Ha, Hb.
  cbn [Number.sub Number.neg Number.add Number.lt].
  destruct (Z.ltb_spec (kb + - ka) 0); destruct (Z.ltb_spec kb ka);
    try reflexivity; lia.
Qed.

Lemma sort_insert_sorted x l :
  numeric_key x -> Forall numeric_key l ->
  Sorted year_ge l -> Sorted year_ge (sort_insert by_year_desc x l).
Proof.
  intros [kx Hx] F S. induction S as [|y l S IH H]; cbn [sort_insert].
  - repeat constructor.
  - inversion F as [|? ? [ky Hy] F']; subst.
    rewrite (by_year_desc_lt x y kx ky Hx Hy).
    destruct (Z.ltb_spec ky kx) as [L|G].
    + constructor; [constructor; assumption|].
      constructor. exists kx, ky. repeat split; try assumption. lia.
    + constructor; [exact (IH F')|].
      destruct l as [|z l']; cbn [sort_insert].
      * constructor. exists ky, kx. repeat split; assumption.
      * inversion H as [|? ? (ka & kb & Ea & Eb & Le)]; subst.
        rewrite (by_year_desc_lt x z kx kb Hx Eb).
        destruct (Z.ltb_spec kb kx).
        -- constructor. exists ky, kx. repeat split; assumption.
        -- constructor. exists ka, kb. repeat split; assumption.
Qed.

Lemma fold_insert_sorted l : forall acc,
  Forall numeric_key l -> Forall numeric_key acc ->
  Sorted year_ge acc ->
  Sorted year_ge
    (fold_left (fun sorted x => sort_insert by_year_desc x sorted) l acc).
Proof.
  induction l as [|x l IH]; intros acc F FA S; cbn [fold_left]; [exact S|].
  inversion F; subst. apply IH; [assumption| |].
  - eapply Permutation_Forall;
      [apply Permutation_sym, sort_insert_perm|].
    constructor; assumption.
  - apply sort_insert_sorted; assumption.
Qed.

(** With numbers for all the keys (none is [NaN]), the rows come out in
    descending order of the key, a row without a year counting as 0. *)
Lemma professional_activities_rows_sorted certifications userSkills :
  Forall numeric_key (activities_pushed certifications userSkills) ->
  Sorted year_ge (professional_activities_rows certifications userSkills).
Proof.
  intros F. unfold professional_activities_rows, Array_sort.
  apply fold_insert_sorted; [exact F|constructor|constructor].
Qed.

Lemma year_ge_trans : Relations_1.Transitive year_ge.
Proof.
  intros a b c (ka & kb & Ea & Eb & L1) (kb' & kc & Eb' & Ec & L2).
  rewrite Eb in Eb'. injection Eb' as <-.
  exists ka, kc. repeat split; try assumption. lia.
Qed.

Lemma sorted_head_bound y l ky :
  sort_year y = Num ky -> Sorted year_ge (y :: l) ->
  Forall (fun r => exists k, sort_year r = Num k /\ k <= ky) l.
Proof.
  intros Hy S. apply (Sorted_StronglySorted year_ge_trans) in S.
  inversion S as [|? ? _ F]; subst.
  eapply Forall_impl; [|exact F].
  intros r (ka & kb & Ea & Eb & L). rewrite Hy in Ea. injection Ea as <-.
  exists kb. split; assumption.
Qed.

Lemma filter_has_year_below k l :
  Forall (fun r => exists k', sort_year r = Num k' /\ k' < k) l ->
  filter (has_year k) l = [].
Proof.
  induction 1 as [|r l (k' & E & L) F IH]; cbn [filter]; [reflexivity|].
  unfold has_year at 1. rewrite E.
  destruct (Z.eqb_spec k' k); [lia|exact IH].
Qed.

(** Where the sort puts a new row among the rows of its own year: behind
    them. *)
Lemma sort_insert_filter k x l :
  numeric_key x -> Forall numeric_key l -> Sorted year_ge l ->
  filter (has_year k) (sort_insert by_year_desc x l)
  = (filter (has_year k) l ++ (if has_year k x then [x] else []))%list.
Proof.
  intros [kx Hx] F S. induction l as [|y l IH]; cbn [sort_insert].
  - cbn [filter app]. destruct (has_year k x); reflexivity.
  - inversion F as [|? ? [ky Hy] F']; subst.
    rewrite (by_year_desc_lt x y kx ky Hx Hy).
    destruct (Z.ltb_spec ky kx) as [L|G].
    + destruct (has_year k x) eqn:HK.
      * assert (E : filter (has_year k) (y :: l) = []).
        { apply filter_has_year_below.
          unfold has_year in HK. rewrite Hx in HK.
          apply Z.eqb_eq in HK. subst k.
          constructor; [exists ky; split; [assumption|lia]|].
          eapply Forall_impl; [|apply (sorted_head_bound y l ky Hy S)].
          intros r (k' & E' & L'). exists k'. split; [assumption|lia]. }
        cbn [filter] in E |- *. rewrite HK, E. reflexivity.
      * change (filter (has_year k) (x :: y :: l))
          with (if has_year k x then x :: filter (has_year k) (y :: l)
                else filter (has_year k) (y :: l)).
        rewrite HK, app_nil_r. reflexivity.
    + cbn [filter]. inversion S; subst. rewrite (IH F') by assumption.
      destruct (has_year k y); reflexivity.
Qed.

Lemma fold_insert_filter k l : forall acc,
  Forall numeric_key l -> Forall numeric_key acc -> Sorted year_ge acc ->
  filter (has_year k)
    (fold_left (fun sorted x => sort_insert by_year_desc x sorted) l acc)
  = (filter (has_year k) acc ++ filter (has_year k) l)%list.
Proof.
  induction l as [|x l IH]; intros acc F FA S; cbn [fold_left filter].
  - rewrite app_nil_r. reflexivity.
  - inversion F; subst. rewrite IH.
    + rewrite sort_insert_filter by assumption.
      rewrite <- app_assoc. destruct (has_year k x); reflexivity.
    + assumption.
    + eapply Permutation_Forall;
        [apply Permutation_sym, sort_insert_perm|].
      constructor; assumption.
    + apply sort_insert_sorted; assumption.
Qed.

(** The sort is stable: the rows of one year keep the order in which they
    were pushed. Together with the order of the years and the permutation
    this fixes the result. *)
Lemma professional_activities_rows_stable certifications userSkills k :
  Forall numeric_key (activities_pushed certifications userSkills) ->
  filter (has_year k) (professional_activities_rows certifications userSkills)
  = filter (has_year k) (activities_pushed certifications userSkills).
Proof.
  intros F. unfold professional_activities_rows, Array_sort.
  rewrite fold_insert_filter; [reflexivity|exact F|constructor|constructor].
Qed.

(* =================================================================== *)
(** ** The roster of certifications and trainings: the claims *)
(* =================================================================== *)

Lemma flat_map_split (u : UserSkill.t) before after :
  flat_map user_skill_rows (before ++ u :: after)
  = (flat_map user_skill_rows before ++ user_skill_rows u
       ++ flat_map user_skill_rows after)%list.
Proof. rewrite flat_map_app. reflexivity. Qed.

(** C3 (amended). For every user skill whose [hastrainings] flag is set
    and every training nested under it, the roster holds the row of that
    training, one row per training, tagged with the local year of the
    training's date, or with "N/A" when the training has no date. *)
Theorem C3_flagged_training_rows (certifications : list Certification.t)
  (userSkills : list UserSkill.t) (uskill : UserSkill.t)
  (trainings : list Training.t) (training : Training.t) :
  In uskill userSkills ->
  truthy_bool (UserSkill.hastrainings uskill) = true ->
  UserSkill.trainings uskill = Some trainings ->
  In training trainings ->
  In (training_row training)
    (professional_activities_rows certifications userSkills)
  /\ (exists others,
        Permutation (professional_activities_rows certifications userSkills)
          (map training_row trainings ++ others)%list)
  /\ course_certification_name (training_row training)
     = Training.name training
  /\ year (training_row training)
     = (if truthy (Training.date training)
        then YearNumber (getFullYear (new_Date (Training.date training)))
        else YearText "N/A").
Proof.
  intros IU FL TS IT.
  assert (TR : training_rows_of uskill = map training_row trainings)
    by (unfold training_rows_of; rewrite TS, FL; reflexivity).
  pose proof (professional_activities_rows_perm certifications userSkills)
    as P.
  split; [|split; [|split; reflexivity]].
  - eapply Permutation_in; [apply Permutation_sym, P|].
    apply in_or_app. right. apply in_flat_map. exists uskill.
    split; [exact IU|]. unfold user_skill_rows. apply in_or_app. left.
    rewrite TR. apply in_map. exact IT.
  - destruct (in_split _ _ IU) as (before & after & ->).
    rewrite flat_map_split in P. unfold user_skill_rows at 2 in P.
    rewrite TR in P.
    eexists. eapply perm_trans; [exact P|].
    rewrite <- !app_assoc.
    rewrite (app_assoc (map certification_row certifications)).
    apply Permutation_app_swap_app.
Qed.

(** C6 (amended). A user skill flagged [hascertification] adds exactly one
    synthetic row to the roster, next to the rows of its trainings and
    whatever the other records add. The row is named by the
    [certificationname] of the user skill when that is set, otherwise by
    the skill's own name, otherwise "Unnamed Certification". With this
    user skill alone, no certification row and no training, the roster is
    that one row. *)
Theorem C6_one_synthetic_row (certifications : list Certification.t)
  (before after : list UserSkill.t) (uskill : UserSkill.t) :
  truthy_bool (UserSkill.hascertification uskill) = true ->
  Permutation
    (professional_activities_rows certifications
       (before ++ uskill :: after))
    (user_skill_row uskill
       :: training_rows_of uskill
       ++ professional_activities_rows certifications (before ++ after))%list
  /\ institution (user_skill_row uskill) = "N/A (via User Skill)"
  /\ (truthy (UserSkill.certificationname uskill) = true ->
      course_certification_name (user_skill_row uskill)
      = UserSkill.certificationname uskill)
  /\ (truthy (UserSkill.certificationname uskill) = false ->
      truthy (skill_name uskill) = true ->
      course_certification_name (user_skill_row uskill) = skill_name uskill)
  /\ (truthy (UserSkill.certificationname uskill) = false ->
      truthy (skill_name uskill) = false ->
      course_certification_name (user_skill_row uskill)
      = Some "Unnamed Certification")
  /\ (training_rows_of uskill = [] ->
      professional_activities_rows [] [uskill] = [user_skill_row uskill]).
Proof.
  intros FL. split; [|split; [reflexivity|split; [|split; [|split]]]].
  - eapply perm_trans; [apply professional_activities_rows_perm|].
    rewrite flat_map_split. unfold user_skill_rows at 2. rewrite FL.
    eapply perm_trans;
      [|apply perm_skip, Permutation_app_head, Permutation_sym,
          professional_activities_rows_perm].
    rewrite flat_map_app.
    set (C := map certification_row certifications).
    set (FB := flat_map user_skill_rows before).
    set (FA := flat_map user_skill_rows after).
    set (T := training_rows_of uskill).
    set (r := user_skill_row uskill).
    rewrite <- !app_assoc. rewrite (app_assoc C FB).
    eapply perm_trans; [apply Permutation_app_swap_app|].
    rewrite <- !app_assoc. cbn [app]. rewrite !app_assoc.
    apply Permutation_sym, Permutation_middle.
  - intros T. unfold user_skill_row, or_else. cbn [course_certification_name].
    rewrite T. unfold or_default, truthy in *.
    destruct (UserSkill.certificationname uskill) as [n|]; [|discriminate].
    unfold truthy_str. rewrite T. reflexivity.
  - intros T N. unfold user_skill_row, or_else. cbn [course_certification_name].
    rewrite T. unfold or_default, truthy in N |- *.
    destruct (skill_name uskill) as [n|]; [|discriminate].
    unfold truthy_str. rewrite N. reflexivity.
  - intros T N. unfold user_skill_row, or_else. cbn [course_certification_name].
    rewrite T. unfold or_default, truthy in N |- *.
    destruct (skill_name uskill) as [n|]; [|reflexivity].
    unfold truthy_str. rewrite N. reflexivity.
  - intros TR. unfold professional_activities_rows.
    rewrite activities_pushed_eq. cbn [map flat_map app].
    unfold user_skill_rows. rewrite TR, FL. reflexivity.
Qed.

(* =================================================================== *)
(** ** The sequence of reads: the claim *)
(* =================================================================== *)

(** C8. When the read of the user and the read of the experiences succeed
    and the read of the user skills answers with an error, the handler
    has issued these three reads and no other (the read of the
    certifications is not among them), has logged the error under the
    name of the failing read, and answers with status 500 and the message
    of the error as details: no document and no view model. *)
Theorem C8_user_skills_read_failure (userId : string) (userData : UserRow)
  (userSkillsError : string) (w : World) :
  userId <> "" ->
  error (from_users supabase userId) = None ->
  data (from_users supabase userId) = Some userData ->
  error (from_experiences supabase userId) = None ->
  error (from_user_skills supabase userId) = Some userSkillsError ->
  fst (GET (Some userId) w)
  = Ok (JsonResponse 500 "Failed to generate CV."
          (DetailsMessage userSkillsError))
  /\ issued (snd (GET (Some userId) w))
     = (issued w
        ++ [ReadUser userId; ReadExperiences userId; ReadUserSkills userId])%list
  /\ (forall ids,
        ~ In (ReadCertifications ids) (issued w) ->
        ~ In (ReadCertifications ids) (issued (snd (GET (Some userId) w))))
  /\ In (console_error "Error fetching user skills:" (Some userSkillsError))
       (console (snd (GET (Some userId) w))).
Proof.
  intros NE EU DU EE ES.
  assert (T : truthy_str userId = true).
  { unfold truthy_str. destruct (String.eqb_spec userId ""); [contradiction|].
    reflexivity. }
  assert (R : GET (Some userId) w
          = (Ok (JsonResponse 500 "Failed to generate CV."
                   (DetailsMessage userSkillsError)),
             {| issued := (issued w
                  ++ [ReadUser userId; ReadExperiences userId;
                      ReadUserSkills userId])%list;
                console := (console w
                  ++ [console_log "Fetching user data for ID:";
                      console_log "User Data:";
                      console_log "Fetching experiences...";
                      console_log "Experiences Data:";
                      console_log "Fetching user skills & trainings...";
                      console_error "Error fetching user skills:"
                        (Some userSkillsError);
                      console_error "Error generating CV:"
                        (Some userSkillsError)])%list |})).
  { unfold GET. rewrite T. unfold try_catch, GET_body.
    unfold bindM at 1. unfold say at 1. unfold bindM at 1. unfold await at 1.
    cbn [issued console]. rewrite EU, DU.
    unfold bindM, say, await, throw, ret. cbn [issued console].
    rewrite EE. cbn [issued console]. rewrite ES. cbn [issued console].
    cbn [thrown_message]. rewrite <- !app_assoc. reflexivity. }
  rewrite R. cbn [fst snd issued console].
  split; [reflexivity|]. split; [reflexivity|]. split.
  - intros ids NI I. apply in_app_or in I. destruct I as [I|I]; [auto|].
    cbn [In] in I. destruct I as [I|[I|[I|[]]]]; discriminate I.
  - apply in_or_app. right. cbn [In]. auto 10.
Qed.

(* =================================================================== *)
(** ** Facts about the two tables of skills *)
(* =================================================================== *)

Lemma forEach_invariant {A S} (P : S -> Prop) (l : list A)
  (body : S -> A -> S) :
  (forall s x, In x l -> P s -> P (body s x)) ->
  forall s, P s -> P (forEach l body s).
Proof.
  unfold forEach. induction l as [|x l IH]; intros B s Ps; cbn [fold_left].
  - exact Ps.
  - apply IH.
    + intros s' x' I. apply B. right. exact I.
    + apply B; [left; reflexivity|exact Ps].
Qed.

Lemma Forall_push {A} (P : A -> Prop) rows x :
  Forall P rows -> P x -> Forall P (push rows x).
Proof.
  intros F Px. unfold push. apply Forall_app. split; [exact F|].
  constructor; [exact Px|constructor].
Qed.

(** Every row of the table of technical skills carries the duration text
    of one of the experiences. *)
Lemma technical_rows_text experiences d :
  (forall exp, In exp experiences -> expDuration exp = d) ->
  Forall (fun r => experience_yrs_months r = d)
    (technical_expertise_primary_skills experiences).
Proof.
  intros D. unfold technical_expertise_primary_skills.
  apply forEach_invariant; [|constructor].
  intros rows exp I F. apply forEach_invariant; [|exact F].
  intros rows' es _ F'.
  destruct (ExperienceSkill.skills es) as [sk|]; [|exact F'].
  destruct (strict_eq (Skill.type sk) (Some "hard")); [|exact F'].
  destruct (existsb _ rows'); [exact F'|].
  apply Forall_push; [exact F'|]. cbn [experience_yrs_months].
  apply D. exact I.
Qed.

Lemma Map_set_Forall {V} (P : V -> Prop) (m : list (option string * V)) k v :
  Forall (fun entry => P (snd entry)) m -> P v ->
  Forall (fun entry => P (snd entry)) (Map_set m k v).
Proof.
  intros F Pv. induction F as [|[k' v'] m Pk F IH]; cbn [Map_set].
  - constructor; [exact Pv|constructor].
  - destruct (strict_eq k' k).
    + constructor; [exact Pv|exact F].
    + constructor; [exact Pk|exact IH].
Qed.

Lemma Map_get_Forall {V} (P : V -> Prop) (m : list (option string * V)) k v :
  Forall (fun entry => P (snd entry)) m -> Map_get m k = Some v -> P v.
Proof.
  intros F. induction F as [|[k' v'] m Pk F IH]; cbn [Map_get].
  - discriminate.
  - destruct (strict_eq k' k).
    + intros E. injection E as <-. exact Pk.
    + exact IH.
Qed.

Lemma domain_map_text experiences d :
  (forall exp, In exp experiences -> expDuration exp = d) ->
  Forall (fun entry => Forall (fun inner => snd inner = d) (snd entry))
    (domain_expertise_map experiences).
Proof.
  intros D. unfold domain_expertise_map.
  apply forEach_invariant; [|constructor].
  intros m exp I F. apply forEach_invariant; [|exact F].
  intros m' es _ F'.
  destruct (ExperienceSkill.skills es) as [sk|]; [|exact F'].
  destruct (Skill.skill_families sk) as [fam|]; [|exact F'].
  set (m'' := if negb (Map_has m' (SkillFamily.name fam))
              then Map_set m' (SkillFamily.name fam) [] else m').
  assert (F'' : Forall
                  (fun entry => Forall (fun inner => snd inner = d) (snd entry))
                  m'').
  { subst m''. destruct (negb _); [|exact F'].
    apply (Map_set_Forall (Forall (fun inner => snd inner = d)));
      [exact F'|constructor]. }
  destruct (Map_get m'' (SkillFamily.name fam)) as [inner|] eqn:G;
    [|exact F''].
  apply (Map_set_Forall (Forall (fun inner => snd inner = d)));
    [exact F''|].
  apply (Map_set_Forall (fun v => v = d)).
  - apply (Map_get_Forall (Forall (fun inner => snd inner = d)) m'' _ _ F'' G).
  - apply D. exact I.
Qed.

(** Every row of the table of domains carries the duration text of one of
    the experiences. *)
Lemma domain_rows_text experiences d :
  (forall exp, In exp experiences -> expDuration exp = d) ->
  Forall (fun r => domain_experience_yrs_months r = d)
    (domain_expertise_rows experiences).
Proof.
  intros D. pose proof (domain_map_text experiences d D) as F.
  unfold domain_expertise_rows.
  apply forEach_invariant; [|constructor].
  intros rows entry I R. rewrite Forall_forall in F.
  pose proof (F entry I) as FI.
  apply forEach_invariant; [|exact R].
  intros rows' inner I' R'. apply Forall_push; [exact R'|].
  cbn [domain_experience_yrs_months]. rewrite Forall_forall in FI.
  apply FI. exact I'.
Qed.

Lemma Day_mono t1 t2 : t1 <= t2 -> Day t1 <= Day t2.
Proof. intros H. unfold Day, msPerDay. zdiv. Qed.

Lemma YearFromDay_mono d1 d2 : d1 <= d2 -> YearFromDay d1 <= YearFromDay d2.
Proof.
  intros H. pose proof (YearFromDay_bounds d1) as B1.
  pose proof (YearFromDay_bounds d2) as B2.
  destruct (Z.le_gt_cases (YearFromDay d1) (YearFromDay d2)) as [L|G];
    [exact L|].
  pose proof (DayFromYear_mono (YearFromDay d2 + 1) (YearFromDay d1)
                ltac:(lia)).
  lia.
Qed.

Lemma monthOfDay_mono leap d1 d2 :
  d1 <= d2 -> monthOfDay leap d1 <= monthOfDay leap d2.
Proof.
  intros H. unfold monthOfDay.
  repeat match goal with
         | |- context [?a <? ?b] => destruct (Z.ltb_spec a b); try lia
         end.
Qed.

(** Local calendar fields follow the order of local times: an earlier
    time has an earlier year, or the same year and no later month. *)
Lemma local_fields_mono t1 t2 :
  LocalTime t1 <= LocalTime t2 ->
  YearFromTime (LocalTime t1) - YearFromTime (LocalTime t2) < 0
  \/ (YearFromTime (LocalTime t1) - YearFromTime (LocalTime t2) = 0
      /\ MonthFromTime (LocalTime t1) - MonthFromTime (LocalTime t2) <= 0).
Proof.
  intros H. pose proof (Day_mono _ _ H) as D.
  pose proof (YearFromDay_mono _ _ D) as Y.
  unfold YearFromTime.
  destruct (Z.eq_dec (YearFromDay (Day (LocalTime t1)))
              (YearFromDay (Day (LocalTime t2)))) as [E|N]; [|left; lia].
  right. split; [lia|].
  unfold MonthFromTime, InLeapYear, DayWithinYear, YearFromTime.
  rewrite E.
  pose proof (monthOfDay_mono
                (if isLeap (YearFromDay (Day (LocalTime t2))) then 1 else 0)
                (Day (LocalTime t1)
                 - DayFromYear (YearFromDay (Day (LocalTime t2))))
                (Day (LocalTime t2)
                 - DayFromYear (YearFromDay (Day (LocalTime t2))))
                ltac:(lia)).
  lia.
Qed.

(* =================================================================== *)
(** ** The tenure calculator: the claims *)
(* =================================================================== *)

Lemma Day_shift t o :
  - msPerDay < o < msPerDay -> Day t - 1 <= Day (t + o) <= Day t + 1.
Proof. unfold Day, msPerDay. intros H. zdiv. Qed.

(** C1 (amended). From 2020-01-15 to 2023-04-10 the calculator counts the
    calendar months only (April minus January), wherever local time is
    within a day of UTC: the span is 3 years and 3 months, and the text is
    "3 ans 3 mois". *)
Theorem C1_tenure_2020_01_15_to_2023_04_10 :
  (forall t, - msPerDay < LocalTZA t < msPerDay) ->
  tenure_span (new_Date (Some "2020-01-15")) (new_Date (Some "2023-04-10"))
  = (Num 3, Num 3)
  /\ calculateDuration (Some "2020-01-15") (Some "2023-04-10")
     = "3 ans 3 mois".
Proof.
  intros TZ.
  assert (S : new_Date (Some "2020-01-15") = Num utc_2020_01_15)
    by (vm_compute; reflexivity).
  assert (E : new_Date (Some "2023-04-10") = Num utc_2023_04_10)
    by (vm_compute; reflexivity).
  assert (DS : Day utc_2020_01_15 = 18276) by (vm_compute; reflexivity).
  assert (DE : Day utc_2023_04_10 = 19457) by (vm_compute; reflexivity).
  pose proof (Day_shift utc_2020_01_15 _ (TZ utc_2020_01_15)) as BS.
  pose proof (Day_shift utc_2023_04_10 _ (TZ utc_2023_04_10)) as BE.
  rewrite DS in BS. rewrite DE in BE.
  destruct (local_fields utc_2020_01_15 2020 0 ltac:(lia)) as [YS MS].
  { change (18262 <= Day (LocalTime utc_2020_01_15) < 18293).
    unfold LocalTime. lia. }
  destruct (local_fields utc_2023_04_10 2023 3 ltac:(lia)) as [YE ME].
  { change (19448 <= Day (LocalTime utc_2023_04_10) < 19478).
    unfold LocalTime. lia. }
  assert (SP : tenure_span (Num utc_2020_01_15) (Num utc_2023_04_10)
               = (Num 3, Num 3)).
  { unfold tenure_span. rewrite YS, MS, YE, ME. reflexivity. }
  split.
  - rewrite S, E. exact SP.
  - rewrite calculateDuration_unfold by reflexivity.
    change (truthy (Some "2023-04-10")) with true. cbn iota.
    rewrite S, E. unfold duration_between. rewrite SP. reflexivity.
Qed.

(** The text for two valid dates, and the range of the months. *)
Lemma calculateDuration_valid (s : string) (e : option string) (ts te : Z) :
  s <> "" ->
  new_Date (Some s) = Num ts ->
  (if truthy e then new_Date e else Date_now) = Num te ->
  let Y := YearFromTime (LocalTime te) - YearFromTime (LocalTime ts) in
  let M := MonthFromTime (LocalTime te) - MonthFromTime (LocalTime ts) in
  let years := if M <? 0 then Y - 1 else Y in
  let months := if M <? 0 then M + 12 else M in
  calculateDuration (Some s) e = render_tenure (Num years) (Num months)
  /\ 0 <= months <= 11.
Proof.
  intros NE PS PE Y M years months.
  pose proof (tenure_span_valid ts te) as SP. cbv zeta in SP.
  fold Y M in SP. fold years months in SP.
  split.
  - rewrite calculateDuration_unfold by (apply truthy_Some; exact NE).
    rewrite PS, PE. unfold duration_between. rewrite SP. reflexivity.
  - pose proof (MonthFromTime_range (LocalTime te)) as R1.
    pose proof (MonthFromTime_range (LocalTime ts)) as R2.
    subst months M.
    destruct (Z.ltb_spec
      (MonthFromTime (LocalTime te) - MonthFromTime (LocalTime ts)) 0); lia.
Qed.

(** C5. For every pair of valid dates, the calculator takes the difference
    of the calendar years and of the calendar months (days play no part),
    borrows a year when the month difference is negative, which leaves the
    months in 0..11 and the total number of months unchanged, and renders
    a span of zero years and zero months, as for two dates of the same
    calendar month, as "Moins d'un mois"; the text is never empty. *)
Theorem C5_calendar_month_arithmetic (s : string) (e : option string)
  (ts te : Z) :
  s <> "" ->
  new_Date (Some s) = Num ts ->
  (if truthy e then new_Date e else Date_now) = Num te ->
  let Y := YearFromTime (LocalTime te) - YearFromTime (LocalTime ts) in
  let M := MonthFromTime (LocalTime te) - MonthFromTime (LocalTime ts) in
  let years := if M <? 0 then Y - 1 else Y in
  let months := if M <? 0 then M + 12 else M in
  tenure_span (Num ts) (Num te) = (Num years, Num months)
  /\ calculateDuration (Some s) e = render_tenure (Num years) (Num months)
  /\ 0 <= months <= 11
  /\ 12 * years + months = 12 * Y + M
  /\ (years = 0 -> months = 0 ->
      calculateDuration (Some s) e = "Moins d'un mois")
  /\ (Y = 0 -> M = 0 -> calculateDuration (Some s) e = "Moins d'un mois")
  /\ calculateDuration (Some s) e <> "".
Proof.
  intros NE PS PE Y M years months.
  pose proof (tenure_span_valid ts te) as SP. cbv zeta in SP.
  fold Y M in SP. fold years months in SP.
  destruct (calculateDuration_valid s e ts te NE PS PE) as [CD RM].
  fold Y M in CD, RM. fold years months in CD, RM.
  assert (Z0 : years = 0 -> months = 0 ->
               calculateDuration (Some s) e = "Moins d'un mois").
  { intros HY HM. rewrite CD, HY, HM. reflexivity. }
  repeat split; try assumption; try lia.
  - subst years months. destruct (Z.ltb_spec M 0); lia.
  - intros HY HM. apply Z0; subst years months;
      destruct (Z.ltb_spec M 0); lia.
  - rewrite CD. apply render_tenure_nonempty.
Qed.

(** C10. When the end date precedes the start date (in local time), the
    year count after the borrow is not positive; and whenever it is not
    positive the calculator still returns a text: the year phrase is left
    out, a positive month count is rendered alone, and with zero months
    (an end a whole number of years before the start) the text is
    "Moins d'un mois". *)
Theorem C10_negative_years_dropped (s : string) (e : option string)
  (ts te : Z) :
  s <> "" ->
  new_Date (Some s) = Num ts ->
  (if truthy e then new_Date e else Date_now) = Num te ->
  let Y := YearFromTime (LocalTime te) - YearFromTime (LocalTime ts) in
  let M := MonthFromTime (LocalTime te) - MonthFromTime (LocalTime ts) in
  let years := if M <? 0 then Y - 1 else Y in
  let months := if M <? 0 then M + 12 else M in
  (LocalTime te <= LocalTime ts -> years <= 0)
  /\ (years <= 0 ->
      calculateDuration (Some s) e
      = (if 0 <? months then Number.toString (Num months) ++ " mois"
         else "Moins d'un mois"))
  /\ (Y <= 0 -> M = 0 -> calculateDuration (Some s) e = "Moins d'un mois").
Proof.
  intros NE PS PE Y M years months.
  destruct (calculateDuration_valid s e ts te NE PS PE) as [CD RM].
  fold Y M in CD, RM. fold years months in CD, RM.
  assert (R : years <= 0 ->
              calculateDuration (Some s) e
              = (if 0 <? months then Number.toString (Num months) ++ " mois"
                 else "Moins d'un mois")).
  { intros NY. rewrite CD. apply render_tenure_no_years; assumption. }
  split; [|split; [exact R|]].
  - intros LE. pose proof (local_fields_mono te ts LE) as O.
    fold Y M in O. subst years.
    destruct O as [L|[EY LM]]; destruct (Z.ltb_spec M 0); lia.
  - intros HY HM. rewrite R.
    + assert (Z0 : months = 0)
        by (subst months; destruct (Z.ltb_spec M 0); lia).
      rewrite Z0. reflexivity.
    + subst years. destruct (Z.ltb_spec M 0); lia.
Qed.

(** C4. The company filter keeps the experiences whose company name is
    present and equals the given name up to letter case (the two have
    the same [toLowerCase] of the runtime). With no match the
    answer is "N/A", which no tenure of zero length is rendered as. With
    matches whose dates are valid, the answer is the tenure from the
    earliest start to the latest effective end (the clock for an
    experience without end date): one envelope, not a sum of stints. *)
Theorem C4_company_envelope (experiences : list Experience.t)
  (companyName : string) :
  let matching := filter (company_matches companyName) experiences in
  (forall exp,
      In exp matching <->
      In exp experiences
      /\ exists c, Experience.company exp = Some c /\ c <> ""
                   /\ toLowerCase c = toLowerCase companyName)
  /\ (forall exp, truthy (Experience.enddate exp) = false ->
                  effective_end exp = Date_now)
  /\ (matching = [] ->
      calculateDurationForCompany experiences companyName = Ok "N/A")
  /\ (forall t, duration_between (Num t) (Num t) = "Moins d'un mois"
                /\ "N/A" <> duration_between (Num t) (Num t))
  /\ (matching <> [] ->
      Forall (fun exp => valid_date (start_time exp)) matching ->
      Forall (fun exp => valid_date (effective_end exp)) matching ->
      exists tmin tmax,
        is_earliest tmin (map start_time matching)
        /\ is_latest tmax (map effective_end matching)
        /\ calculateDurationForCompany experiences companyName
           = Ok (duration_between (Num tmin) (Num tmax))).
Proof.
  intros matching. split; [|split; [|split; [|split]]].
  - intros exp. subst matching. rewrite filter_In. unfold company_matches.
    split.
    + intros [I C]. split; [exact I|].
      destruct (Experience.company exp) as [c|]; [|discriminate].
      apply andb_prop in C. destruct C as [T Q]. exists c.
      split; [reflexivity|]. split.
      * unfold truthy_str in T. intros ->. discriminate.
      * apply String.eqb_eq. exact Q.
    + intros [I (c & E & NEc & Q)]. split; [exact I|].
      rewrite E. apply andb_true_intro. split.
      * unfold truthy_str. destruct (String.eqb_spec c ""); [contradiction|].
        reflexivity.
      * apply String.eqb_eq. exact Q.
  - intros exp F. unfold effective_end. rewrite F. reflexivity.
  - intros E. unfold calculateDurationForCompany. fold matching.
    rewrite E. reflexivity.
  - intros t.
    assert (Z0 : duration_between (Num t) (Num t) = "Moins d'un mois").
    { unfold duration_between. rewrite tenure_span_valid.
      rewrite !Z.sub_diag. reflexivity. }
    rewrite Z0. split; [reflexivity|discriminate].
  - intros NE VS VE. unfold calculateDurationForCompany. fold matching.
    destruct matching as [|m0 ms] eqn:EM; [contradiction|].
    cbn [List.length Nat.eqb]. rewrite <- EM in *.
    rewrite map_id.
    replace (map getTime (map effective_end matching))
      with (map effective_end matching) by (symmetry; apply map_id).
    apply envelope_duration.
    + rewrite EM. discriminate.
    + rewrite EM. discriminate.
    + apply Forall_map. exact VS.
    + apply Forall_map. exact VE.
    + intros t I. apply in_map_iff in I. destruct I as (x & E & _).
      apply (new_Date_in_range _ _ E).
    + intros t I. apply in_map_iff in I. destruct I as (x & E & _).
      apply (effective_end_in_range _ _ E).
Qed.

(** C2 (amended). The total guards the reduction by testing every start
    date first: with no experience, or with one start date that is not a
    valid date, the answer is "N/A"; with valid start dates and valid
    effective end dates it is the tenure from the earliest start to the
    latest effective end. *)
Theorem C2_total_experience_guard (experiences : list Experience.t) :
  (experiences = [] -> total_experience experiences = Ok "N/A")
  /\ (Exists (fun exp => start_time exp = NaN) experiences ->
      total_experience experiences = Ok "N/A")
  /\ (experiences <> [] ->
      Forall (fun exp => valid_date (start_time exp)) experiences ->
      Forall (fun exp => valid_date (effective_end exp)) experiences ->
      exists tmin tmax,
        is_earliest tmin (map start_time experiences)
        /\ is_latest tmax (map effective_end experiences)
        /\ total_experience experiences
           = Ok (duration_between (Num tmin) (Num tmax))).
Proof.
  split; [|split].
  - intros ->. reflexivity.
  - intros EX. unfold total_experience.
    destruct (0 <? List.length experiences)%nat; [|reflexivity].
    assert (F : forallb (fun d => negb (Number.isNaN d))
                  (map (fun exp => getTime (new_Date (Experience.startdate exp)))
                     experiences) = false).
    { induction EX as [x l H|x l H IH].
      - cbn [map forallb]. unfold getTime. unfold start_time in H.
        rewrite H. reflexivity.
      - cbn [map forallb]. rewrite IH. apply andb_false_r. }
    rewrite F, andb_false_r. reflexivity.
  - intros NE VS VE. unfold total_experience.
    destruct experiences as [|x l] eqn:EL; [contradiction|].
    rewrite <- EL in *.
    assert (L : (0 <? List.length experiences)%nat = true)
      by (rewrite EL; reflexivity).
    rewrite L. rewrite length_map, L. cbn [andb].
    change (map (fun exp => getTime (new_Date (Experience.startdate exp)))
              experiences) with (map start_time experiences).
    change (map (fun exp => getTime (effective_end exp)) experiences)
      with (map effective_end experiences).
    assert (F : forallb (fun d => negb (Number.isNaN d))
                  (map start_time experiences) = true).
    { apply forallb_forall. intros d I. apply in_map_iff in I.
      destruct I as (x' & E & I). rewrite Forall_forall in VS.
      destruct (VS x' I) as [t Ht]. rewrite <- E, Ht. reflexivity. }
    rewrite F.
    apply envelope_duration.
    + rewrite EL. discriminate.
    + rewrite EL. discriminate.
    + apply Forall_map. exact VS.
    + apply Forall_map. exact VE.
    + intros t I. apply in_map_iff in I. destruct I as (x' & E & _).
      apply (new_Date_in_range _ _ E).
    + intros t I. apply in_map_iff in I. destruct I as (x' & E & _).
      apply (effective_end_in_range _ _ E).
Qed.

(* =================================================================== *)
(** ** The handler on every path *)
(* =================================================================== *)

Lemma bindM_say {B} (l : console_line) (k : unit -> M B) (w : World) :
  bindM (say l) k w
  = k tt {| issued := issued w; console := (console w ++ [l])%list |}.
Proof. reflexivity. Qed.

Lemma bindM_await {A B} (q : query) (a : QueryResult A)
  (k : QueryResult A -> M B) (w : World) :
  bindM (await q a) k w
  = k a {| issued := (issued w ++ [q])%list; console := console w |}.
Proof. reflexivity. Qed.

Lemma bindM_lift {A B} (r : result A) (k : A -> M B) (w : World) :
  bindM (lift r) k w
  = match r with Ok a => k a w | Throw e => (Throw e, w) end.
Proof. destruct r; reflexivity. Qed.

Lemma world_eta (w : World) :
  {| issued := (issued w ++ [])%list; console := (console w ++ [])%list |} = w.
Proof. destruct w. cbn. rewrite !app_nil_r. reflexivity. Qed.

(** The fourth read, run: issued for a non-empty list of ids only. *)
Lemma fetch_certifications_run (u : string) (w : World) :
  fetch_certifications (data (from_user_skills supabase u)) w
  = (Ok (certifications_read u, certification_error u),
     {| issued :=
          (issued w
           ++ (if (0 <? List.length (certification_ids u))%nat
               then [ReadCertifications (certification_ids u)] else []))%list;
        console := console w |}).
Proof.
  unfold fetch_certifications, certifications_read, certification_error,
    certification_ids.
  destruct (data (from_user_skills supabase u)) as [[|x l]|]; cbn [or_nil].
  - cbn. rewrite app_nil_r. destruct w; reflexivity.
  - destruct (0 <? List.length (user_skill_ids (x :: l)))%nat.
    + reflexivity.
    + cbn. rewrite app_nil_r. destruct w; reflexivity.
  - cbn. rewrite app_nil_r. destruct w; reflexivity.
Qed.

(** Every run of the handler takes one of the paths: it completes with
    the answer of the path, having issued the reads of the path. *)
Lemma GET_takes_a_path (userId : option string) (w : World) :
  exists reads logs r,
    GET userId w
    = (Ok r, {| issued := (issued w ++ reads)%list;
                console := (console w ++ logs)%list |})
    /\ GET_path userId reads r.
Proof.
  destruct userId as [u|].
  2:{ exists [], [], (JsonResponse 400 "userId is required" NoDetails).
      split; [cbn; rewrite world_eta; reflexivity|].
      apply path_no_userId. reflexivity. }
  unfold GET. destruct (truthy_str u) eqn:T.
  2:{ exists [], [], (JsonResponse 400 "userId is required" NoDetails).
      split; [cbn; rewrite world_eta; reflexivity|].
      apply path_no_userId. exact T. }
  unfold try_catch, GET_body.
  rewrite bindM_say, bindM_await.
  destruct (error (from_users supabase u)) as [ue|] eqn:EU.
  { eexists ([ReadUser u]), _, _. split.
    - rewrite bindM_say. cbn [ret issued console].
      rewrite <- !app_assoc. reflexivity.
    - eapply path_user_not_found; [reflexivity|exact T|].
      left. rewrite EU. discriminate. }
  destruct (data (from_users supabase u)) as [userData|] eqn:DU.
  2:{ eexists ([ReadUser u]), _, _. split.
      - rewrite bindM_say. cbn [ret issued console].
        rewrite <- !app_assoc. reflexivity.
      - eapply path_user_not_found; [reflexivity|exact T|].
        right. exact DU. }
  rewrite !bindM_say, bindM_await.
  destruct (error (from_experiences supabase u)) as [ee|] eqn:EE.
  { eexists ([ReadUser u; ReadExperiences u]), _, _. split.
    - rewrite bindM_say. unfold throw. rewrite bindM_say.
      cbn [ret issued console thrown_message].
      rewrite <- !app_assoc. reflexivity.
    - eapply path_experiences_failed; eauto. }
  rewrite !bindM_say, bindM_await.
  destruct (error (from_user_skills supabase u)) as [ke|] eqn:EK.
  { eexists ([ReadUser u; ReadExperiences u; ReadUserSkills u]), _, _. split.
    - rewrite bindM_say. unfold throw. rewrite bindM_say.
      cbn [ret issued console thrown_message].
      rewrite <- !app_assoc. reflexivity.
    - eapply path_user_skills_failed; eauto. }
  assert (OK3 : three_reads_ok u userData) by (repeat split; assumption).
  rewrite !bindM_say.
  unfold bindM at 1. rewrite fetch_certifications_run.
  cbn [fst snd issued console].
  assert (RD : forall l : list query,
             ((((l ++ [ReadUser u]) ++ [ReadExperiences u])
                 ++ [ReadUserSkills u])
                ++ (if (0 <? List.length (certification_ids u))%nat
                    then [ReadCertifications (certification_ids u)] else [])
              = l ++ reads_done u)%list).
  { intros l. unfold reads_done. rewrite <- !app_assoc. reflexivity. }
  rewrite RD.
  destruct (certification_error u) as [ce|] eqn:EC.
  { eexists (reads_done u), _, _. split.
    - rewrite bindM_say. unfold throw. rewrite bindM_say.
      cbn [ret issued console thrown_message].
      rewrite <- !app_assoc. reflexivity.
    - eapply path_certifications_failed; eauto. }
  rewrite bindM_say, bindM_lift.
  destruct (total_experience (or_nil (data (from_experiences supabase u))))
    as [total|x] eqn:ET.
  2:{ eexists (reads_done u), _, _. split.
      - rewrite bindM_say. cbn [ret issued console].
        rewrite <- !app_assoc. reflexivity.
      - eapply path_total_throws; eauto. }
  rewrite bindM_say.
  destruct template_exists eqn:TE; cbn [negb].
  2:{ eexists (reads_done u), _, _. split.
      - rewrite bindM_say. cbn [ret issued console].
        rewrite <- !app_assoc. reflexivity.
      - eapply path_no_template; eauto. }
  rewrite bindM_lift.
  destruct open_template as [[]|x] eqn:EO.
  2:{ eexists (reads_done u), _, _. split.
      - rewrite bindM_say. cbn [ret issued console].
        rewrite <- !app_assoc. reflexivity.
      - eapply path_template_unreadable; eauto. }
  rewrite bindM_lift.
  destruct (calculateDurationForCompany
              (or_nil (data (from_experiences supabase u))) "DXC")
    as [dxc|x] eqn:ED.
  2:{ eexists (reads_done u), _, _. split.
      - rewrite bindM_say. cbn [ret issued console].
        rewrite <- !app_assoc. reflexivity.
      - eapply path_company_throws; eauto. }
  rewrite bindM_say.
  change (docx_render _) with (docx_render (template_data userData u total dxc)).
  destruct (docx_render (template_data userData u total dxc))
    as [err|rendered] eqn:ER.
  - destruct (render_errors err) as [errors|] eqn:RE.
    + eexists (reads_done u), _,
        (JsonResponse 500 "Failed to render CV document."
           (render_failure_details err)).
      split; [|eapply path_render_failed; eauto].
      rewrite !bindM_say. unfold render_failure_details. rewrite RE.
      cbn [ret issued console]. rewrite <- !app_assoc. reflexivity.
    + eexists (reads_done u), _,
        (JsonResponse 500 "Failed to render CV document."
           (render_failure_details err)).
      split; [|eapply path_render_failed; eauto].
      rewrite !bindM_say. unfold render_failure_details. rewrite RE.
      cbn [ret issued console]. rewrite <- !app_assoc. reflexivity.
  - rewrite bindM_lift.
    destruct (docx_generate rendered) as [buf|x] eqn:EG.
    2:{ eexists (reads_done u), _, _. split.
        - rewrite bindM_say. cbn [ret issued console].
          rewrite <- !app_assoc. reflexivity.
        - eapply path_generate_throws; eauto. }
    rewrite bindM_lift.
    change ("attachment; filename=" ++ _)
      with (attachment_header userData).
    destruct (Headers_set "Content-Disposition" (attachment_header userData))
      as [[]|x] eqn:EH.
    2:{ eexists (reads_done u), _, _. split.
        - rewrite bindM_say. cbn [ret issued console].
          rewrite <- !app_assoc. reflexivity.
        - eapply path_header_refused; eauto.
          unfold headers_of. rewrite EH. reflexivity. }
    rewrite bindM_lift.
    destruct (Headers_set "Content-Type" docx_content_type) as [[]|x] eqn:EH2.
    2:{ eexists (reads_done u), _, _. split.
        - rewrite bindM_say. cbn [ret issued console].
          rewrite <- !app_assoc. reflexivity.
        - eapply path_header_refused; eauto.
          unfold headers_of. rewrite EH. cbn [result_bind]. exact EH2. }
    eexists (reads_done u), _, _. split.
    + cbn [ret issued console]. rewrite <- !app_assoc. reflexivity.
    + eapply path_document; eauto.
      unfold headers_of. rewrite EH. cbn [result_bind]. exact EH2.
Qed.

Lemma reads_done_prefix u : is_prefix (reads_done u) (all_reads u).
Proof.
  unfold is_prefix, reads_done, all_reads.
  destruct (0 <? List.length (certification_ids u))%nat.
  - exists []. reflexivity.
  - exists [ReadCertifications (certification_ids u)]. reflexivity.
Qed.

Lemma GET_run (userId : option string) (w : World) reads logs r :
  GET userId w
  = (Ok r, {| issued := (issued w ++ reads)%list;
              console := (console w ++ logs)%list |}) ->
  fst (GET userId w) = Ok r
  /\ issued (snd (GET userId w)) = (issued w ++ reads)%list
  /\ console (snd (GET userId w)) = (console w ++ logs)%list.
Proof. intros ->. repeat split. Qed.

(** Tells the paths apart by the answers of the first three reads. *)
Ltac wrong_path :=
  match goal with
  | H : Some _ = Some _ |- _ => injection H as H; subst
  | H : three_reads_ok _ _ |- _ =>
      let a := fresh in let b := fresh in let c := fresh in
      let d := fresh in let e := fresh in
      destruct H as (a & b & c & d & e)
  | H : _ \/ _ |- _ => destruct H
  end.

(** X1. Whatever the store, the clock and the renderer answer, the reads
    the handler issues are an initial part of: user, experiences, user
    skills, certifications (for the ids of the user skills read), in this
    order; and none at all without a [userId]. *)
Theorem GET_reads_in_order (userId : option string) (w : World) :
  exists reads,
    issued (snd (GET userId w)) = (issued w ++ reads)%list
    /\ match userId with
       | Some u => is_prefix reads (all_reads u)
       | None => reads = []
       end.
Proof.
  destruct (GET_takes_a_path userId w) as (reads & logs & r & E & P).
  exists reads. split; [apply (GET_run _ _ _ _ _ E)|].
  destruct P; subst;
    try match goal with
        | H : truthy ?x = false |- _ =>
            destruct x; [exists (all_reads s)|]; reflexivity
        end;
    try apply reads_done_prefix;
    unfold is_prefix, all_reads; eexists; cbn [app]; reflexivity.
Qed.

(** X2. The handler always answers: whatever is thrown inside is caught.
    The status is 400, 404, 500 or 200; a document comes with status 200
    only, and every other answer is a JSON error body. *)
Theorem GET_always_answers (userId : option string) (w : World) :
  exists r,
    fst (GET userId w) = Ok r
    /\ (status_of r = 400 \/ status_of r = 404 \/ status_of r = 500
        \/ status_of r = 200)
    /\ (status_of r = 200 <->
        exists disposition body, r = DocxResponse 200 disposition body).
Proof.
  destruct (GET_takes_a_path userId w) as (reads & logs & r & E & P).
  exists r. split; [apply (GET_run _ _ _ _ _ E)|].
  destruct P; cbn [status_of];
    (split; [auto|split; [discriminate|intros (? & ? & ?); discriminate]])
    || (split; [auto|split; [intros _; eauto|reflexivity]]).
Qed.

Lemma headers_of_ok userData :
  headers_of userData = Ok tt
  <-> Headers_set "Content-Disposition" (attachment_header userData) = Ok tt
      /\ Headers_set "Content-Type" docx_content_type = Ok tt.
Proof.
  unfold headers_of.
  destruct (Headers_set "Content-Disposition" _) as [[]|x];
    cbn [result_bind]; split.
  - intros H. split; [reflexivity|exact H].
  - intros [_ H]. exact H.
  - discriminate.
  - intros [H _]. discriminate.
Qed.

(** X3. A document is returned only when nothing went wrong: a [userId]
    was given, the reads all succeeded (the fourth one, when it was
    issued), both tenure computations completed, the template exists and
    could be opened, the renderer accepted the view model, the document
    was generated and the two headers were accepted. The body is what the
    generation returned, the file name in the disposition is made from
    the full name, and the reads issued are the reads of a complete
    run. *)
Theorem GET_document_only_on_success (userId : option string) (w : World)
  (status : Z) (disposition body : string) :
  fst (GET userId w) = Ok (DocxResponse status disposition body) ->
  exists u userData total dxc rendered,
    userId = Some u
    /\ three_reads_ok u userData
    /\ certification_error u = None
    /\ total_experience (or_nil (data (from_experiences supabase u)))
       = Ok total
    /\ calculateDurationForCompany
         (or_nil (data (from_experiences supabase u))) "DXC" = Ok dxc
    /\ template_exists = true
    /\ open_template = Ok tt
    /\ docx_render (template_data userData u total dxc) = inr rendered
    /\ docx_generate rendered = Ok body
    /\ Headers_set "Content-Disposition" disposition = Ok tt
    /\ Headers_set "Content-Type" docx_content_type = Ok tt
    /\ status = 200
    /\ disposition = attachment_header userData
    /\ issued (snd (GET userId w)) = (issued w ++ reads_done u)%list.
Proof.
  intros H.
  destruct (GET_takes_a_path userId w) as (reads & logs & r & E & P).
  destruct (GET_run _ _ _ _ _ E) as (F & I & _).
  rewrite F in H. injection H as ->.
  inversion P; subst.
  match goal with
  | HO : headers_of _ = Ok tt |- _ =>
      apply headers_of_ok in HO; destruct HO as [H1 H2]
  end.
  exists u, userData, total, dxc, rendered.
  repeat split; try assumption;
    match goal with H : three_reads_ok _ _ |- _ => apply H end.
Qed.

(** X4. When the read of the user answers with an error or with no row,
    the answer is 404 and the read of the user is the only read issued. *)
Theorem GET_user_not_found (userId : string) (w : World) :
  userId <> "" ->
  error (from_users supabase userId) <> None
  \/ data (from_users supabase userId) = None ->
  fst (GET (Some userId) w)
  = Ok (JsonResponse 404 "User not found or error fetching user data."
          NoDetails)
  /\ issued (snd (GET (Some userId) w)) = (issued w ++ [ReadUser userId])%list.
Proof.
  intros NE H.
  assert (T : truthy_str userId = true).
  { unfold truthy_str. destruct (String.eqb_spec userId ""); [contradiction|].
    reflexivity. }
  destruct (GET_takes_a_path (Some userId) w) as (reads & logs & r & E & P).
  destruct (GET_run _ _ _ _ _ E) as (F & I & _). rewrite F, I.
  inversion P; subst; repeat wrong_path;
    try (split; reflexivity); try congruence;
    cbn [truthy] in *; unfold truthy_str in *; congruence.
Qed.

(** X5. When the user is found and the read of the experiences answers
    with an error, the answer is 500 with the message of that error, and
    neither the user skills nor the certifications are read. *)
Theorem GET_experiences_read_failure (userId : string) (userData : UserRow)
  (experiencesError : string) (w : World) :
  userId <> "" ->
  error (from_users supabase userId) = None ->
  data (from_users supabase userId) = Some userData ->
  error (from_experiences supabase userId) = Some experiencesError ->
  fst (GET (Some userId) w)
  = Ok (JsonResponse 500 "Failed to generate CV."
          (DetailsMessage experiencesError))
  /\ issued (snd (GET (Some userId) w))
     = (issued w ++ [ReadUser userId; ReadExperiences userId])%list.
Proof.
  intros NE EU DU EE.
  assert (T : truthy_str userId = true).
  { unfold truthy_str. destruct (String.eqb_spec userId ""); [contradiction|].
    reflexivity. }
  destruct (GET_takes_a_path (Some userId) w) as (reads & logs & r & E & P).
  destruct (GET_run _ _ _ _ _ E) as (F & I & _). rewrite F, I.
  inversion P; subst; repeat wrong_path;
    try congruence;
    try (cbn [truthy] in *; unfold truthy_str in *; congruence).
  split; [|reflexivity]. repeat f_equal. congruence.
Qed.

(** X6. When the first three reads succeed and the read of the
    certifications, issued for a non-empty list of ids, answers with an
    error, the answer is 500 with the message of that error, after the
    four reads. *)
Theorem GET_certifications_read_failure (userId : string)
  (userData : UserRow) (certError : string) (w : World) :
  three_reads_ok userId userData ->
  certification_ids userId <> [] ->
  error (from_certifications supabase (certification_ids userId))
  = Some certError ->
  fst (GET (Some userId) w)
  = Ok (JsonResponse 500 "Failed to generate CV." (DetailsMessage certError))
  /\ issued (snd (GET (Some userId) w)) = (issued w ++ all_reads userId)%list.
Proof.
  intros OK3 NI EC.
  assert (L : (0 <? List.length (certification_ids userId))%nat = true).
  { destruct (certification_ids userId); [contradiction|reflexivity]. }
  assert (CE : certification_error userId = Some certError)
    by (unfold certification_error; rewrite L; exact EC).
  assert (RD : reads_done userId = all_reads userId)
    by (unfold reads_done, all_reads; rewrite L; reflexivity).
  destruct (GET_takes_a_path (Some userId) w) as (reads & logs & r & E & P).
  destruct (GET_run _ _ _ _ _ E) as (F & I & _). rewrite F, I.
  destruct OK3 as (T & EU & DU & EE & EK).
  inversion P; subst; repeat wrong_path;
    try congruence;
    try (cbn [truthy] in *; unfold truthy_str in *; congruence).
  split; [|rewrite RD; reflexivity]. repeat f_equal. congruence.
Qed.

(** X7. After three successful reads, the read of the certifications is
    issued exactly when some user skill has an id; without one, the
    handler goes on with no certification and three reads in all. *)
Theorem GET_certifications_read_iff_ids (userId : string)
  (userData : UserRow) (w : World) :
  three_reads_ok userId userData ->
  (certification_ids userId = [] ->
   issued (snd (GET (Some userId) w))
   = (issued w
      ++ [ReadUser userId; ReadExperiences userId; ReadUserSkills userId])%list
   /\ certifications_read userId = [])
  /\ (certification_ids userId <> [] ->
      issued (snd (GET (Some userId) w)) = (issued w ++ all_reads userId)%list).
Proof.
  intros OK3.
  destruct (GET_takes_a_path (Some userId) w) as (reads & logs & r & E & P).
  destruct (GET_run _ _ _ _ _ E) as (F & I & _). rewrite I.
  assert (R : reads = reads_done userId).
  { destruct OK3 as (T & EU & DU & EE & EK).
    inversion P; subst; repeat wrong_path;
      try congruence; try reflexivity;
      cbn [truthy] in *; unfold truthy_str in *; congruence. }
  rewrite R. unfold reads_done, all_reads, certifications_read. split.
  - intros ->. split; reflexivity.
  - intros NI. destruct (certification_ids userId); [contradiction|].
    reflexivity.
Qed.

(* =================================================================== *)
(** ** The tenure calculator on every input *)
(* =================================================================== *)

Lemma TimeClip_cases n : TimeClip n = NaN \/ exists t, TimeClip n = Num t.
Proof.
  destruct n as [| | |z]; cbn [TimeClip]; auto.
  destruct (Z.abs z <=? maxTime); eauto.
Qed.

Lemma ISO_parse_cases s n :
  ISO.parse s = Some n -> n = NaN \/ exists t, n = Num t.
Proof.
  unfold ISO.parse, ISO.bind.
  repeat match goal with
         | |- context [match ?x with _ => _ end] => destruct x
         end; intros E; try discriminate E.
  injection E as <-.
  match goal with |- context [if ?b then _ else _] => destruct b end; eauto.
Qed.

(** A date is a time value or invalid; it is never infinite. *)
Lemma new_Date_cases v : new_Date v = NaN \/ exists t, new_Date v = Num t.
Proof.
  destruct v as [s|]; cbn [new_Date]; [|eauto].
  unfold Date_parse. destruct (ISO.parse s) as [n|] eqn:P.
  - apply (ISO_parse_cases s n P).
  - apply TimeClip_cases.
Qed.

Lemma end_date_cases e :
  (if truthy e then new_Date e else Date_now) = NaN
  \/ exists t, (if truthy e then new_Date e else Date_now) = Num t.
Proof.
  destruct (truthy e); [apply new_Date_cases|apply TimeClip_cases].
Qed.

(** X8. With a start date or an end date that is not a valid date, the
    calculator neither fails nor answers with an empty text: every
    comparison with [NaN] is false, no phrase is written, and the text is
    "Moins d'un mois". *)
Theorem calculateDuration_invalid_date (s : string) (e : option string) :
  s <> "" ->
  new_Date (Some s) = NaN
  \/ (if truthy e then new_Date e else Date_now) = NaN ->
  calculateDuration (Some s) e = "Moins d'un mois".
Proof.
  intros NE H.
  rewrite calculateDuration_unfold by (apply truthy_Some; exact NE).
  destruct (new_Date_cases (Some s)) as [S|[ts S]];
    destruct (end_date_cases e) as [E|[te E]];
    rewrite S, E in *; try reflexivity.
  destruct H; discriminate.
Qed.

(** X9. An experience without end date is measured up to the clock: the
    text is the one for the clock's own date given as end date. *)
Theorem calculateDuration_ongoing_is_until_now (s e : option string) :
  Z.abs now <= maxTime ->
  truthy e = false ->
  calculateDuration s e = calculateDuration s (Some (ISO.format now)).
Proof.
  intros V F. unfold calculateDuration.
  destruct (truthy s); cbn [negb]; [|reflexivity].
  rewrite F, format_truthy. cbn [new_Date]. unfold Date_parse, Date_now.
  rewrite parse_format, TimeClip_valid by exact V. reflexivity.
Qed.

Lemma trimEnd_last s c :
  is_space c = false ->
  trimEnd (s ++ String c EmptyString) = s ++ String c EmptyString.
Proof.
  intros NS. induction s as [|a s IH]; cbn [append trimEnd].
  - rewrite NS. reflexivity.
  - rewrite IH. destruct s; reflexivity.
Qed.

(** [trim] leaves alone a text that begins and ends with a character that
    is not white space. *)
Lemma trim_solid a s c :
  is_space a = false -> is_space c = false ->
  trim (String a (s ++ String c EmptyString))
  = String a (s ++ String c EmptyString).
Proof.
  intros NA NC. unfold trim. cbn [trimStart]. rewrite NA.
  apply (trimEnd_last (String a s) c NC).
Qed.

(** The decimal text of a positive integer begins with a digit. *)
Lemma toString_positive y :
  0 < y ->
  exists a r, Number.toString (Num y) = String a r /\ is_space a = false.
Proof.
  intros P. destruct y as [|p|p]; try lia.
  cbn [Number.toString Z.to_int NilZero.string_of_int].
  unfold NilZero.string_of_uint.
  destruct (Pos.to_uint p); cbn [NilEmpty.string_of_uint];
    eexists; eexists; split; reflexivity.
Qed.

Lemma str_app_assoc (a b c : string) : (a ++ b) ++ c = a ++ (b ++ c).
Proof. induction a as [|x a IH]; cbn [append]; [|rewrite IH]; reflexivity. Qed.

Lemma str_app_nil_r (a : string) : a ++ "" = a.
Proof. induction a as [|x a IH]; cbn [append]; [|rewrite IH]; reflexivity. Qed.

Lemma keep_solid text a s c :
  text = String a (s ++ String c EmptyString) ->
  is_space a = false -> is_space c = false ->
  (if truthy_str (trim text) then trim text else "Moins d'un mois") = text.
Proof. intros -> NA NC. rewrite trim_solid by assumption. reflexivity. Qed.

Ltac str_norm := repeat rewrite str_app_assoc; cbn [append].

(** The year phrase and the month phrase of a span of a year or more:
    "an" for one year and "ans" for more, then, for a positive number of
    months, one space and the month phrase. *)
Lemma render_tenure_years y m :
  1 <= y -> 0 <= m ->
  render_tenure (Num y) (Num m)
  = Number.toString (Num y) ++ " an" ++ (if 1 <? y then "s" else "")
      ++ (if 0 <? m then " " ++ Number.toString (Num m) ++ " mois" else "").
Proof.
  intros Hy Hm. unfold render_tenure. cbn [Number.gt Number.lt append].
  destruct (Z.ltb_spec 0 y); [|lia].
  destruct (toString_positive y ltac:(lia)) as (a & r & E & NA).
  rewrite E. cbn [append truthy_str String.eqb negb].
  destruct (0 <? m); destruct (1 <? y).
  - match goal with
    | |- (if truthy_str (trim ?T) then _ else _) = _ =>
        rewrite (keep_solid T a
                   (r ++ " ans " ++ Number.toString (Num m) ++ " moi") "s")
    end; first [assumption | str_norm; reflexivity].
  - match goal with
    | |- (if truthy_str (trim ?T) then _ else _) = _ =>
        rewrite (keep_solid T a
                   (r ++ " an " ++ Number.toString (Num m) ++ " moi") "s")
    end; first [assumption | str_norm; reflexivity].
  - match goal with
    | |- (if truthy_str (trim ?T) then _ else _) = _ =>
        rewrite (keep_solid T a (r ++ " an") "s")
    end; first [assumption | str_norm; reflexivity].
  - match goal with
    | |- (if truthy_str (trim ?T) then _ else _) = _ =>
        rewrite (keep_solid T a (r ++ " a") "n")
    end; first [assumption | str_norm; reflexivity].
Qed.

(** X10. For two valid dates that span a year or more, the text is the
    number of years with "an" (one year) or "ans" (more), followed, when
    the months are not zero, by one space, the number of months and
    "mois". *)
Theorem calculateDuration_year_and_month_phrases (s : string)
  (e : option string) (ts te : Z) :
  s <> "" ->
  new_Date (Some s) = Num ts ->
  (if truthy e then new_Date e else Date_now) = Num te ->
  let Y := YearFromTime (LocalTime te) - YearFromTime (LocalTime ts) in
  let M := MonthFromTime (LocalTime te) - MonthFromTime (LocalTime ts) in
  let years := if M <? 0 then Y - 1 else Y in
  let months := if M <? 0 then M + 12 else M in
  1 <= years ->
  calculateDuration (Some s) e
  = Number.toString (Num years) ++ " an" ++ (if 1 <? years then "s" else "")
      ++ (if 0 <? months
          then " " ++ Number.toString (Num months) ++ " mois" else "").
Proof.
  intros NE PS PE Y M years months P.
  destruct (calculateDuration_valid s e ts te NE PS PE) as [CD RM].
  fold Y M in CD, RM. fold years months in CD, RM.
  rewrite CD. apply render_tenure_years; [exact P|lia].
Qed.

(* =================================================================== *)
(** ** The envelope on every input *)
(* =================================================================== *)

Ltac number_cases :=
  cbn [Number.min2 Number.max2 Number.lt];
  repeat match goal with
         | |- context [?a <? ?b] => destruct (Z.ltb_spec a b)
         end;
  cbn [Number.min2 Number.max2 Number.lt];
  repeat match goal with
         | |- context [?a <? ?b] => destruct (Z.ltb_spec a b)
         end;
  first [reflexivity | f_equal; lia | lia].

Lemma min2_swap a x y :
  Number.min2 (Number.min2 a x) y = Number.min2 (Number.min2 a y) x.
Proof. destruct a, x, y; number_cases. Qed.

Lemma max2_swap a x y :
  Number.max2 (Number.max2 a x) y = Number.max2 (Number.max2 a y) x.
Proof. destruct a, x, y; number_cases. Qed.

Lemma fold_left_swap {A B} (f : A -> B -> A) :
  (forall a x y, f (f a x) y = f (f a y) x) ->
  forall l l', Permutation l l' ->
  forall a, fold_left f l a = fold_left f l' a.
Proof.
  intros C l l' P. induction P; intros a; cbn [fold_left].
  - reflexivity.
  - apply IHP.
  - rewrite C. reflexivity.
  - rewrite IHP1. apply IHP2.
Qed.

(** [Math.min] and [Math.max] do not depend on the order of the array. *)
Lemma Math_min_perm l l' :
  Permutation l l' -> Number.Math_min l = Number.Math_min l'.
Proof. intros P. apply (fold_left_swap _ min2_swap _ _ P). Qed.

Lemma Math_max_perm l l' :
  Permutation l l' -> Number.Math_max l = Number.Math_max l'.
Proof. intros P. apply (fold_left_swap _ max2_swap _ _ P). Qed.

Lemma fold_min2_NaN l : fold_left Number.min2 l NaN = NaN.
Proof. induction l as [|x l IH]; [reflexivity|exact IH]. Qed.

Lemma fold_max2_NaN l : fold_left Number.max2 l NaN = NaN.
Proof. induction l as [|x l IH]; [reflexivity|exact IH]. Qed.

(** One [NaN] in the array makes [Math.min] and [Math.max] answer [NaN]. *)
Lemma Math_min_NaN l : In NaN l -> Number.Math_min l = NaN.
Proof.
  unfold Number.Math_min. generalize PosInf.
  induction l as [|x l IH]; intros a I; [destruct I|].
  cbn [fold_left]. destruct I as [->|I].
  - replace (Number.min2 a NaN) with NaN by (destruct a; reflexivity).
    apply fold_min2_NaN.
  - apply IH. exact I.
Qed.

Lemma Math_max_NaN l : In NaN l -> Number.Math_max l = NaN.
Proof.
  unfold Number.Math_max. generalize NegInf.
  induction l as [|x l IH]; intros a I; [destruct I|].
  cbn [fold_left]. destruct I as [->|I].
  - replace (Number.max2 a NaN) with NaN by (destruct a; reflexivity).
    apply fold_max2_NaN.
  - apply IH. exact I.
Qed.

(** The two conversions to text and the call of the calculator, as both
    envelope computations write them. *)
Lemma envelope_throws (starts ends : list number) :
  In NaN starts \/ In NaN ends ->
  result_bind (toISOString (new_Date_num (Number.Math_min starts)))
    (fun s =>
     result_bind (toISOString (new_Date_num (Number.Math_max ends)))
       (fun e => Ok (calculateDuration (Some s) (Some e))))
  = Throw (RangeError "Invalid time value").
Proof.
  intros [I|I].
  - rewrite (Math_min_NaN _ I). reflexivity.
  - rewrite (Math_max_NaN _ I).
    destruct (TimeClip_cases (Number.Math_min starts)) as [E|[t E]];
      unfold new_Date_num; rewrite E; reflexivity.
Qed.

(** X11. When a matching experience has a start date or an end date that
    is not a valid date, the tenure at the company is not computed: the
    conversion of the envelope to ISO text throws a [RangeError]. *)
Theorem calculateDurationForCompany_invalid_date_throws
  (experiences : list Experience.t) (companyName : string) :
  Exists (fun exp => start_time exp = NaN \/ effective_end exp = NaN)
    (filter (company_matches companyName) experiences) ->
  calculateDurationForCompany experiences companyName
  = Throw (RangeError "Invalid time value").
Proof.
  intros EX. unfold calculateDurationForCompany.
  set (matching := filter (company_matches companyName) experiences) in *.
  destruct matching as [|m0 ms] eqn:EM; [inversion EX|].
  cbn [List.length Nat.eqb]. rewrite <- EM in *. clear EM.
  rewrite map_id.
  replace (map getTime (map effective_end matching))
    with (map effective_end matching) by (symmetry; apply map_id).
  apply envelope_throws.
  apply Exists_exists in EX. destruct EX as (exp & I & [S|E]).
  - left. rewrite <- S. apply (in_map start_time). exact I.
  - right. rewrite <- E. apply (in_map effective_end). exact I.
Qed.

(** X12. The guard of the total tests the start dates only: with valid
    start dates and one effective end date that is not a valid date, the
    total is not "N/A"; the conversion of the envelope to ISO text throws
    a [RangeError]. *)
Theorem total_experience_unguarded_end_date
  (experiences : list Experience.t) :
  Forall (fun exp => valid_date (start_time exp)) experiences ->
  Exists (fun exp => effective_end exp = NaN) experiences ->
  total_experience experiences = Throw (RangeError "Invalid time value").
Proof.
  intros VS EX. unfold total_experience.
  destruct experiences as [|x l] eqn:EL; [inversion EX|].
  rewrite <- EL in *.
  assert (L : (0 <? List.length experiences)%nat = true)
    by (rewrite EL; reflexivity).
  rewrite L. rewrite length_map, L. cbn [andb].
  change (map (fun exp => getTime (new_Date (Experience.startdate exp)))
            experiences) with (map start_time experiences).
  change (map (fun exp => getTime (effective_end exp)) experiences)
    with (map effective_end experiences).
  assert (F : forallb (fun d => negb (Number.isNaN d))
                (map start_time experiences) = true).
  { apply forallb_forall. intros d I. apply in_map_iff in I.
    destruct I as (x' & E & I). rewrite Forall_forall in VS.
    destruct (VS x' I) as [t Ht]. rewrite <- E, Ht. reflexivity. }
  rewrite F. apply envelope_throws. right.
  apply Exists_exists in EX. destruct EX as (exp & I & E).
  rewrite <- E. apply (in_map effective_end). exact I.
Qed.

(** X13. The tenure at a company depends on the matching experiences
    only, not on their order and not on the experiences at other
    companies. *)
Theorem calculateDurationForCompany_matching_only
  (experiences experiences' : list Experience.t) (companyName : string) :
  Permutation (filter (company_matches companyName) experiences)
    (filter (company_matches companyName) experiences') ->
  calculateDurationForCompany experiences companyName
  = calculateDurationForCompany experiences' companyName.
Proof.
  intros P. unfold calculateDurationForCompany.
  rewrite (Permutation_length P).
  rewrite (Math_min_perm _ _
             (Permutation_map getTime
                (Permutation_map
                   (fun exp => new_Date (Experience.startdate exp)) P))).
  rewrite (Math_max_perm _ _
             (Permutation_map getTime (Permutation_map effective_end P))).
  reflexivity.
Qed.

(** X14. The total does not depend on the order of the experiences. *)
Theorem total_experience_order_independent
  (experiences experiences' : list Experience.t) :
  Permutation experiences experiences' ->
  total_experience experiences = total_experience experiences'.
Proof.
  intros P. unfold total_experience.
  rewrite !length_map, (Permutation_length P).
  set (starts := fun exp : Experience.t =>
                   getTime (new_Date (Experience.startdate exp))).
  set (ends := fun exp : Experience.t => getTime (effective_end exp)).
  rewrite (Math_min_perm _ _ (Permutation_map starts P)).
  rewrite (Math_max_perm _ _ (Permutation_map ends P)).
  assert (F : forallb (fun d => negb (Number.isNaN d)) (map starts experiences)
              = forallb (fun d => negb (Number.isNaN d))
                  (map starts experiences')).
  { apply eq_true_iff_eq. rewrite !forallb_forall.
    split; intros H d I; apply H;
      [apply (Permutation_in _ (Permutation_sym (Permutation_map starts P)))
      |apply (Permutation_in _ (Permutation_map starts P))]; exact I. }
  rewrite F. reflexivity.
Qed.

(* =================================================================== *)
(** ** The roster on every input *)
(* =================================================================== *)

Lemma year_of_numeric date :
  date_readable date ->
  exists k, match year_of date with
            | YearNumber n => n
            | YearText _ => Num 0
            end = Num k.
Proof.
  intros [F|[t E]]; unfold year_of.
  - rewrite F. exists 0. reflexivity.
  - destruct (truthy date); [|exists 0; reflexivity].
    rewrite E. eexists. reflexivity.
Qed.

Lemma pushed_numeric certifications userSkills :
  Forall (fun c => date_readable (Certification.date c)) certifications ->
  Forall user_skill_dates_readable userSkills ->
  Forall numeric_key (activities_pushed certifications userSkills).
Proof.
  intros FC FU. rewrite activities_pushed_eq. apply Forall_app. split.
  - apply Forall_map. eapply Forall_impl; [|exact FC].
    intros c R. apply (year_of_numeric _ R).
  - apply Forall_flat_map. eapply Forall_impl; [|exact FU].
    intros u [RC RT]. unfold user_skill_rows. apply Forall_app. split.
    + unfold training_rows_of.
      destruct (UserSkill.trainings u) as [ts|]; [|constructor].
      destruct (truthy_bool (UserSkill.hastrainings u)); [|constructor].
      apply Forall_map. eapply Forall_impl; [|exact RT].
      intros t R. apply (year_of_numeric _ R).
    + destruct (truthy_bool (UserSkill.hascertification u)); [|constructor].
      constructor; [|constructor]. apply (year_of_numeric _ RC).
Qed.

Lemma Sorted_suffix {A} (R : A -> A -> Prop) l1 l2 :
  Sorted R (l1 ++ l2) -> Sorted R l2.
Proof.
  induction l1 as [|x l1 IH]; cbn [app]; [auto|].
  intros S. inversion S; subst. auto.
Qed.

(** X15. The sort neither drops nor repeats a row: the roster is a
    rearrangement of the rows that were pushed, one for each
    certification record followed by the rows each user skill
    contributes. So every certification record has its row in the roster,
    under the institution "N/A (Certification)", and the roster has as
    many rows as were pushed. *)
Theorem roster_certification_rows (certifications : list Certification.t)
  (userSkills : list UserSkill.t) :
  Permutation (professional_activities_rows certifications userSkills)
    (map certification_row certifications
     ++ flat_map user_skill_rows userSkills)%list
  /\ (forall c, In c certifications ->
       In (certification_row c)
         (professional_activities_rows certifications userSkills)
       /\ institution (certification_row c) = "N/A (Certification)"
       /\ course_certification_name (certification_row c)
          = Certification.name c)
  /\ List.length (professional_activities_rows certifications userSkills)
     = (List.length certifications
        + List.length (flat_map user_skill_rows userSkills))%nat.
Proof.
  pose proof (professional_activities_rows_perm certifications userSkills)
    as P.
  split; [exact P|split].
  - intros c I. split; [|split; reflexivity].
    eapply Permutation_in; [apply Permutation_sym, P|].
    apply in_or_app. left. apply in_map. exact I.
  - rewrite (Permutation_length P), length_app, length_map. reflexivity.
Qed.

(** X16. When every date of the certifications, of the flagged user
    skills and of the trainings is absent or a valid date, the roster is
    in descending order of the year, a row without date counting as year
    0 (so that no row of a positive year comes after it), and the rows
    of one year keep the order in which they were pushed (certifications
    first, then for each user skill its trainings and its own row). *)
Theorem roster_sorted_and_stable (certifications : list Certification.t)
  (userSkills : list UserSkill.t) :
  Forall (fun c => date_readable (Certification.date c)) certifications ->
  Forall user_skill_dates_readable userSkills ->
  Sorted year_ge (professional_activities_rows certifications userSkills)
  /\ (forall k,
        filter (has_year k)
          (professional_activities_rows certifications userSkills)
        = filter (has_year k)
            (map certification_row certifications
             ++ flat_map user_skill_rows userSkills)%list)
  /\ (forall before r after text k r',
        professional_activities_rows certifications userSkills
        = (before ++ r :: after)%list ->
        year r = YearText text ->
        In r' after -> year r' = YearNumber (Num k) -> k <= 0).
Proof.
  intros FC FU.
  pose proof (pushed_numeric certifications userSkills FC FU) as N.
  pose proof (professional_activities_rows_sorted _ _ N) as S.
  split; [exact S|split].
  - intros k. rewrite <- activities_pushed_eq.
    apply professional_activities_rows_stable. exact N.
  - intros before r after text k r' E Y I Y'. rewrite E in S.
    apply Sorted_suffix in S.
    assert (K : sort_year r = Num 0) by (unfold sort_year; rewrite Y; reflexivity).
    pose proof (sorted_head_bound r after 0 K S) as B.
    rewrite Forall_forall in B. destruct (B r' I) as (k' & E' & L).
    unfold sort_year in E'. rewrite Y' in E'. injection E' as <-. exact L.
Qed.

(* =================================================================== *)
(** ** The table of technical skills on every input *)
(* =================================================================== *)

Lemma strict_eq_true a b : strict_eq a b = true <-> a = b.
Proof.
  destruct a as [x|], b as [y|]; cbn [strict_eq]; split; intros H;
    try discriminate; try reflexivity.
  - apply String.eqb_eq in H. subst. reflexivity.
  - injection H as ->. apply String.eqb_refl.
Qed.

Lemma strict_eq_false a b : strict_eq a b = false <-> a <> b.
Proof.
  split.
  - intros F E. apply strict_eq_true in E. congruence.
  - intros N. destruct (strict_eq a b) eqn:E; [|reflexivity].
    apply strict_eq_true in E. contradiction.
Qed.

Lemma technical_unfold experiences :
  technical_expertise_primary_skills experiences
  = forEach experiences
      (fun rows exp =>
         forEach (skills_of exp) (technical_step (expDuration exp)) rows)
      [].
Proof. reflexivity. Qed.

(** A step leaves the rows as they are, or pushes one row with a name
    that no row has yet. *)
Lemma technical_step_cases d rows es :
  technical_step d rows es = rows
  \/ exists n,
       hard_skill_named n es = true
       /\ (forall r, In r rows -> skill_name_of r <> n)
       /\ technical_step d rows es
          = (rows ++ [{| skill_name_of := n; experience_yrs_months := d |}])%list.
Proof.
  unfold technical_step, hard_skill_named.
  destruct (ExperienceSkill.skills es) as [sk|]; [|auto].
  destruct (strict_eq (Skill.type sk) (Some "hard")); [|auto].
  destruct (existsb _ rows) eqn:EX; [auto|].
  right. exists (Skill.name sk). split; [|split; [|reflexivity]].
  - cbn [andb]. apply strict_eq_true. reflexivity.
  - intros r I. apply strict_eq_false.
    destruct (strict_eq (skill_name_of r) (Skill.name sk)) eqn:Q;
      [|reflexivity].
    assert (T : existsb
                  (fun s => strict_eq (skill_name_of s) (Skill.name sk)) rows
                = true) by (apply existsb_exists; exists r; auto).
    congruence.
Qed.

Lemma technical_step_keeps d rows es r :
  In r rows -> In r (technical_step d rows es).
Proof.
  intros I. destruct (technical_step_cases d rows es) as [->|(n & _ & _ & ->)];
    [exact I|apply in_or_app; left; exact I].
Qed.

Lemma technical_step_covers d rows es n :
  hard_skill_named n es = true ->
  exists r, In r (technical_step d rows es) /\ skill_name_of r = n.
Proof.
  unfold hard_skill_named, technical_step.
  destruct (ExperienceSkill.skills es) as [sk|]; [|discriminate].
  intros H. apply andb_prop in H. destruct H as [T N].
  rewrite T. apply strict_eq_true in N. subst n.
  destruct (existsb _ rows) eqn:EX.
  - apply existsb_exists in EX. destruct EX as (r & I & Q).
    exists r. split; [exact I|]. apply strict_eq_true. exact Q.
  - eexists. split; [apply in_or_app; right; left; reflexivity|reflexivity].
Qed.

Lemma technical_step_first d rows es n :
  (forall r, In r rows -> skill_name_of r <> n) ->
  hard_skill_named n es = true ->
  In {| skill_name_of := n; experience_yrs_months := d |}
    (technical_step d rows es).
Proof.
  unfold hard_skill_named, technical_step. intros NO.
  destruct (ExperienceSkill.skills es) as [sk|]; [|discriminate].
  intros H. apply andb_prop in H. destruct H as [T N].
  rewrite T. apply strict_eq_true in N. subst n.
  destruct (existsb _ rows) eqn:EX.
  - apply existsb_exists in EX. destruct EX as (r & I & Q).
    apply strict_eq_true in Q. destruct (NO r I Q).
  - apply in_or_app. right. left. reflexivity.
Qed.

Lemma technical_step_absent d rows es n :
  (forall r, In r rows -> skill_name_of r <> n) ->
  hard_skill_named n es = false ->
  forall r, In r (technical_step d rows es) -> skill_name_of r <> n.
Proof.
  intros NO H r I.
  destruct (technical_step_cases d rows es) as [E|(n' & H' & _ & E)];
    rewrite E in I; [apply NO; exact I|].
  apply in_app_or in I. destruct I as [I|[<-|[]]]; [apply NO; exact I|].
  cbn [skill_name_of]. intros ->. congruence.
Qed.

Lemma NoDup_snoc {A} (l : list A) x : NoDup l -> ~ In x l -> NoDup (l ++ [x]).
Proof.
  intros N NI. apply NoDup_app; [exact N|repeat constructor; intros []|].
  intros y I [<-|[]]. contradiction.
Qed.

Lemma technical_step_distinct d rows es :
  NoDup (map skill_name_of rows) ->
  NoDup (map skill_name_of (technical_step d rows es)).
Proof.
  intros N. destruct (technical_step_cases d rows es) as [->|(n & _ & NO & ->)];
    [exact N|].
  rewrite map_app. cbn [map skill_name_of]. apply NoDup_snoc; [exact N|].
  intros I. apply in_map_iff in I. destruct I as (r & E & I).
  apply (NO r I E).
Qed.

Lemma first_occurrence {A} (p : A -> bool) (l : list A) :
  existsb p l = true ->
  exists l1 x l2, l = (l1 ++ x :: l2)%list /\ p x = true
                  /\ forall y, In y l1 -> p y = false.
Proof.
  induction l as [|a l IH]; cbn [existsb]; [discriminate|].
  destruct (p a) eqn:Pa.
  - intros _. exists [], a, l. repeat split; [exact Pa|intros y []].
  - cbn [orb]. intros H. destruct (IH H) as (l1 & x & l2 & -> & Px & NO).
    exists (a :: l1), x, l2. repeat split; [exact Px|].
    intros y [<-|I]; [exact Pa|apply NO; exact I].
Qed.

(** The first experience linked to a hard skill gives the row its text. *)
Lemma technical_first_write before exp after n :
  (forall exp', In exp' before -> has_hard_skill n exp' = false) ->
  has_hard_skill n exp = true ->
  In {| skill_name_of := n; experience_yrs_months := expDuration exp |}
    (technical_expertise_primary_skills (before ++ exp :: after)).
Proof.
  intros NB H. rewrite technical_unfold.
  unfold forEach. rewrite fold_left_app. cbn [fold_left].
  set (R0 := fold_left _ before []).
  assert (A0 : forall r, In r R0 -> skill_name_of r <> n).
  { subst R0.
    apply (forEach_invariant
             (fun rows => forall r, In r rows -> skill_name_of r <> n));
      [|intros r []].
    intros rows exp' IE A.
    apply (forEach_invariant
             (fun rows => forall r, In r rows -> skill_name_of r <> n));
      [|exact A].
    intros rows' es IS A'. apply technical_step_absent; [exact A'|].
    pose proof (NB exp' IE) as F. unfold has_hard_skill in F.
    destruct (hard_skill_named n es) eqn:Q; [|reflexivity].
    assert (T : existsb (hard_skill_named n) (skills_of exp') = true)
      by (apply existsb_exists; exists es; auto).
    congruence. }
  unfold has_hard_skill in H.
  destruct (first_occurrence _ _ H) as (l1 & es & l2 & ES & HN & NO).
  assert (I : In {| skill_name_of := n;
                    experience_yrs_months := expDuration exp |}
                (forEach (skills_of exp)
                   (technical_step (expDuration exp)) R0)).
  { rewrite ES. unfold forEach. rewrite fold_left_app. cbn [fold_left].
    apply (forEach_invariant
             (fun rows =>
                In {| skill_name_of := n;
                      experience_yrs_months := expDuration exp |} rows)).
    - intros rows es' _ I'. apply technical_step_keeps. exact I'.
    - apply technical_step_first; [|exact HN].
      apply (forEach_invariant
               (fun rows => forall r, In r rows -> skill_name_of r <> n));
        [|exact A0].
      intros rows es' IS A. apply technical_step_absent; [exact A|].
      apply NO. exact IS. }
  apply (forEach_invariant
           (fun rows =>
              In {| skill_name_of := n;
                    experience_yrs_months := expDuration exp |} rows));
    [|exact I].
  intros rows exp' _ I'.
  apply (forEach_invariant
           (fun rows =>
              In {| skill_name_of := n;
                    experience_yrs_months := expDuration exp |} rows));
    [|exact I'].
  intros rows' es' _ I''. apply technical_step_keeps. exact I''.
Qed.

(** X17. The table of technical skills names each skill once. Every row
    is for a skill of type "hard" linked to some experience and carries
    the duration text of that experience; every such skill has a row; and
    the text of the row is that of the first experience, in the order of
    the list, that is linked to the skill. *)
Theorem technical_skills_first_write_wins
  (experiences : list Experience.t) :
  let rows := technical_expertise_primary_skills experiences in
  NoDup (map skill_name_of rows)
  /\ (forall r, In r rows ->
        exists exp, In exp experiences
                    /\ has_hard_skill (skill_name_of r) exp = true
                    /\ experience_yrs_months r = expDuration exp)
  /\ (forall exp n, In exp experiences -> has_hard_skill n exp = true ->
        exists r, In r rows /\ skill_name_of r = n)
  /\ (forall before exp after n,
        experiences = (before ++ exp :: after)%list ->
        (forall exp', In exp' before -> has_hard_skill n exp' = false) ->
        has_hard_skill n exp = true ->
        In {| skill_name_of := n; experience_yrs_months := expDuration exp |}
          rows).
Proof.
  intros rows. subst rows. rewrite technical_unfold.
  split; [|split; [|split]].
  - apply forEach_invariant; [|constructor].
    intros rows exp _ N. apply forEach_invariant; [|exact N].
    intros rows' es _ N'. apply technical_step_distinct. exact N'.
  - apply (forEach_invariant
             (fun rows => forall r, In r rows ->
                exists exp, In exp experiences
                            /\ has_hard_skill (skill_name_of r) exp = true
                            /\ experience_yrs_months r = expDuration exp));
      [|intros r []].
    intros rows exp IE H.
    apply (forEach_invariant
             (fun rows => forall r, In r rows ->
                exists exp, In exp experiences
                            /\ has_hard_skill (skill_name_of r) exp = true
                            /\ experience_yrs_months r = expDuration exp));
      [|exact H].
    intros rows' es IS H' r I.
    destruct (technical_step_cases (expDuration exp) rows' es)
      as [E|(n & HN & _ & E)]; rewrite E in I; [apply H'; exact I|].
    apply in_app_or in I. destruct I as [I|[<-|[]]]; [apply H'; exact I|].
    exists exp. split; [exact IE|]. split; [|reflexivity].
    cbn [skill_name_of]. unfold has_hard_skill. apply existsb_exists.
    exists es. split; assumption.
  - intros exp n IE H. apply in_split in IE.
    destruct IE as (before & after & ->).
    unfold forEach. rewrite fold_left_app. cbn [fold_left].
    fold (@forEach).
    unfold has_hard_skill in H. apply existsb_exists in H.
    destruct H as (es & IS & HN). apply in_split in IS.
    destruct IS as (l1 & l2 & ES).
    set (R0 := fold_left _ before []).
    assert (C : exists r,
               In r (forEach (skills_of exp)
                       (technical_step (expDuration exp)) R0)
               /\ skill_name_of r = n).
    { rewrite ES. unfold forEach. rewrite fold_left_app. cbn [fold_left].
      destruct (technical_step_covers (expDuration exp)
                  (fold_left (technical_step (expDuration exp)) l1 R0) es n HN)
        as (r & I & E).
      exists r. split; [|exact E].
      apply (forEach_invariant (fun rows => In r rows)); [|exact I].
      intros rows es' _ I'. apply technical_step_keeps. exact I'. }
    destruct C as (r & I & E). exists r. split; [|exact E].
    apply (forEach_invariant (fun rows => In r rows)); [|exact I].
    intros rows exp' _ I'.
    apply (forEach_invariant (fun rows => In r rows)); [|exact I'].
    intros rows' es' _ I''. apply technical_step_keeps. exact I''.
  - intros before exp after n -> NB H. rewrite <- technical_unfold.
    apply technical_first_write; assumption.
Qed.

(* =================================================================== *)
(** ** The table of domains on every input *)
(* =================================================================== *)

Lemma Map_get_set_same {V} (m : list (option string * V)) k v :
  Map_get (Map_set m k v) k = Some v.
Proof.
  induction m as [|[k' v'] m IH]; cbn [Map_set Map_get].
  - replace (strict_eq k k) with true
      by (symmetry; apply strict_eq_true; reflexivity).
    reflexivity.
  - destruct (strict_eq k' k) eqn:E; cbn [Map_get]; rewrite E;
      [reflexivity|exact IH].
Qed.

Lemma Map_get_set_other {V} (m : list (option string * V)) k v k' :
  k' <> k -> Map_get (Map_set m k v) k' = Map_get m k'.
Proof.
  intros N. induction m as [|[k0 v0] m IH]; cbn [Map_set Map_get].
  - replace (strict_eq k k') with false
      by (symmetry; apply strict_eq_false; congruence).
    reflexivity.
  - destruct (strict_eq k0 k) eqn:E; cbn [Map_get].
    + apply strict_eq_true in E. subst k0.
      replace (strict_eq k k') with false
        by (symmetry; apply strict_eq_false; congruence).
      reflexivity.
    + rewrite IH. reflexivity.
Qed.

Lemma Map_get_In {V} (m : list (option string * V)) k v :
  Map_get m k = Some v -> In (k, v) m.
Proof.
  induction m as [|[k' v'] m IH]; cbn [Map_get]; [discriminate|].
  destruct (strict_eq k' k) eqn:E.
  - apply strict_eq_true in E. subst. intros H. injection H as ->.
    left. reflexivity.
  - intros H. right. apply IH. exact H.
Qed.

Lemma In_Map_get {V} (m : list (option string * V)) k v :
  NoDup (map fst m) -> In (k, v) m -> Map_get m k = Some v.
Proof.
  induction m as [|[k' v'] m IH]; cbn [map fst Map_get]; [intros _ []|].
  intros N I. inversion N as [|? ? NI N']; subst.
  destruct I as [E|I].
  - injection E as -> ->.
    replace (strict_eq k k) with true
      by (symmetry; apply strict_eq_true; reflexivity).
    reflexivity.
  - destruct (strict_eq k' k) eqn:E.
    + apply strict_eq_true in E. subst k'. exfalso. apply NI.
      apply (in_map fst _ _ I).
    + apply IH; assumption.
Qed.

Lemma Map_set_keys {V} (m : list (option string * V)) k v :
  map fst (Map_set m k v)
  = if Map_has m k then map fst m else (map fst m ++ [k])%list.
Proof.
  unfold Map_has. induction m as [|[k' v'] m IH]; cbn [Map_set Map_get map fst].
  - reflexivity.
  - destruct (strict_eq k' k) eqn:E; cbn [map fst]; [reflexivity|].
    rewrite IH. destruct (Map_get m k); reflexivity.
Qed.

Lemma Map_has_false_notin {V} (m : list (option string * V)) k :
  Map_has m k = false -> ~ In k (map fst m).
Proof.
  unfold Map_has. induction m as [|[k' v'] m IH]; cbn [Map_get map fst];
    [intros _ []|].
  destruct (strict_eq k' k) eqn:E; [discriminate|].
  intros H [Q|I]; [|apply (IH H I)].
  apply strict_eq_false in E. contradiction.
Qed.

Lemma Map_set_NoDup {V} (m : list (option string * V)) k v :
  NoDup (map fst m) -> NoDup (map fst (Map_set m k v)).
Proof.
  intros N. rewrite Map_set_keys. destruct (Map_has m k) eqn:H; [exact N|].
  apply NoDup_snoc; [exact N|]. apply Map_has_false_notin. exact H.
Qed.

Lemma domain_unfold experiences :
  domain_expertise_map experiences
  = forEach experiences
      (fun m exp => forEach (skills_of exp) (domain_step (expDuration exp)) m)
      [].
Proof. reflexivity. Qed.

(** What a step stores: the text of the experience under the family and
    the name of the skill, and nothing else changes. *)
Lemma domain_step_lookup d m es f n :
  lookup2 (domain_step d m es) f n
  = if family_skill_named f n es then Some d else lookup2 m f n.
Proof.
  unfold domain_step, family_skill_named.
  destruct (ExperienceSkill.skills es) as [sk|]; [|reflexivity].
  destruct (Skill.skill_families sk) as [fam|]; [|reflexivity].
  set (fk := SkillFamily.name fam). set (nk := Skill.name sk).
  set (m1 := if negb (Map_has m fk) then Map_set m fk [] else m).
  assert (G1 : exists inner,
             Map_get m1 fk = Some inner
             /\ forall n', Map_get inner n' = lookup2 m fk n').
  { subst m1. unfold Map_has, lookup2.
    destruct (Map_get m fk) as [inner|] eqn:G; cbn [negb].
    - exists inner. rewrite G. auto.
    - exists []. rewrite Map_get_set_same. auto. }
  assert (O1 : forall f', f' <> fk -> Map_get m1 f' = Map_get m f').
  { intros f' NF. subst m1. destruct (negb (Map_has m fk)); [|reflexivity].
    apply Map_get_set_other. exact NF. }
  destruct G1 as (inner & G & GI). cbv zeta. fold m1. rewrite G.
  unfold lookup2 at 1.
  destruct (strict_eq fk f) eqn:EF.
  - apply strict_eq_true in EF. subst f. rewrite Map_get_set_same.
    destruct (strict_eq nk n) eqn:EN; cbn [andb].
    + apply strict_eq_true in EN. subst n. apply Map_get_set_same.
    + apply strict_eq_false in EN.
      rewrite Map_get_set_other by congruence. apply GI.
  - apply strict_eq_false in EF. cbn [andb].
    rewrite Map_get_set_other by congruence.
    rewrite O1 by congruence. reflexivity.
Qed.

Lemma domain_step_well_formed d m es :
  map_well_formed m -> map_well_formed (domain_step d m es).
Proof.
  intros [N F]. unfold domain_step.
  destruct (ExperienceSkill.skills es) as [sk|]; [|split; assumption].
  destruct (Skill.skill_families sk) as [fam|]; [|split; assumption].
  set (fk := SkillFamily.name fam). set (nk := Skill.name sk).
  set (m1 := if negb (Map_has m fk) then Map_set m fk [] else m).
  assert (W1 : map_well_formed m1).
  { subst m1. destruct (negb (Map_has m fk)); [|split; assumption].
    split; [apply Map_set_NoDup; exact N|].
    apply (Map_set_Forall (fun v => NoDup (map fst v))); [exact F|constructor]. }
  cbv zeta. fold m1. destruct W1 as [N1 F1].
  destruct (Map_get m1 fk) as [inner|] eqn:G; [|split; assumption].
  split; [apply Map_set_NoDup; exact N1|].
  apply (Map_set_Forall (fun v => NoDup (map fst v))); [exact F1|].
  apply Map_set_NoDup.
  apply (Map_get_Forall (fun v => NoDup (map fst v)) m1 fk inner F1 G).
Qed.

Lemma domain_map_well_formed experiences :
  map_well_formed (domain_expertise_map experiences).
Proof.
  rewrite domain_unfold.
  apply forEach_invariant; [|split; constructor].
  intros m exp _ W. apply forEach_invariant; [|exact W].
  intros m' es _ W'. apply domain_step_well_formed. exact W'.
Qed.

Lemma domain_rows_unfold experiences :
  domain_expertise_rows experiences
  = rows_of_map (domain_expertise_map experiences).
Proof.
  unfold domain_expertise_rows, rows_of_map.
  rewrite <- (app_nil_l (flat_map _ _)). rewrite <- forEach_append.
  apply forEach_ext. intros rows entry. apply forEach_push.
Qed.

(** A row of the table is an entry of an inner map. *)
Lemma rows_of_map_lookup m f n d :
  map_well_formed m ->
  In {| domain := f; specific_area := n; domain_experience_yrs_months := d |}
    (rows_of_map m)
  <-> lookup2 m f n = Some d.
Proof.
  intros [N F]. unfold rows_of_map, lookup2. rewrite in_flat_map. split.
  - intros ([f' inner] & I & R). apply in_map_iff in R.
    destruct R as ([n' d'] & E & I'). cbn [fst snd] in *.
    injection E as -> -> ->.
    rewrite (In_Map_get m f inner N I). apply In_Map_get; [|exact I'].
    rewrite Forall_forall in F. apply (F _ I).
  - destruct (Map_get m f) as [inner|] eqn:G; [|discriminate].
    intros G'. exists (f, inner). split; [apply Map_get_In; exact G|].
    apply in_map_iff. exists (n, d). split; [reflexivity|].
    apply Map_get_In. exact G'.
Qed.

Lemma NoDup_map_injective {A B} (g : A -> B) (l : list A) :
  (forall a b, g a = g b -> a = b) -> NoDup l -> NoDup (map g l).
Proof.
  intros Inj N. induction N as [|x l NI N IH]; cbn [map]; constructor.
  - intros I. apply in_map_iff in I. destruct I as (y & E & I).
    apply Inj in E. subst. contradiction.
  - exact IH.
Qed.

Lemma rows_of_map_distinct m :
  map_well_formed m ->
  NoDup (map (fun r => (domain r, specific_area r)) (rows_of_map m)).
Proof.
  intros [N F]. induction m as [|[f inner] m IH]; [constructor|].
  cbn [rows_of_map flat_map fst snd]. rewrite map_app, map_map.
  cbn [domain specific_area fst snd].
  inversion N as [|? ? NI N']; subst. inversion F as [|? ? NInner F']; subst.
  apply NoDup_app.
  - cbn [snd] in NInner.
    rewrite <- (map_map fst (fun k => (f, k))).
    apply NoDup_map_injective; [|exact NInner].
    intros a b E. injection E as ->. reflexivity.
  - apply IH; assumption.
  - intros p I1 I2. apply in_map_iff in I1. destruct I1 as (x & <- & _).
    apply in_map_iff in I2. destruct I2 as (r & E & I).
    unfold rows_of_map in I. apply in_flat_map in I.
    destruct I as ([f' inner'] & IM & R). apply in_map_iff in R.
    destruct R as (y & <- & _). cbn [domain specific_area fst snd] in E.
    injection E as -> _. apply NI. apply (in_map fst _ _ IM).
Qed.

(** The last experience linked to a skill of a family gives the row its
    text. *)
Lemma domain_last_write before exp after f n :
  has_family_skill f n exp = true ->
  (forall exp', In exp' after -> has_family_skill f n exp' = false) ->
  In {| domain := f; specific_area := n;
        domain_experience_yrs_months := expDuration exp |}
    (domain_expertise_rows (before ++ exp :: after)).
Proof.
  intros H NA. rewrite domain_rows_unfold.
  apply (rows_of_map_lookup _ f n _ (domain_map_well_formed _)).
  rewrite domain_unfold. unfold forEach. rewrite fold_left_app.
  cbn [fold_left]. set (m0 := fold_left _ before []).
  unfold has_family_skill in H. apply existsb_exists in H.
  destruct H as (es & IS & Q). apply in_split in IS.
  destruct IS as (l1 & l2 & ES).
  assert (L : lookup2
                (forEach (skills_of exp) (domain_step (expDuration exp)) m0)
                f n = Some (expDuration exp)).
  { rewrite ES. unfold forEach. rewrite fold_left_app. cbn [fold_left].
    apply (forEach_invariant
             (fun m => lookup2 m f n = Some (expDuration exp))).
    - intros m es' _ L. rewrite domain_step_lookup, L.
      destruct (family_skill_named f n es'); reflexivity.
    - rewrite domain_step_lookup, Q. reflexivity. }
  apply (forEach_invariant
           (fun m => lookup2 m f n = Some (expDuration exp))); [|exact L].
  intros m exp' IE L'.
  apply (forEach_invariant
           (fun m => lookup2 m f n = Some (expDuration exp))); [|exact L'].
  intros m' es' IS' L''. rewrite domain_step_lookup.
  destruct (family_skill_named f n es') eqn:Q'; [|exact L''].
  pose proof (NA exp' IE) as F. unfold has_family_skill in F.
  assert (T : existsb (family_skill_named f n) (skills_of exp') = true)
    by (apply existsb_exists; exists es'; auto).
  congruence.
Qed.

(** X18. The table of domains has one row for each pair of a family and a
    skill that some experience is linked to. The row carries the duration
    text of an experience linked to that pair, and when several are, that
    of the last one in the order of the list. *)
Theorem domain_rows_last_write_wins (experiences : list Experience.t) :
  let rows := domain_expertise_rows experiences in
  NoDup (map (fun r => (domain r, specific_area r)) rows)
  /\ (forall r, In r rows ->
        exists exp, In exp experiences
                    /\ has_family_skill (domain r) (specific_area r) exp = true
                    /\ domain_experience_yrs_months r = expDuration exp)
  /\ (forall before exp after f n,
        experiences = (before ++ exp :: after)%list ->
        has_family_skill f n exp = true ->
        (forall exp', In exp' after -> has_family_skill f n exp' = false) ->
        In {| domain := f; specific_area := n;
              domain_experience_yrs_months := expDuration exp |} rows).
Proof.
  intros rows. subst rows. rewrite domain_rows_unfold.
  pose proof (domain_map_well_formed experiences) as W.
  split; [apply rows_of_map_distinct; exact W|]. split.
  - intros [f n d] I. cbn [domain specific_area domain_experience_yrs_months].
    apply (rows_of_map_lookup _ f n d W) in I. revert f n d I.
    rewrite domain_unfold.
    apply (forEach_invariant
             (fun m => forall f n d, lookup2 m f n = Some d ->
                exists exp, In exp experiences
                            /\ has_family_skill f n exp = true
                            /\ d = expDuration exp)).
    + intros m exp IE H.
      apply (forEach_invariant
               (fun m => forall f n d, lookup2 m f n = Some d ->
                  exists exp, In exp experiences
                              /\ has_family_skill f n exp = true
                              /\ d = expDuration exp)); [|exact H].
      intros m' es IS H' f n d. rewrite domain_step_lookup.
      destruct (family_skill_named f n es) eqn:Q; [|apply H'].
      intros E. injection E as <-. exists exp. split; [exact IE|].
      split; [|reflexivity]. unfold has_family_skill. apply existsb_exists.
      exists es. split; assumption.
    + intros f n d. cbn. discriminate.
  - intros before exp after f n -> H NA. rewrite <- domain_rows_unfold.
    apply domain_last_write; assumption.
Qed.

(** The calculator returns the empty text for a missing start date and
    for no other. *)
Lemma calculateDuration_empty s e :
  calculateDuration s e = "" <-> truthy s = false.
Proof.
  split.
  - intros E. destruct (truthy s) eqn:T; [|reflexivity].
    rewrite (calculateDuration_unfold s e T) in E.
    destruct (render_tenure_nonempty _ _ E).
  - intros F. unfold calculateDuration. rewrite F. reflexivity.
Qed.

(** C9. Without a start date ([null] or [undefined]) the calculator
    returns the empty string, which is not the "Moins d'un mois" text and
    not an error, and it returns the empty string for no start date that
    is present and not empty. So an experience without start date, among
    any others, has the empty text as its duration and hands it on: the
    row of a hard skill carries the empty text when the experience is the
    first one linked to the skill, and the row of a skill of a family
    carries it when the experience is the last one linked to that skill
    of that family; and when no experience has a start date, every row
    of the two tables carries the empty text. *)
Theorem C9_no_start_date_empty_text (e : option string)
  (before after : list Experience.t) (exp : Experience.t) :
  Experience.startdate exp = None ->
  let experiences := (before ++ exp :: after)%list in
  calculateDuration None e = ""
  /\ calculateDuration None e <> "Moins d'un mois"
  /\ (forall s e', calculateDuration s e' = "" <-> truthy s = false)
  /\ expDuration exp = ""
  /\ (forall n,
        has_hard_skill n exp = true ->
        (forall exp', In exp' before -> has_hard_skill n exp' = false) ->
        In {| skill_name_of := n; experience_yrs_months := "" |}
          (technical_expertise_primary_skills experiences))
  /\ (forall f n,
        has_family_skill f n exp = true ->
        (forall exp', In exp' after -> has_family_skill f n exp' = false) ->
        In {| domain := f; specific_area := n;
              domain_experience_yrs_months := "" |}
          (domain_expertise_rows experiences))
  /\ (Forall (fun exp' => Experience.startdate exp' = None) experiences ->
      Forall (fun r => experience_yrs_months r = "")
        (technical_expertise_primary_skills experiences)
      /\ Forall (fun r => domain_experience_yrs_months r = "")
           (domain_expertise_rows experiences)).
Proof.
  intros S experiences.
  assert (D : expDuration exp = "")
    by (unfold expDuration; rewrite S; reflexivity).
  split; [reflexivity|]. split; [discriminate|].
  split; [apply calculateDuration_empty|]. split; [exact D|].
  split; [|split].
  - intros n H NB. rewrite <- D. subst experiences.
    apply technical_first_write; assumption.
  - intros f n H NA. rewrite <- D. subst experiences.
    apply domain_last_write; assumption.
  - intros A.
    assert (DA : forall exp', In exp' experiences -> expDuration exp' = "").
    { rewrite Forall_forall in A. intros exp' I. unfold expDuration.
      rewrite (A exp' I). reflexivity. }
    split; [apply technical_rows_text|apply domain_rows_text]; exact DA.
Qed.

(* =================================================================== *)
(** ** Employment history, file name and the empty profile *)
(* =================================================================== *)

Lemma split_lines_nonempty s : split_lines s <> [].
Proof.
  destruct s as [|c r]; cbn [split_lines]; [discriminate|].
  destruct (Ascii.eqb c LF); [discriminate|].
  destruct (split_lines r); discriminate.
Qed.

Lemma join_split s : join_lines (split_lines s) = s.
Proof.
  induction s as [|c r IH]; [reflexivity|]. cbn [split_lines].
  destruct (Ascii.eqb_spec c LF) as [->|N].
  - pose proof (split_lines_nonempty r) as NE.
    cbn [join_lines]. destruct (split_lines r) as [|l ls]; [contradiction|].
    cbn [append]. rewrite IH. reflexivity.
  - pose proof (split_lines_nonempty r) as NE.
    destruct (split_lines r) as [|l ls]; [contradiction|].
    rewrite <- IH. destruct ls; reflexivity.
Qed.

Lemma split_lines_length s : List.length (split_lines s) = S (count_LF s).
Proof.
  induction s as [|c r IH]; [reflexivity|]. cbn [split_lines count_LF].
  destruct (Ascii.eqb c LF); cbn [List.length]; [rewrite IH; reflexivity|].
  pose proof (split_lines_nonempty r) as NE.
  destruct (split_lines r) as [|l ls]; [contradiction|]. exact IH.
Qed.

Lemma split_lines_no_LF s :
  Forall (fun l => has_char (fun c => Ascii.eqb c LF) l = false)
    (split_lines s).
Proof.
  induction s as [|c r IH]; [repeat constructor|]. cbn [split_lines].
  destruct (Ascii.eqb c LF) eqn:E; [constructor; [reflexivity|exact IH]|].
  pose proof (split_lines_nonempty r) as NE.
  destruct (split_lines r) as [|l ls]; [contradiction|].
  inversion IH; subst. constructor; [|assumption].
  cbn [has_char]. rewrite E. assumption.
Qed.

Lemma strip_bullet_no_LF l :
  has_char (fun c => Ascii.eqb c LF) l = false ->
  has_char (fun c => Ascii.eqb c LF) (strip_bullet l) = false.
Proof.
  intros H. unfold strip_bullet.
  repeat match goal with
         | |- context [match ?x with _ => _ end] => destruct x; try exact H
         end.
Qed.

Lemma strip_bullet_eq l :
  strip_bullet l
  = match l with
    | String a (String b rest) =>
        if (Ascii.eqb a "-" && Ascii.eqb b " ")%bool then rest else l
    | _ => l
    end.
Proof.
  destruct l as [|a [|b rest]]; [reflexivity| |].
  - destruct a as [[] [] [] [] [] [] [] []]; reflexivity.
  - destruct a as [[] [] [] [] [] [] [] []]; try reflexivity.
    destruct b as [[] [] [] [] [] [] [] []]; reflexivity.
Qed.

Lemma strip_bullet_cases l :
  (exists rest, l = "- " ++ rest /\ strip_bullet l = rest)
  \/ (~ bulleted l /\ strip_bullet l = l).
Proof.
  rewrite strip_bullet_eq.
  destruct l as [|a [|b rest]];
    try (right; split; [intros [r E]; discriminate|reflexivity]).
  destruct (Ascii.eqb_spec a "-") as [->|NA]; cbn [andb].
  - destruct (Ascii.eqb_spec b " ") as [->|NB].
    + left. exists rest. split; reflexivity.
    + right. split; [intros [r E]; cbn in E; congruence|reflexivity].
  - right. split; [intros [r E]; cbn in E; congruence|reflexivity].
Qed.

(** X19. A description that is not empty is cut at its line feeds: the
    lines contain no line feed, there is one more of them than there are
    line feeds, and joined by line feeds they are the description again.
    Each line gives one responsibility, in the order of the lines: a line
    that begins with the bullet marker "- " gives the line without this
    marker, and every other line, a line that begins with a dash alone
    too, gives the line unchanged. So when every line begins with the
    marker, putting the markers back and joining gives the description
    again, and when none does, joining the texts gives it. A missing or
    empty description gives no responsibility. *)
Theorem responsibilities_are_the_lines (d : string) :
  d <> "" ->
  let rs := responsibilities_of (Some d) in
  let lines := split_lines d in
  join_lines lines = d
  /\ Forall (fun l => has_char (fun c => Ascii.eqb c LF) l = false) lines
  /\ List.length lines = S (count_LF d)
  /\ Forall2
       (fun l r =>
          (exists rest, l = "- " ++ rest /\ text r = rest)
          \/ (~ bulleted l /\ text r = l))
       lines rs
  /\ Forall (fun r => has_char (fun c => Ascii.eqb c LF) (text r) = false) rs
  /\ (Forall bulleted lines ->
      join_lines (map (fun r => "- " ++ text r) rs) = d)
  /\ (Forall (fun l => ~ bulleted l) lines -> join_lines (map text rs) = d)
  /\ responsibilities_of None = []
  /\ responsibilities_of (Some "") = [].
Proof.
  intros NE rs lines. subst rs lines. unfold responsibilities_of.
  assert (T : truthy_str d = true).
  { unfold truthy_str. destruct (String.eqb_spec d ""); [contradiction|].
    reflexivity. }
  rewrite T.
  split; [apply join_split|]. split; [apply split_lines_no_LF|].
  split; [apply split_lines_length|].
  split; [|split; [|split; [|split; [|split; reflexivity]]]].
  - induction (split_lines d) as [|l ls IH]; cbn [map]; constructor;
      [|exact IH].
    cbn [text]. apply strip_bullet_cases.
  - apply Forall_map. cbn [text].
    eapply Forall_impl; [|apply split_lines_no_LF].
    intros l H. apply strip_bullet_no_LF. exact H.
  - intros B. rewrite map_map. cbn [text].
    rewrite <- (join_split d) at 2. f_equal.
    rewrite <- (map_id (split_lines d)) at 2.
    apply map_ext_Forall. eapply Forall_impl; [|exact B].
    intros l [r ->]. reflexivity.
  - intros B. rewrite map_map. cbn [text].
    rewrite <- (join_split d) at 2. f_equal.
    rewrite <- (map_id (split_lines d)) at 2.
    apply map_ext_Forall. eapply Forall_impl; [|exact B].
    intros l NB. destruct (strip_bullet_cases l) as [(r & E & _)|[_ E]];
      [|exact E].
    destruct NB. exists r. exact E.
Qed.











(** X21. For a user without experiences the aggregation throws nothing:
    the total experience and the experience at the company are computed
    as "N/A", the role is "N/A" and the two tables of skills are empty.
    With a template that exists and opens, the answer is decided by the
    renderer, the generation of the document and the headers alone: 500
    with the diagnostics when the renderer rejects the view model, 500
    with the message of what was thrown when the generation or a header
    fails, and the document otherwise. *)
Theorem GET_without_experiences (userId : string) (userData : UserRow)
  (w : World) :
  three_reads_ok userId userData ->
  certification_error userId = None ->
  or_nil (data (from_experiences supabase userId)) = [] ->
  template_exists = true ->
  open_template = Ok tt ->
  let vm := template_data userData userId "N/A" "N/A" in
  total_experience (or_nil (data (from_experiences supabase userId)))
  = Ok "N/A"
  /\ calculateDurationForCompany
       (or_nil (data (from_experiences supabase userId))) "DXC" = Ok "N/A"
  /\ vm_role_in_company vm = "N/A"
  /\ vm_domain_expertise_rows vm = []
  /\ vm_technical_expertise_primary_skills vm = []
  /\ fst (GET (Some userId) w)
     = match docx_render vm with
       | inl err =>
           Ok (JsonResponse 500 "Failed to render CV document."
                 (render_failure_details err))
       | inr rendered =>
           match docx_generate rendered with
           | Throw x =>
               Ok (JsonResponse 500 "Failed to generate CV."
                     (DetailsMessage (thrown_message x)))
           | Ok buf =>
               match headers_of userData with
               | Throw x =>
                   Ok (JsonResponse 500 "Failed to generate CV."
                         (DetailsMessage (thrown_message x)))
               | Ok _ =>
                   Ok (DocxResponse 200 (attachment_header userData) buf)
               end
           end
       end.
Proof.
  intros OK3 CE EX TE OT vm.
  assert (TOT : total_experience (or_nil (data (from_experiences supabase userId)))
                = Ok "N/A") by (rewrite EX; reflexivity).
  assert (DXC : calculateDurationForCompany
                  (or_nil (data (from_experiences supabase userId))) "DXC"
                = Ok "N/A") by (rewrite EX; reflexivity).
  split; [exact TOT|]. split; [exact DXC|].
  split; [subst vm; unfold template_data; rewrite EX; reflexivity|].
  split; [subst vm; unfold template_data; rewrite EX; reflexivity|].
  split; [subst vm; unfold template_data; rewrite EX; reflexivity|].
  destruct (GET_takes_a_path (Some userId) w) as (reads & logs & r & E & P).
  destruct (GET_run _ _ _ _ _ E) as (F & _ & _). rewrite F.
  destruct OK3 as (T & EU & DU & EE & EK).
  inversion P; subst; repeat wrong_path;
    try congruence;
    try (cbn [truthy] in *; unfold truthy_str in *; congruence);
    match goal with
    | D : data (from_users supabase _) = Some ?ud,
      A : total_experience _ = Ok ?t,
      B : calculateDurationForCompany _ _ = Ok ?d |- _ =>
        assert (ud = userData) by congruence;
        assert (t = "N/A") by congruence;
        assert (d = "N/A") by congruence;
        subst; subst vm
    end;
    repeat match goal with
           | R : docx_render _ = _ |- _ => rewrite R; clear R
           | R : docx_generate _ = _ |- _ => rewrite R; clear R
           | R : headers_of _ = _ |- _ => rewrite R; clear R
           end;
    reflexivity.
Qed.

(** X22. The template is looked up after the total experience has been
    computed and before the experience at the company is: when the reads
    succeed, the total does not throw and the template file is missing,
    the answer is 404, whatever the experience at the company and the
    renderer would have given. *)
Theorem GET_template_missing (userId : string) (userData : UserRow)
  (total : string) (w : World) :
  three_reads_ok userId userData ->
  certification_error userId = None ->
  total_experience (or_nil (data (from_experiences supabase userId)))
  = Ok total ->
  template_exists = false ->
  fst (GET (Some userId) w)
  = Ok (JsonResponse 404 "Template file not found." NoDetails)
  /\ issued (snd (GET (Some userId) w)) = (issued w ++ reads_done userId)%list.
Proof.
  intros OK3 CE TOT TE.
  destruct (GET_takes_a_path (Some userId) w) as (reads & logs & r & E & P).
  destruct (GET_run _ _ _ _ _ E) as (F & I & _). rewrite F, I.
  destruct OK3 as (T & EU & DU & EE & EK).
  inversion P; subst; repeat wrong_path;
    try congruence;
    try (cbn [truthy] in *; unfold truthy_str in *; congruence).
  split; reflexivity.
Qed.

(** X23. When the template has been opened and the renderer rejects the
    view model, the answer is 500 with the renderer's own list of
    diagnostics as details, and, when the renderer gives no list, with a
    list of one entry that carries the message of its error; when the
    template cannot be opened, the renderer is not reached and the answer
    is the 500 of the outer handler, with the message of what was
    thrown. *)
Theorem GET_render_failure (userId : string) (userData : UserRow)
  (total : string) (w : World) :
  three_reads_ok userId userData ->
  certification_error userId = None ->
  total_experience (or_nil (data (from_experiences supabase userId)))
  = Ok total ->
  template_exists = true ->
  (forall dxc err,
     open_template = Ok tt ->
     calculateDurationForCompany
       (or_nil (data (from_experiences supabase userId))) "DXC" = Ok dxc ->
     docx_render (template_data userData userId total dxc) = inl err ->
     exists details,
       fst (GET (Some userId) w)
       = Ok (JsonResponse 500 "Failed to render CV document." details)
       /\ (forall errors, render_errors err = Some errors ->
             details = DetailsList errors)
       /\ (render_errors err = None ->
           details
           = DetailsList [{| diag_id := None;
                             diag_message := Some (render_message err);
                             diag_explanation := None |}]))
  /\ (forall x,
        open_template = Throw x ->
        fst (GET (Some userId) w)
        = Ok (JsonResponse 500 "Failed to generate CV."
                (DetailsMessage (thrown_message x)))).
Proof.
  intros OK3 CE TOT TE.
  destruct (GET_takes_a_path (Some userId) w) as (reads & logs & r & E & P).
  destruct (GET_run _ _ _ _ _ E) as (F & _ & _). rewrite F.
  destruct OK3 as (T & EU & DU & EE & EK).
  split.
  - intros dxc err OT DXC R.
    exists (render_failure_details err).
    split; [|unfold render_failure_details; split;
             [intros errors ->; reflexivity|intros ->; reflexivity]].
    inversion P; subst; repeat wrong_path;
      try congruence;
      try (cbn [truthy] in *; unfold truthy_str in *; congruence);
      match goal with
      | D : data (from_users supabase _) = Some ?ud,
        A : total_experience _ = Ok ?t,
        B : calculateDurationForCompany _ _ = Ok ?d,
        R' : docx_render _ = _ |- _ =>
          assert (ud = userData) by congruence;
          assert (t = total) by congruence;
          assert (d = dxc) by congruence;
          subst; congruence
      end.
  - intros x OT.
    inversion P; subst; repeat wrong_path;
      try congruence;
      try (cbn [truthy] in *; unfold truthy_str in *; congruence).
Qed.

(** X24. Both envelope computations hand their two dates to the
    calculator as ISO text. Nothing is lost on the way: for valid dates
    the calculator, given the two texts, answers as for the two dates
    themselves. *)
Theorem calculateDuration_of_ISO_text (a b : Z) :
  Z.abs a <= maxTime -> Z.abs b <= maxTime ->
  toISOString (Num a) = Ok (ISO.format a)
  /\ new_Date (Some (ISO.format a)) = Num a
  /\ calculateDuration (Some (ISO.format a)) (Some (ISO.format b))
     = duration_between (Num a) (Num b).
Proof.
  intros VA VB. split; [reflexivity|]. split.
  - cbn [new_Date]. unfold Date_parse. rewrite parse_format by exact VA.
    reflexivity.
  - rewrite calculateDuration_unfold by apply format_truthy.
    rewrite format_truthy. cbn [new_Date]. unfold Date_parse.
    rewrite !parse_format by assumption. reflexivity.
Qed.

End Route.

Arguments data {A} q.
Arguments error {A} q.

(* ===================================================================== *)
(** ** The definitions at work *)
(* ===================================================================== *)

Example calculateDuration_2y_3m :
  calculateDuration UTC noLegacy clock_2025_11_03
    (Some "2021-03-01") (Some "2023-06-20") = "2 ans 3 mois".
Proof. vm_compute. reflexivity. Qed.

Example calculateDuration_1y :
  calculateDuration UTC noLegacy clock_2025_11_03
    (Some "2021-03-01") (Some "2022-03-20") = "1 an".
Proof. vm_compute. reflexivity. Qed.

Example calculateDuration_borrow :
  calculateDuration UTC noLegacy clock_2025_11_03
    (Some "2021-11-01") (Some "2023-02-01") = "1 an 3 mois".
Proof. vm_compute. reflexivity. Qed.

Example calculateDuration_ongoing :
  calculateDuration UTC noLegacy clock_2025_11_03
    (Some "2025-01-01") None = "10 mois".
Proof. vm_compute. reflexivity. Qed.

Example calculateDuration_invalid_end :
  calculateDuration UTC noLegacy clock_2025_11_03
    (Some "2021-03-01") (Some "infinity") = "Moins d'un mois".
Proof. vm_compute. reflexivity. Qed.

Example calculateDuration_end_before_start :
  calculateDuration UTC noLegacy clock_2025_11_03
    (Some "2023-03-10") (Some "2020-01-20") = "10 mois".
Proof. vm_compute. reflexivity. Qed.

(** The two overlapping stints at one company: one envelope,
    2019-01-01 to 2021-01-01. *)
Example company_envelope_of_overlapping_stints :
  calculateDurationForCompany UTC noLegacy clock_2025_11_03 ascii_toLowerCase
    [acme_a; other_c; acme_b] "acme"
  = Ok (calculateDuration UTC noLegacy clock_2025_11_03
          (Some "2019-01-01") (Some "2021-01-01"))
  /\ calculateDurationForCompany UTC noLegacy clock_2025_11_03 ascii_toLowerCase
       [acme_a; other_c; acme_b] "acme" = Ok "2 ans"
  /\ calculateDurationForCompany UTC noLegacy clock_2025_11_03 ascii_toLowerCase
       [acme_a; other_c; acme_b] "DXC" = Ok "N/A".
Proof. repeat split; vm_compute; reflexivity. Qed.

Example company_invalid_date_throws :
  calculateDurationForCompany UTC noLegacy clock_2025_11_03 ascii_toLowerCase
    [acme_a; bad_start] "acme" = Throw (RangeError "Invalid time value").
Proof. vm_compute. reflexivity. Qed.

Example total_experience_invalid_end_throws :
  total_experience UTC noLegacy clock_2025_11_03
    [stint "Acme" "2019-01-01" (Some "infinity")]
  = Throw (RangeError "Invalid time value").
Proof. vm_compute. reflexivity. Qed.

Example tables_of_experience_without_start :
  technical_expertise_primary_skills UTC noLegacy clock_2025_11_03 [no_start]
  = [{| skill_name_of := Some "Rust"; experience_yrs_months := "" |}]
  /\ domain_expertise_rows UTC noLegacy clock_2025_11_03 [no_start]
     = [{| domain := Some "Languages"; specific_area := Some "Rust";
           domain_experience_yrs_months := "" |}].
Proof. split; vm_compute; reflexivity. Qed.

(** Years 2021, "N/A" and 2023 come out as 2023, 2021, "N/A". *)
Example roster_sorted_by_year :
  map year
    (professional_activities_rows UTC noLegacy
       [cert "A" (Some "2021-03-01"); cert "B" None;
        cert "C" (Some "2023-02-01")] [])
  = [YearNumber (Num 2023); YearNumber (Num 2021); YearText "N/A"].
Proof. vm_compute. reflexivity. Qed.

(* ===================================================================== *)
(** ** Counterexamples and instances of the claims *)
(* ===================================================================== *)

Lemma C1_counterexample :
  tenure_span UTC (new_Date noLegacy (Some "2020-01-15"))
    (new_Date noLegacy (Some "2023-04-10")) <> (Num 3, Num 2)
  /\ calculateDuration UTC noLegacy clock_2025_11_03
       (Some "2020-01-15") (Some "2023-04-10") <> "3 ans 2 mois".
Proof. split; vm_compute; discriminate. Qed.

Lemma C1_witness :
  (forall t, - msPerDay < fixedOffset (-300) t < msPerDay)
  /\ calculateDuration (fixedOffset (-300)) noLegacy clock_2025_11_03
       (Some "2020-01-15") (Some "2023-04-10") = "3 ans 3 mois".
Proof.
  assert (H : forall t, - msPerDay < fixedOffset (-300) t < msPerDay)
    by (intros t; unfold fixedOffset, msPerDay, msPerMinute; lia).
  split; [exact H|].
  exact (proj2 (C1_tenure_2020_01_15_to_2023_04_10
                  (fixedOffset (-300)) noLegacy clock_2025_11_03 H)).
Defined.

(** One start date is not a date, the other experience is sound: the code
    answers "N/A", where leaving the invalid date out gives a tenure. *)
Lemma C2_counterexample :
  start_time noLegacy acme_a = Num 1546300800000
  /\ total_experience UTC noLegacy clock_2025_11_03 [acme_a; bad_start]
     = Ok "N/A"
  /\ total_experience_excluding_invalid UTC noLegacy clock_2025_11_03
       [acme_a; bad_start] = Ok "1 an 5 mois".
Proof. repeat split; vm_compute; reflexivity. Qed.

Lemma C2_witness :
  Exists (fun exp => start_time noLegacy exp = NaN) [acme_a; bad_start]
  /\ total_experience UTC noLegacy clock_2025_11_03 [acme_a; bad_start]
     = Ok "N/A"
  /\ Forall (fun exp => valid_date (start_time noLegacy exp)) [acme_a; acme_b]
  /\ Forall (fun exp => valid_date (effective_end noLegacy clock_2025_11_03 exp))
       [acme_a; acme_b]
  /\ total_experience UTC noLegacy clock_2025_11_03 [acme_a; acme_b]
     = Ok (duration_between UTC (Num 1546300800000) (Num 1609459200000)).
Proof.
  assert (H : Exists (fun exp => start_time noLegacy exp = NaN)
                [acme_a; bad_start])
    by (apply Exists_cons_tl, Exists_cons_hd; reflexivity).
  assert (VS : Forall (fun exp => valid_date (start_time noLegacy exp))
                 [acme_a; acme_b])
    by (repeat constructor; eexists; vm_compute; reflexivity).
  assert (VE : Forall
                 (fun exp =>
                    valid_date (effective_end noLegacy clock_2025_11_03 exp))
                 [acme_a; acme_b])
    by (repeat constructor; eexists; vm_compute; reflexivity).
  split; [exact H|]. split.
  { exact (proj1 (proj2 (C2_total_experience_guard UTC noLegacy
                           clock_2025_11_03 [acme_a; bad_start])) H). }
  split; [exact VS|]. split; [exact VE|].
  destruct (proj2 (proj2 (C2_total_experience_guard UTC noLegacy
                            clock_2025_11_03 [acme_a; acme_b]))
              ltac:(discriminate) VS VE)
    as (tmin & tmax & [Imin Lmin] & [Imax Lmax] & R).
  assert (Imin' : Num 1546300800000 = Num tmin
                  \/ Num 1577836800000 = Num tmin \/ False) by exact Imin.
  assert (Imax' : Num 1590969600000 = Num tmax
                  \/ Num 1609459200000 = Num tmax \/ False) by exact Imax.
  pose proof (Lmin 1546300800000 (or_introl eq_refl)) as B1.
  pose proof (Lmax 1609459200000 (or_intror (or_introl eq_refl))) as B2.
  assert (E1 : tmin = 1546300800000)
    by (destruct Imin' as [E|[E|[]]]; injection E as E; lia).
  assert (E2 : tmax = 1609459200000)
    by (destruct Imax' as [E|[E|[]]]; injection E as E; lia).
  rewrite E1, E2 in R. exact R.
Defined.

(** A training nested under a user skill whose flag is off has no row. *)
Lemma C3_counterexample :
  In unflagged_trainings [unflagged_trainings]
  /\ UserSkill.trainings unflagged_trainings = Some [aws_training]
  /\ ~ In (training_row UTC noLegacy aws_training)
         (professional_activities_rows UTC noLegacy [] [unflagged_trainings]).
Proof.
  split; [left; reflexivity|]. split; [reflexivity|].
  vm_compute. intros [].
Qed.

Lemma C3_witness :
  In flagged_trainings [flagged_trainings]
  /\ truthy_bool (UserSkill.hastrainings flagged_trainings) = true
  /\ UserSkill.trainings flagged_trainings = Some [aws_training]
  /\ In aws_training [aws_training]
  /\ In (training_row UTC noLegacy aws_training)
       (professional_activities_rows UTC noLegacy [] [flagged_trainings]).
Proof.
  assert (I1 : In flagged_trainings [flagged_trainings])
    by (left; reflexivity).
  assert (I2 : In aws_training [aws_training]) by (left; reflexivity).
  repeat split; try assumption.
  exact (proj1 (C3_flagged_training_rows UTC noLegacy []
                  [flagged_trainings] flagged_trainings [aws_training]
                  aws_training I1 eq_refl eq_refl I2)).
Defined.

Lemma C4_witness :
  let experiences := [acme_a; other_c; acme_b] in
  let matching := filter (company_matches ascii_toLowerCase "acme") experiences in
  matching <> []
  /\ Forall (fun exp => valid_date (start_time noLegacy exp)) matching
  /\ Forall (fun exp => valid_date (effective_end noLegacy clock_2025_11_03 exp))
       matching
  /\ calculateDurationForCompany UTC noLegacy clock_2025_11_03 ascii_toLowerCase
       experiences "acme"
     = Ok (duration_between UTC (Num 1546300800000) (Num 1609459200000)).
Proof.
  intros experiences matching.
  assert (NE : matching <> []) by (vm_compute; discriminate).
  assert (VS : Forall (fun exp => valid_date (start_time noLegacy exp))
                 matching)
    by (repeat constructor; eexists; vm_compute; reflexivity).
  assert (VE : Forall
                 (fun exp =>
                    valid_date (effective_end noLegacy clock_2025_11_03 exp))
                 matching)
    by (repeat constructor; eexists; vm_compute; reflexivity).
  split; [exact NE|]. split; [exact VS|]. split; [exact VE|].
  destruct (proj2 (proj2 (proj2 (proj2
              (C4_company_envelope UTC noLegacy clock_2025_11_03 ascii_toLowerCase
                 experiences "acme")))) NE VS VE)
    as (tmin & tmax & [Imin Lmin] & [Imax Lmax] & R).
  assert (Imin' : Num 1546300800000 = Num tmin
                  \/ Num 1577836800000 = Num tmin \/ False) by exact Imin.
  assert (Imax' : Num 1590969600000 = Num tmax
                  \/ Num 1609459200000 = Num tmax \/ False) by exact Imax.
  pose proof (Lmin 1546300800000 (or_introl eq_refl)) as B1.
  pose proof (Lmax 1609459200000 (or_intror (or_introl eq_refl))) as B2.
  assert (E1 : tmin = 1546300800000)
    by (destruct Imin' as [E|[E|[]]]; injection E as E; lia).
  assert (E2 : tmax = 1609459200000)
    by (destruct Imax' as [E|[E|[]]]; injection E as E; lia).
  rewrite E1, E2 in R. exact R.
Defined.

Lemma C5_witness :
  "2020-01-15" <> ""
  /\ new_Date noLegacy (Some "2020-01-15") = Num utc_2020_01_15
  /\ (if truthy (Some "2020-01-31") then new_Date noLegacy (Some "2020-01-31")
      else Date_now clock_2025_11_03) = Num 1580428800000
  /\ calculateDuration UTC noLegacy clock_2025_11_03
       (Some "2020-01-15") (Some "2020-01-31") = "Moins d'un mois".
Proof.
  assert (NE : "2020-01-15" <> "") by discriminate.
  split; [exact NE|]. do 2 (split; [reflexivity|]).
  apply (proj1 (proj2 (proj2 (proj2 (proj2 (proj2
           (C5_calendar_month_arithmetic UTC noLegacy clock_2025_11_03
              "2020-01-15" (Some "2020-01-31") utc_2020_01_15 1580428800000
              NE eq_refl eq_refl)))))));
    reflexivity.
Defined.

(** The user skill has a certification name of its own: the synthetic row
    carries that name, not the name of the skill. *)
Lemma C6_counterexample :
  truthy_bool (UserSkill.hascertification certified_named) = true
  /\ skill_name certified_named = Some "AWS"
  /\ map course_certification_name
       (professional_activities_rows UTC noLegacy [] [certified_named])
     = [Some "Solutions Architect Associate"]
  /\ map course_certification_name
       (professional_activities_rows UTC noLegacy [] [certified_named])
     <> [Some "AWS"].
Proof. repeat split; vm_compute; try reflexivity; discriminate. Qed.

Lemma C6_witness :
  truthy_bool (UserSkill.hascertification certified_unnamed) = true
  /\ professional_activities_rows UTC noLegacy [] [certified_unnamed]
     = [user_skill_row UTC noLegacy certified_unnamed]
  /\ course_certification_name (user_skill_row UTC noLegacy certified_unnamed)
     = Some "AWS".
Proof.
  split; [reflexivity|]. split.
  - exact (proj2 (proj2 (proj2 (proj2 (proj2
             (C6_one_synthetic_row UTC noLegacy [] [] [] certified_unnamed
                eq_refl))))) eq_refl).
  - exact (proj1 (proj2 (proj2 (proj2
             (C6_one_synthetic_row UTC noLegacy [] [] [] certified_unnamed
                eq_refl)))) eq_refl eq_refl).
Defined.

(** C7, at an input on which the code departs from it. A certification
    dated "infinity" (a value of a date column that [Date] cannot read)
    gets the year [NaN], which is a number for [typeof]: the comparator
    answers [NaN] for it, the sort reads that as "equal", and the row
    stays in front of the row of year 2023 instead of sorting as year 0,
    after it. *)
Theorem C7_unparseable_year_stays_in_front :
  map year
    (activities_pushed UTC noLegacy [cert "Old" (Some "infinity")]
       [certified_unnamed])
  = [YearNumber NaN; YearNumber (Num 2023)]
  /\ map year
       (professional_activities_rows UTC noLegacy
          [cert "Old" (Some "infinity")] [certified_unnamed])
     = [YearNumber NaN; YearNumber (Num 2023)].
Proof. split; vm_compute; reflexivity. Qed.

Lemma C8_witness :
  "u-1" <> ""
  /\ error (from_users failing_user_skills "u-1") = None
  /\ data (from_users failing_user_skills "u-1") = Some ada
  /\ error (from_experiences failing_user_skills "u-1") = None
  /\ error (from_user_skills failing_user_skills "u-1")
     = Some "permission denied for table user_skills"
  /\ fst (GET UTC noLegacy clock_2025_11_03 ascii_toLowerCase true render_ok
            failing_user_skills open_ok generate_ok headers_ok (Some "u-1") empty_world)
     = Ok (JsonResponse 500 "Failed to generate CV."
             (DetailsMessage "permission denied for table user_skills"))
  /\ issued (snd (GET UTC noLegacy clock_2025_11_03 ascii_toLowerCase true render_ok
                    failing_user_skills open_ok generate_ok headers_ok (Some "u-1") empty_world))
     = [ReadUser "u-1"; ReadExperiences "u-1"; ReadUserSkills "u-1"].
Proof.
  assert (NE : "u-1" <> "") by discriminate.
  split; [exact NE|]. do 4 (split; [reflexivity|]).
  pose proof (C8_user_skills_read_failure UTC noLegacy clock_2025_11_03 ascii_toLowerCase
                true render_ok failing_user_skills open_ok generate_ok headers_ok "u-1" ada
                "permission denied for table user_skills" empty_world
                NE eq_refl eq_refl eq_refl eq_refl) as H.
  split; [exact (proj1 H)|exact (proj1 (proj2 H))].
Defined.

Lemma C9_witness :
  Experience.startdate no_start = None
  /\ has_hard_skill (Some "Rust") no_start = true
  /\ In {| skill_name_of := Some "Rust"; experience_yrs_months := "" |}
       (technical_expertise_primary_skills UTC noLegacy clock_2025_11_03
          [acme_a; no_start; other_c])
  /\ In {| domain := Some "Languages"; specific_area := Some "Rust";
           domain_experience_yrs_months := "" |}
       (domain_expertise_rows UTC noLegacy clock_2025_11_03
          [acme_a; no_start; other_c]).
Proof.
  pose proof (C9_no_start_date_empty_text UTC noLegacy clock_2025_11_03 None
                [acme_a] [other_c] no_start eq_refl) as H.
  cbv zeta in H. destruct H as (_ & _ & _ & _ & T & D & _).
  split; [reflexivity|]. split; [reflexivity|]. split.
  - apply (T (Some "Rust") eq_refl).
    intros exp' [<-|[]]. reflexivity.
  - apply (D (Some "Languages") (Some "Rust") eq_refl).
    intros exp' [<-|[]]. reflexivity.
Defined.

Lemma C10_witness :
  "2023-03-10" <> ""
  /\ new_Date noLegacy (Some "2023-03-10") = Num 1678406400000
  /\ (if truthy (Some "2020-03-20") then new_Date noLegacy (Some "2020-03-20")
      else Date_now clock_2025_11_03) = Num 1584662400000
  /\ YearFromTime (LocalTime UTC 1584662400000)
     - YearFromTime (LocalTime UTC 1678406400000) = -3
  /\ calculateDuration UTC noLegacy clock_2025_11_03
       (Some "2023-03-10") (Some "2020-03-20") = "Moins d'un mois".
Proof.
  assert (NE : "2023-03-10" <> "") by discriminate.
  split; [exact NE|]. do 3 (split; [reflexivity|]).
  apply (proj2 (proj2 (C10_negative_years_dropped UTC noLegacy
                         clock_2025_11_03 "2023-03-10" (Some "2020-03-20")
                         1678406400000 1584662400000 NE eq_refl eq_refl)));
    [vm_compute; discriminate|reflexivity].
Defined.

(** The happy path: four reads, then the document. *)
Example GET_all_reads_succeed :
  let store :=
    {| from_users := fun _ => {| data := Some ada; error := None |};
       from_experiences :=
         fun _ => {| data := Some [acme_b; acme_a]; error := None |};
       from_user_skills :=
         fun _ => {| data := Some [certified_unnamed]; error := None |};
       from_certifications := fun _ => {| data := Some []; error := None |} |}
  in
  fst (GET UTC noLegacy clock_2025_11_03 ascii_toLowerCase true render_ok store open_ok generate_ok headers_ok (Some "u-1")
         empty_world)
  = Ok (DocxResponse 200
          ("attachment; filename=" ++ dquote ++ "cv_Ada_Lovelace.docx"
             ++ dquote) "docx.zip")
  /\ issued (snd (GET UTC noLegacy clock_2025_11_03 ascii_toLowerCase true render_ok store open_ok generate_ok headers_ok
                    (Some "u-1") empty_world))
     = [ReadUser "u-1"; ReadExperiences "u-1"; ReadUserSkills "u-1";
        ReadCertifications ["us-1"]].
Proof. split; vm_compute; reflexivity. Qed.

(* ===================================================================== *)
(** ** Instances of the further properties *)
(* ===================================================================== *)

Example responsibilities_of_two_bullets :
  map text (responsibilities_of (Some two_bullets))
  = ["Led team"; "Shipped v2"].
Proof. vm_compute. reflexivity. Qed.

(** White space outside ASCII is replaced too, and a header that
    [Headers] refuses costs the document. *)
Example file_name_of_spaced_name :
  has_white_space spaced_name = true
  /\ replace_spaces spaced_name false = "Ada_Lovelace"
  /\ replace_spaces ("  Ada " ++ String (ascii_of_nat 9) "Lovelace ") false
     = "_Ada_Lovelace_".
Proof. repeat split. Qed.

Example GET_header_refused :
  fst (GET UTC noLegacy clock_2025_11_03 ascii_toLowerCase true render_ok
         store_complete open_ok generate_ok headers_refused (Some "u-1")
         empty_world)
  = Ok (JsonResponse 500 "Failed to generate CV."
          (DetailsMessage "Cannot convert argument to a ByteString")).
Proof. vm_compute. reflexivity. Qed.

Example GET_render_rejected :
  fst (GET UTC noLegacy clock_2025_11_03 ascii_toLowerCase true render_rejects store_complete open_ok generate_ok headers_ok
         (Some "u-1") empty_world)
  = Ok (JsonResponse 500 "Failed to render CV document."
          (DetailsList [{| diag_id := Some "unopened_tag";
                           diag_message := Some "Unopened tag";
                           diag_explanation := None |}])).
Proof. vm_compute. reflexivity. Qed.

Lemma GET_document_only_on_success_witness :
  fst (GET UTC noLegacy clock_2025_11_03 ascii_toLowerCase true render_ok store_complete open_ok generate_ok headers_ok
         (Some "u-1") empty_world)
  = Ok (DocxResponse 200
          ("attachment; filename=" ++ dquote ++ "cv_Ada_Lovelace.docx"
             ++ dquote) "docx.zip")
  /\ exists userData total,
       three_reads_ok store_complete "u-1" userData
       /\ total_experience UTC noLegacy clock_2025_11_03
            (or_nil (data (from_experiences store_complete "u-1")))
          = Ok total.
Proof.
  assert (H : fst (GET UTC noLegacy clock_2025_11_03 ascii_toLowerCase true render_ok
                     store_complete open_ok generate_ok headers_ok (Some "u-1") empty_world)
              = Ok (DocxResponse 200
                      ("attachment; filename=" ++ dquote
                         ++ "cv_Ada_Lovelace.docx" ++ dquote) "docx.zip"))
    by (vm_compute; reflexivity).
  split; [exact H|].
  destruct (GET_document_only_on_success UTC noLegacy clock_2025_11_03 ascii_toLowerCase true
              render_ok store_complete open_ok generate_ok headers_ok (Some "u-1") empty_world _ _ _ H)
    as (u & userData & total & dxc & rendered & E & OK3 & _ & T & _).
  injection E as <-. exists userData, total. split; [exact OK3|exact T].
Defined.

Lemma GET_user_not_found_witness :
  "u-1" <> ""
  /\ (error (from_users store_without_user "u-1") <> None
      \/ data (from_users store_without_user "u-1") = None)
  /\ fst (GET UTC noLegacy clock_2025_11_03 ascii_toLowerCase true render_ok store_without_user open_ok generate_ok headers_ok
            (Some "u-1") empty_world)
     = Ok (JsonResponse 404 "User not found or error fetching user data."
             NoDetails).
Proof.
  assert (NE : "u-1" <> "") by discriminate.
  assert (H : error (from_users store_without_user "u-1") <> None
              \/ data (from_users store_without_user "u-1") = None)
    by (right; reflexivity).
  split; [exact NE|]. split; [exact H|].
  exact (proj1 (GET_user_not_found UTC noLegacy clock_2025_11_03 ascii_toLowerCase true
                  render_ok store_without_user open_ok generate_ok headers_ok "u-1" empty_world NE H)).
Defined.

Lemma GET_experiences_read_failure_witness :
  "u-1" <> ""
  /\ error (from_users store_failing_experiences "u-1") = None
  /\ data (from_users store_failing_experiences "u-1") = Some ada
  /\ error (from_experiences store_failing_experiences "u-1")
     = Some "connection reset"
  /\ issued (snd (GET UTC noLegacy clock_2025_11_03 ascii_toLowerCase true render_ok
                    store_failing_experiences open_ok generate_ok headers_ok (Some "u-1") empty_world))
     = [ReadUser "u-1"; ReadExperiences "u-1"].
Proof.
  assert (NE : "u-1" <> "") by discriminate.
  split; [exact NE|]. do 3 (split; [reflexivity|]).
  exact (proj2 (GET_experiences_read_failure UTC noLegacy clock_2025_11_03 ascii_toLowerCase
                  true render_ok store_failing_experiences open_ok generate_ok headers_ok "u-1" ada
                  "connection reset" empty_world NE eq_refl eq_refl eq_refl)).
Defined.

Lemma three_reads_ok_failing_certifications :
  three_reads_ok store_failing_certifications "u-1" ada.
Proof. repeat split. Defined.

Lemma GET_certifications_read_failure_witness :
  three_reads_ok store_failing_certifications "u-1" ada
  /\ certification_ids store_failing_certifications "u-1" <> []
  /\ error (from_certifications store_failing_certifications
              (certification_ids store_failing_certifications "u-1"))
     = Some "statement timeout"
  /\ fst (GET UTC noLegacy clock_2025_11_03 ascii_toLowerCase true render_ok
            store_failing_certifications open_ok generate_ok headers_ok (Some "u-1") empty_world)
     = Ok (JsonResponse 500 "Failed to generate CV."
             (DetailsMessage "statement timeout")).
Proof.
  assert (NI : certification_ids store_failing_certifications "u-1" <> [])
    by (vm_compute; discriminate).
  split; [exact three_reads_ok_failing_certifications|].
  split; [exact NI|]. split; [reflexivity|].
  exact (proj1 (GET_certifications_read_failure UTC noLegacy
                  clock_2025_11_03 ascii_toLowerCase true render_ok
                  store_failing_certifications open_ok generate_ok headers_ok "u-1" ada "statement timeout"
                  empty_world three_reads_ok_failing_certifications NI
                  eq_refl)).
Defined.

Lemma three_reads_ok_without_experiences :
  three_reads_ok store_without_experiences "u-1" ada.
Proof. repeat split. Defined.

Lemma GET_certifications_read_iff_ids_witness :
  three_reads_ok store_without_experiences "u-1" ada
  /\ certification_ids store_without_experiences "u-1" = []
  /\ issued (snd (GET UTC noLegacy clock_2025_11_03 ascii_toLowerCase true render_ok
                    store_without_experiences open_ok generate_ok headers_ok (Some "u-1") empty_world))
     = [ReadUser "u-1"; ReadExperiences "u-1"; ReadUserSkills "u-1"].
Proof.
  split; [exact three_reads_ok_without_experiences|].
  split; [reflexivity|].
  exact (proj1 (proj1 (GET_certifications_read_iff_ids UTC noLegacy
                         clock_2025_11_03 ascii_toLowerCase true render_ok
                         store_without_experiences open_ok generate_ok headers_ok "u-1" ada empty_world
                         three_reads_ok_without_experiences) eq_refl)).
Defined.

Lemma calculateDuration_invalid_date_witness :
  "infinity" <> ""
  /\ (new_Date noLegacy (Some "infinity") = NaN
      \/ (if truthy (Some "2021-01-01")
          then new_Date noLegacy (Some "2021-01-01")
          else Date_now clock_2025_11_03) = NaN)
  /\ calculateDuration UTC noLegacy clock_2025_11_03
       (Some "infinity") (Some "2021-01-01") = "Moins d'un mois".
Proof.
  assert (NE : "infinity" <> "") by discriminate.
  assert (H : new_Date noLegacy (Some "infinity") = NaN
              \/ (if truthy (Some "2021-01-01")
                  then new_Date noLegacy (Some "2021-01-01")
                  else Date_now clock_2025_11_03) = NaN)
    by (left; reflexivity).
  split; [exact NE|]. split; [exact H|].
  exact (calculateDuration_invalid_date UTC noLegacy clock_2025_11_03
           "infinity" (Some "2021-01-01") NE H).
Defined.

Lemma calculateDuration_ongoing_is_until_now_witness :
  Z.abs clock_2025_11_03 <= maxTime
  /\ truthy None = false
  /\ calculateDuration UTC noLegacy clock_2025_11_03 (Some "2025-01-01") None
     = calculateDuration UTC noLegacy clock_2025_11_03 (Some "2025-01-01")
         (Some (ISO.format clock_2025_11_03)).
Proof.
  assert (V : Z.abs clock_2025_11_03 <= maxTime)
    by (vm_compute; discriminate).
  split; [exact V|]. split; [reflexivity|].
  exact (calculateDuration_ongoing_is_until_now UTC noLegacy
           clock_2025_11_03 (Some "2025-01-01") None V eq_refl).
Defined.

Lemma calculateDuration_year_and_month_phrases_witness :
  "2021-03-01" <> ""
  /\ new_Date noLegacy (Some "2021-03-01") = Num 1614556800000
  /\ (if truthy (Some "2023-06-20") then new_Date noLegacy (Some "2023-06-20")
      else Date_now clock_2025_11_03) = Num 1687219200000
  /\ calculateDuration UTC noLegacy clock_2025_11_03
       (Some "2021-03-01") (Some "2023-06-20")
     = "2" ++ " an" ++ "s" ++ " " ++ "3" ++ " mois".
Proof.
  assert (NE : "2021-03-01" <> "") by discriminate.
  split; [exact NE|]. do 2 (split; [reflexivity|]).
  exact (calculateDuration_year_and_month_phrases UTC noLegacy
           clock_2025_11_03 "2021-03-01" (Some "2023-06-20")
           1614556800000 1687219200000 NE eq_refl eq_refl
           ltac:(vm_compute; discriminate)).
Defined.

Lemma calculateDurationForCompany_invalid_date_throws_witness :
  Exists (fun exp => start_time noLegacy exp = NaN
                     \/ effective_end noLegacy clock_2025_11_03 exp = NaN)
    (filter (company_matches ascii_toLowerCase "acme") [acme_a; other_c; bad_start])
  /\ calculateDurationForCompany UTC noLegacy clock_2025_11_03 ascii_toLowerCase
       [acme_a; other_c; bad_start] "acme"
     = Throw (RangeError "Invalid time value").
Proof.
  assert (H : Exists
                (fun exp => start_time noLegacy exp = NaN
                            \/ effective_end noLegacy clock_2025_11_03 exp
                               = NaN)
                (filter (company_matches ascii_toLowerCase "acme")
                   [acme_a; other_c; bad_start]))
    by (apply Exists_cons_tl, Exists_cons_hd; left; reflexivity).
  split; [exact H|].
  exact (calculateDurationForCompany_invalid_date_throws UTC noLegacy
           clock_2025_11_03 ascii_toLowerCase [acme_a; other_c; bad_start] "acme" H).
Defined.

Lemma total_experience_unguarded_end_date_witness :
  let experiences := [acme_a; stint "Acme" "2019-01-01" (Some "infinity")] in
  Forall (fun exp => valid_date (start_time noLegacy exp)) experiences
  /\ Exists (fun exp => effective_end noLegacy clock_2025_11_03 exp = NaN)
       experiences
  /\ total_experience UTC noLegacy clock_2025_11_03 experiences
     = Throw (RangeError "Invalid time value").
Proof.
  intros experiences.
  assert (VS : Forall (fun exp => valid_date (start_time noLegacy exp))
                 experiences)
    by (repeat constructor; eexists; vm_compute; reflexivity).
  assert (EX : Exists
                 (fun exp => effective_end noLegacy clock_2025_11_03 exp = NaN)
                 experiences)
    by (apply Exists_cons_tl, Exists_cons_hd; reflexivity).
  split; [exact VS|]. split; [exact EX|].
  exact (total_experience_unguarded_end_date UTC noLegacy clock_2025_11_03
           experiences VS EX).
Defined.

Lemma calculateDurationForCompany_matching_only_witness :
  Permutation (filter (company_matches ascii_toLowerCase "acme") [acme_a; other_c; acme_b])
    (filter (company_matches ascii_toLowerCase "acme") [acme_b; acme_a])
  /\ calculateDurationForCompany UTC noLegacy clock_2025_11_03 ascii_toLowerCase
       [acme_a; other_c; acme_b] "acme"
     = calculateDurationForCompany UTC noLegacy clock_2025_11_03 ascii_toLowerCase
         [acme_b; acme_a] "acme".
Proof.
  assert (P : Permutation
                (filter (company_matches ascii_toLowerCase "acme") [acme_a; other_c; acme_b])
                (filter (company_matches ascii_toLowerCase "acme") [acme_b; acme_a]))
    by (apply (perm_swap acme_b acme_a [])).
  split; [exact P|].
  exact (calculateDurationForCompany_matching_only UTC noLegacy
           clock_2025_11_03 ascii_toLowerCase _ _ "acme" P).
Defined.

Lemma total_experience_order_independent_witness :
  Permutation [acme_a; other_c; acme_b] [other_c; acme_b; acme_a]
  /\ total_experience UTC noLegacy clock_2025_11_03 [acme_a; other_c; acme_b]
     = total_experience UTC noLegacy clock_2025_11_03
         [other_c; acme_b; acme_a].
Proof.
  assert (P : Permutation [acme_a; other_c; acme_b] [other_c; acme_b; acme_a])
    by (apply (Permutation_cons_append [other_c; acme_b] acme_a)).
  split; [exact P|].
  exact (total_experience_order_independent UTC noLegacy clock_2025_11_03
           _ _ P).
Defined.

Lemma roster_sorted_and_stable_witness :
  let certifications :=
    [cert "A" (Some "2021-03-01"); cert "B" None;
     cert "C" (Some "2023-02-01")] in
  Forall (fun c => date_readable noLegacy (Certification.date c))
    certifications
  /\ Forall (user_skill_dates_readable noLegacy) [flagged_trainings]
  /\ Sorted year_ge
       (professional_activities_rows UTC noLegacy certifications
          [flagged_trainings]).
Proof.
  intros certifications.
  assert (FC : Forall (fun c => date_readable noLegacy (Certification.date c))
                 certifications).
  { constructor; [right; eexists; reflexivity|].
    constructor; [left; reflexivity|].
    constructor; [right; eexists; reflexivity|constructor]. }
  assert (FU : Forall (user_skill_dates_readable noLegacy) [flagged_trainings]).
  { constructor; [|constructor]. split; [left; reflexivity|].
    constructor; [right; eexists; reflexivity|constructor]. }
  split; [exact FC|]. split; [exact FU|].
  exact (proj1 (roster_sorted_and_stable UTC noLegacy certifications
                  [flagged_trainings] FC FU)).
Defined.

Lemma responsibilities_are_the_lines_witness :
  two_bullets <> ""
  /\ Forall bulleted (split_lines two_bullets)
  /\ Forall2
       (fun l r =>
          (exists rest, l = "- " ++ rest /\ text r = rest)
          \/ (~ bulleted l /\ text r = l))
       (split_lines two_bullets) (responsibilities_of (Some two_bullets))
  /\ join_lines
       (map (fun r => "- " ++ text r) (responsibilities_of (Some two_bullets)))
     = two_bullets.
Proof.
  assert (NE : two_bullets <> "") by discriminate.
  assert (B : Forall bulleted (split_lines two_bullets)).
  { constructor; [eexists; reflexivity|].
    constructor; [eexists; reflexivity|constructor]. }
  pose proof (responsibilities_are_the_lines two_bullets NE) as H.
  cbv zeta in H. destruct H as (_ & _ & _ & F & _ & R & _).
  split; [exact NE|]. split; [exact B|]. split; [exact F|].
  apply R. exact B.
Defined.

Lemma GET_without_experiences_witness :
  three_reads_ok store_without_experiences "u-1" ada
  /\ certification_error store_without_experiences "u-1" = None
  /\ or_nil (data (from_experiences store_without_experiences "u-1")) = []
  /\ fst (GET UTC noLegacy clock_2025_11_03 ascii_toLowerCase true render_ok
            store_without_experiences open_ok generate_ok headers_ok
            (Some "u-1") empty_world)
     = Ok (DocxResponse 200 (attachment_header ada) "docx.zip").
Proof.
  split; [exact three_reads_ok_without_experiences|].
  do 2 (split; [reflexivity|]).
  exact (proj2 (proj2 (proj2 (proj2 (proj2
           (GET_without_experiences UTC noLegacy clock_2025_11_03
              ascii_toLowerCase true render_ok store_without_experiences
              open_ok generate_ok headers_ok "u-1" ada empty_world
              three_reads_ok_without_experiences eq_refl eq_refl eq_refl
              eq_refl)))))).
Defined.

Lemma GET_template_missing_witness :
  three_reads_ok store_without_experiences "u-1" ada
  /\ certification_error store_without_experiences "u-1" = None
  /\ total_experience UTC noLegacy clock_2025_11_03
       (or_nil (data (from_experiences store_without_experiences "u-1")))
     = Ok "N/A"
  /\ fst (GET UTC noLegacy clock_2025_11_03 ascii_toLowerCase false render_ok
            store_without_experiences open_ok generate_ok headers_ok (Some "u-1") empty_world)
     = Ok (JsonResponse 404 "Template file not found." NoDetails).
Proof.
  split; [exact three_reads_ok_without_experiences|].
  do 2 (split; [reflexivity|]).
  exact (proj1 (GET_template_missing UTC noLegacy clock_2025_11_03 ascii_toLowerCase false
                  render_ok store_without_experiences open_ok generate_ok headers_ok "u-1" ada "N/A"
                  empty_world three_reads_ok_without_experiences eq_refl
                  eq_refl eq_refl)).
Defined.

Lemma GET_render_failure_witness :
  three_reads_ok store_without_experiences "u-1" ada
  /\ (exists details,
        fst (GET UTC noLegacy clock_2025_11_03 ascii_toLowerCase true
               render_rejects store_without_experiences open_ok generate_ok
               headers_ok (Some "u-1") empty_world)
        = Ok (JsonResponse 500 "Failed to render CV document." details))
  /\ fst (GET UTC noLegacy clock_2025_11_03 ascii_toLowerCase true
            render_ok store_without_experiences
            (Throw (HostError "ENOENT: no such file")) generate_ok
            headers_ok (Some "u-1") empty_world)
     = Ok (JsonResponse 500 "Failed to generate CV."
             (DetailsMessage "ENOENT: no such file")).
Proof.
  split; [exact three_reads_ok_without_experiences|]. split.
  - destruct (proj1 (GET_render_failure UTC noLegacy clock_2025_11_03
                       ascii_toLowerCase true render_rejects
                       store_without_experiences open_ok generate_ok
                       headers_ok "u-1" ada "N/A" empty_world
                       three_reads_ok_without_experiences eq_refl eq_refl
                       eq_refl)
                "N/A"
                {| render_message := "Multi error";
                   render_errors :=
                     Some [{| diag_id := Some "unopened_tag";
                              diag_message := Some "Unopened tag";
                              diag_explanation := None |}] |}
                eq_refl eq_refl eq_refl) as (details & H & _).
    exists details. exact H.
  - exact (proj2 (GET_render_failure UTC noLegacy clock_2025_11_03
                    ascii_toLowerCase true render_ok
                    store_without_experiences
                    (Throw (HostError "ENOENT: no such file")) generate_ok
                    headers_ok "u-1" ada "N/A" empty_world
                    three_reads_ok_without_experiences eq_refl eq_refl
                    eq_refl)
             (HostError "ENOENT: no such file") eq_refl).
Defined.

Lemma calculateDuration_of_ISO_text_witness :
  Z.abs utc_2020_01_15 <= maxTime
  /\ Z.abs utc_2023_04_10 <= maxTime
  /\ calculateDuration UTC noLegacy clock_2025_11_03
       (Some (ISO.format utc_2020_01_15)) (Some (ISO.format utc_2023_04_10))
     = duration_between UTC (Num utc_2020_01_15) (Num utc_2023_04_10).
Proof.
  assert (VA : Z.abs utc_2020_01_15 <= maxTime) by (vm_compute; discriminate).
  assert (VB : Z.abs utc_2023_04_10 <= maxTime) by (vm_compute; discriminate).
  split; [exact VA|]. split; [exact VB|].
  exact (proj2 (proj2 (calculateDuration_of_ISO_text UTC noLegacy
                         clock_2025_11_03 _ _ VA VB))).
Defined.
